(** * CaptLive: the Douyin barrage fetcher and its recording manager

    A shallow embedding of [app/douyin_fetcher/streamcap_adapter.py]
    ([StreamCapDouyinFetcher]) and [app/core/barrage_manager.py]
    ([BarrageManager]), and the properties of them that the design
    document states.

    Layout: first the Python values the two files compute with (text,
    byte strings, exceptions, MD5), then the decoded protobuf messages,
    the state-and-exception monad in which the callbacks run, the fetcher,
    the manager, and last the theorems. *)

From Stdlib Require Import ZArith QArith Qround Lqa List Lia.
From Stdlib.Strings Require Import String Ascii Byte.
From Stdlib Require Import DecimalString.
From stdpp Require Import base decidable option list gmap fin_maps.

Local Open Scope Z_scope.

(** ** Python values *)

Module Py.

(** [bytes] is a sequence of octets; [str] is a sequence of Unicode code
    points, which is what [len], slicing and iteration see. *)
Abbreviation bytes := (list byte).
Abbreviation str := (list Z).

Definition ord_byte (b : byte) : Z := Z.of_N (Byte.to_N b).
Definition byte_of_Z (z : Z) : byte :=
  match Byte.of_N (Z.to_N (z mod 256)) with Some b => b | None => x00 end.

(** *** Exceptions: only the text is ever observed ([f"{e}"]). *)
Record Exn := Exception { exn_text : str }.

Inductive Result (A : Type) := Ok (a : A) | Raise (e : Exn).
Arguments Ok {A} a.
Arguments Raise {A} e.

(** *** [bytes.decode('utf-8', errors='ignore')]

    CPython's decoder: an invalid start byte is dropped alone, a bad
    continuation drops the bytes before it, a truncated tail is dropped
    whole. *)
Definition is_continuation (b : Z) : bool := (128 <=? b) && (b <? 192).

Fixpoint utf8_ignore (s : list Z) : str :=
  match s with
  | [] => []
  | ch :: s1 =>
    if ch <? 128 then ch :: utf8_ignore s1
    else if ch <? 194 then utf8_ignore s1
    else if ch <? 224 then
      match s1 with
      | [] => []
      | ch2 :: s2 =>
        if is_continuation ch2
        then (Z.land ch 31 * 64 + Z.land ch2 63) :: utf8_ignore s2
        else utf8_ignore s1
      end
    else if ch <? 240 then
      match s1 with
      | [] => []
      | ch2 :: s2 =>
        if negb (is_continuation ch2) || (if ch2 <? 160 then ch =? 224 else ch =? 237)
        then utf8_ignore s1
        else match s2 with
             | [] => []
             | ch3 :: s3 =>
               if is_continuation ch3
               then (Z.land ch 15 * 4096 + Z.land ch2 63 * 64 + Z.land ch3 63)
                      :: utf8_ignore s3
               else utf8_ignore s2
             end
      end
    else if ch <? 245 then
      match s1 with
      | [] => []
      | ch2 :: s2 =>
        if negb (is_continuation ch2) || (if ch2 <? 144 then ch =? 240 else ch =? 244)
        then utf8_ignore s1
        else match s2 with
             | [] => []
             | ch3 :: s3 =>
               if negb (is_continuation ch3) then utf8_ignore s2
               else match s3 with
                    | [] => []
                    | ch4 :: s4 =>
                      if is_continuation ch4
                      then (Z.land ch 7 * 262144 + Z.land ch2 63 * 4096
                            + Z.land ch3 63 * 64 + Z.land ch4 63) :: utf8_ignore s4
                      else utf8_ignore s3
                    end
             end
      end
    else utf8_ignore s1
  end.

Definition decode_utf8_ignore (b : bytes) : str := utf8_ignore (map ord_byte b).

(** A literal of the source, given by its UTF-8 text. *)
Definition lit (s : string) : str := decode_utf8_ignore (list_byte_of_string s).

Definition nl : str := [10].

(** *** [str.encode()] (UTF-8, strict): lone surrogates are refused. *)
Definition encode_char (c : Z) : option (list Z) :=
  if c <? 0 then None
  else if c <? 128 then Some [c]
  else if c <? 2048 then Some [192 + c / 64; 128 + c mod 64]
  else if (55296 <=? c) && (c <? 57344) then None
  else if c <? 65536 then Some [224 + c / 4096; 128 + (c / 64) mod 64; 128 + c mod 64]
  else if c <? 1114112
       then Some [240 + c / 262144; 128 + (c / 4096) mod 64;
                  128 + (c / 64) mod 64; 128 + c mod 64]
  else None.

Definition UnicodeEncodeError : Exn :=
  Exception (lit "'utf-8' codec can't encode character: surrogates not allowed").

Fixpoint encode_utf8 (s : str) : Result bytes :=
  match s with
  | [] => Ok []
  | c :: s' =>
    match encode_char c with
    | None => Raise UnicodeEncodeError
    | Some bs =>
      match encode_utf8 s' with
      | Ok r => Ok (map byte_of_Z bs ++ r)
      | Raise e => Raise e
      end
    end
  end.

(** *** Text helpers *)

(** [str(n)] for an [int]. *)
Definition str_of_int (n : Z) : str := lit (NilZero.string_of_int (Z.to_int n)).

Fixpoint startswith (p s : str) : bool :=
  match p, s with
  | [], _ => true
  | _ :: _, [] => false
  | a :: p', b :: s' => (a =? b) && startswith p' s'
  end.

(** [needle in hay] *)
Fixpoint contains (needle hay : str) : bool :=
  startswith needle hay ||
  match hay with
  | [] => false
  | _ :: hay' => contains needle hay'
  end.

(** [s.split(c)] for a one-character separator: never empty. *)
Fixpoint split (c : Z) (s : str) : list str :=
  match s with
  | [] => [[]]
  | a :: s' =>
    if a =? c then [] :: split c s'
    else match split c s' with
         | [] => [[a]]
         | p :: ps => (a :: p) :: ps
         end
  end.

(** [sep.join(parts)] *)
Fixpoint join (sep : str) (parts : list str) : str :=
  match parts with
  | [] => []
  | [p] => p
  | p :: ps => p ++ sep ++ join sep ps
  end.

(** Truthiness of a string, and of an integer. *)
Definition truthy (s : str) : bool := match s with [] => false | _ => true end.

(** [c.isprintable()]: ASCII is printable from space to tilde; above ASCII
    the answer is the Unicode character database's, passed in as [uni]. *)
Definition isprintable (uni : Z -> bool) (c : Z) : bool :=
  if c <? 128 then (32 <=? c) && (c <? 127) else uni c.

(** *** [bytes.hex()] and [int(s, 16)] *)
Definition hexdigit (n : Z) : Z := if n <? 10 then 48 + n else 87 + n.

Definition hex (b : bytes) : str :=
  flat_map (fun x => [hexdigit (ord_byte x / 16); hexdigit (ord_byte x mod 16)]) b.

Definition hexval (c : Z) : option Z :=
  if (48 <=? c) && (c <=? 57) then Some (c - 48)
  else if (97 <=? c) && (c <=? 102) then Some (c - 87)
  else if (65 <=? c) && (c <=? 70) then Some (c - 55)
  else None.

Definition ValueError : Exn := Exception (lit "invalid literal for int() with base 16").

(** [int(s, 16)] on the two-character slices the source takes. *)
Definition int16 (s : str) : Result Z :=
  match s with
  | [a] => match hexval a with Some x => Ok x | None => Raise ValueError end
  | [a; b] =>
    match hexval a, hexval b with
    | Some x, Some y => Ok (16 * x + y)
    | _, _ => Raise ValueError
    end
  | _ => Raise ValueError
  end.

(** *** [repr] of a byte string, as [f"{payload}"] prints it *)
Definition repr_byte (quote : Z) (b : Z) : str :=
  if (b =? quote) || (b =? 92) then [92; b]
  else if b =? 9 then [92; 116]
  else if b =? 10 then [92; 110]
  else if b =? 13 then [92; 114]
  else if (b <? 32) || (127 <=? b) then [92; 120; hexdigit (b / 16); hexdigit (b mod 16)]
  else [b].

Definition repr_bytes (b : bytes) : str :=
  let zs := map ord_byte b in
  let quote := if existsb (Z.eqb 39) zs && negb (existsb (Z.eqb 34) zs) then 34 else 39 in
  [98; quote] ++ flat_map (repr_byte quote) zs ++ [quote].

(** *** [hashlib.md5(...).hexdigest()] (RFC 1321) *)
Definition w32 (x : Z) : Z := x mod 4294967296.

Definition rotl32 (x c : Z) : Z :=
  w32 (Z.lor (Z.shiftl x c) (Z.shiftr x (32 - c))).

Definition md5_shift : list Z :=
  [7; 12; 17; 22; 7; 12; 17; 22; 7; 12; 17; 22; 7; 12; 17; 22;
   5; 9; 14; 20; 5; 9; 14; 20; 5; 9; 14; 20; 5; 9; 14; 20;
   4; 11; 16; 23; 4; 11; 16; 23; 4; 11; 16; 23; 4; 11; 16; 23;
   6; 10; 15; 21; 6; 10; 15; 21; 6; 10; 15; 21; 6; 10; 15; 21].

Definition md5_sine : list Z :=
  [3614090360; 3905402710; 606105819; 3250441966;
   4118548399; 1200080426; 2821735955; 4249261313;
   1770035416; 2336552879; 4294925233; 2304563134;
   1804603682; 4254626195; 2792965006; 1236535329;
   4129170786; 3225465664; 643717713; 3921069994;
   3593408605; 38016083; 3634488961; 3889429448;
   568446438; 3275163606; 4107603335; 1163531501;
   2850285829; 4243563512; 1735328473; 2368359562;
   4294588738; 2272392833; 1839030562; 4259657740;
   2763975236; 1272893353; 4139469664; 3200236656;
   681279174; 3936430074; 3572445317; 76029189;
   3654602809; 3873151461; 530742520; 3299628645;
   4096336452; 1126891415; 2878612391; 4237533241;
   1700485571; 2399980690; 4293915773; 2240044497;
   1873313359; 4264355552; 2734768916; 1309151649;
   4149444226; 3174756917; 718787259; 3951481745].

Definition not32 (x : Z) : Z := Z.lxor x 4294967295.

Definition md5_step (block : list Z) (st : Z * Z * Z * Z) (i : nat) : Z * Z * Z * Z :=
  let '(a, b, c, d) := st in
  let iz := Z.of_nat i in
  let '(f, g) :=
    if iz <? 16 then (Z.lor (Z.land b c) (Z.land (not32 b) d), iz)
    else if iz <? 32 then (Z.lor (Z.land d b) (Z.land (not32 d) c), (5 * iz + 1) mod 16)
    else if iz <? 48 then (Z.lxor (Z.lxor b c) d, (3 * iz + 5) mod 16)
    else (Z.lxor c (Z.lor b (not32 d)), (7 * iz) mod 16) in
  let f' := w32 (f + a + nth i md5_sine 0 + nth (Z.to_nat g) block 0) in
  (d, w32 (b + rotl32 f' (nth i md5_shift 0)), b, c).

Fixpoint le_words (bs : list Z) : list Z :=
  match bs with
  | b0 :: b1 :: b2 :: b3 :: rest =>
    (b0 + 256 * b1 + 65536 * b2 + 16777216 * b3) :: le_words rest
  | _ => []
  end.

Definition md5_block (st : Z * Z * Z * Z) (block : list Z) : Z * Z * Z * Z :=
  let '(a0, b0, c0, d0) := st in
  let '(a, b, c, d) := fold_left (md5_step block) (seq 0 64) st in
  (w32 (a0 + a), w32 (b0 + b), w32 (c0 + c), w32 (d0 + d)).

Fixpoint md5_blocks (n : nat) (st : Z * Z * Z * Z) (ws : list Z) : Z * Z * Z * Z :=
  match n with
  | O => st
  | S n' => md5_blocks n' (md5_block st (firstn 16 ws)) (skipn 16 ws)
  end.

Definition le_bytes (n : nat) (x : Z) : list Z :=
  map (fun k => (x / 256 ^ Z.of_nat k) mod 256) (seq 0 n).

Definition md5_pad (m : list Z) : list Z :=
  let len := Z.of_nat (length m) in
  let zeros := Z.to_nat ((55 - len) mod 64) in
  m ++ [128] ++ repeat 0 zeros ++ le_bytes 8 ((8 * len) mod 18446744073709551616).

Definition hex_word (x : Z) : str :=
  flat_map (fun b => [hexdigit (b / 16); hexdigit (b mod 16)]) (le_bytes 4 x).

Definition md5_hexdigest (m : bytes) : str :=
  let padded := md5_pad (map ord_byte m) in
  let '(a, b, c, d) :=
    md5_blocks (length padded / 64)
               (1732584193, 4023233417, 2562383102, 271733878) (le_words padded) in
  hex_word a ++ hex_word b ++ hex_word c ++ hex_word d.

(** *** Double precision

    [time.time()] and the timestamps kept from it are IEEE 754 binary64
    numbers, and [a - b] on them is the exact difference rounded to the
    nearest such number, ties to the even mantissa.  A double is taken
    here as the rational it denotes; [binary64] is the rounding. *)

(** The integer nearest to [n/d], ties to the even one. *)
Definition round_half_even (n : Z) (d : positive) : Z :=
  let q := n / Zpos d in
  let r := n mod Zpos d in
  match 2 * r ?= Zpos d with
  | Lt => q
  | Gt => q + 1
  | Eq => if Z.even q then q else q + 1
  end.

(** [n/d] divided by [2^e], as a fraction. *)
Definition scaled (n d : positive) (e : Z) : Z * positive :=
  if 0 <=? e then (Zpos n, Z.to_pos (Zpos d * 2 ^ e)) else (Zpos n * 2 ^ (- e), d).

(** The weight of the last mantissa bit of the double nearest to [n/d]:
    the [e] with [2^52 <= (n/d) / 2^e < 2^53], and no less than -1074,
    where the subnormal numbers lie. *)
Definition ulp_exponent (n d : positive) : Z :=
  let e := Z.log2 (Zpos n) - Z.log2 (Zpos d) - 52 in
  let '(a, b) := scaled n d e in
  Z.max (if a <? 2 ^ 52 * Zpos b then e - 1 else e) (-1074).

(** Beyond the largest double the result is infinity; [2^1024] stands for
    it, which compares with every double as infinity does. *)
Definition nearest_double (n d : positive) : Q :=
  let e := ulp_exponent n d in
  let '(a, b) := scaled n d e in
  let m := round_half_even a b in
  if 0 <=? e then inject_Z (Z.min (m * 2 ^ e) (2 ^ 1024)) else m # Z.to_pos (2 ^ (- e)).

Definition binary64 (q : Q) : Q :=
  match Qnum q with
  | Z0 => 0%Q
  | Zpos n => nearest_double n (Qden q)
  | Zneg n => (- nearest_double n (Qden q))%Q
  end.

Arguments lit : simpl never.
Arguments str_of_int : simpl never.
Arguments md5_hexdigest : simpl never.
Arguments decode_utf8_ignore : simpl never.
Arguments hex : simpl never.
Arguments repr_bytes : simpl never.

End Py.

Import Py.

(** Literals are compared as written and evaluated only on demand. *)
Global Opaque lit.

(** ** Decoded messages

    The classes of [protobuf/douyin.py], with the fields the two files
    read.  Each class sits in a module of its name so that the fields keep
    theirs. *)

Module User.
Record t := { id : Z; nick_name : str; gender : Z }.
End User.

Module Gift.
Record t := { name : str }.
End Gift.

Module Common.
Record t := { create_time : Z }.
End Common.

Module ChatMessage.
Record t := { user : User.t; content : str }.
End ChatMessage.

Module GiftMessage.
Record t := { user : User.t; gift : Gift.t; combo_count : Z }.
End GiftMessage.

Module MemberMessage.
Record t := { user : User.t }.
End MemberMessage.

Module LikeMessage.
Record t := { user : User.t; count : Z }.
End LikeMessage.

Module SocialMessage.
Record t := { user : User.t }.
End SocialMessage.

Module EmojiChatMessage.
Record t := { user : User.t; emoji_id : Z; default_content : str }.
End EmojiChatMessage.

Module RoomUserSeqMessage.
Record t := { total : Z; total_pv_for_anchor : Z }.
End RoomUserSeqMessage.

Module RoomStatsMessage.
Record t := { display_long : str }.
End RoomStatsMessage.

Module ControlMessage.
Record t := { status : Z }.
End ControlMessage.

(** [_extractMessageSignature] asks a product-change message for the
    attributes [updateTimestamp] and [updateToast] with [getattr] and a
    default; whether the class has attributes of those names is the
    schema's business, hence the options. *)
Module ProductChangeMessage.
Record t := { update_toast : str; updateTimestamp : option Z; updateToast : option str }.
End ProductChangeMessage.

(** [common] is [None] when the submessage is falsy ([if common:]). *)
Module LiveShoppingMessage.
Record t := { msg_type : Z; promotion_id : Z; common : option Common.t }.
End LiveShoppingMessage.

Module PushFrame.
Record t := { log_id : Z; payload_type : str; payload : bytes }.
End PushFrame.

Module Message.
Record t := { method : str; payload : bytes }.
End Message.

Module Response.
Record t := { need_ack : bool; internal_ext : str; messages_list : list Message.t }.
End Response.

(** The wire codecs: the generated protobuf classes' [parse] and
    [SerializeToString], and [gzip.decompress].  The schema is given, not
    part of the two files. *)
Record Codec := {
  parse_PushFrame : bytes -> Result PushFrame.t;
  serialize_PushFrame : PushFrame.t -> bytes;
  gzip_decompress : bytes -> Result bytes;
  parse_Response : bytes -> Result Response.t;
  parse_ChatMessage : bytes -> Result ChatMessage.t;
  parse_GiftMessage : bytes -> Result GiftMessage.t;
  parse_MemberMessage : bytes -> Result MemberMessage.t;
  parse_LikeMessage : bytes -> Result LikeMessage.t;
  parse_SocialMessage : bytes -> Result SocialMessage.t;
  parse_EmojiChatMessage : bytes -> Result EmojiChatMessage.t;
  parse_RoomUserSeqMessage : bytes -> Result RoomUserSeqMessage.t;
  parse_RoomStatsMessage : bytes -> Result RoomStatsMessage.t;
  parse_ControlMessage : bytes -> Result ControlMessage.t;
  parse_ProductChangeMessage : bytes -> Result ProductChangeMessage.t;
  parse_LiveShoppingMessage : bytes -> Result LiveShoppingMessage.t
}.

(** ** Effects: state and exceptions

    A callback changes the world it closes over and may raise.  [M S A] is
    a computation over a state [S] that returns an [A] or raises; the
    state survives a raise, as a Python object's does. *)

Definition M (S A : Type) : Type := S -> Result A * S.

Definition ret {S A} (a : A) : M S A := fun s => (Ok a, s).
Definition raise {S A} (e : Exn) : M S A := fun s => (Raise e, s).

Definition bind {S A B} (m : M S A) (k : A -> M S B) : M S B :=
  fun s => match m s with
           | (Ok a, s') => k a s'
           | (Raise e, s') => (Raise e, s')
           end.

(** [try: m  except Exception as e: h e] *)
Definition try_except {S A} (m : M S A) (h : Exn -> M S A) : M S A :=
  fun s => match m s with
           | (Ok a, s') => (Ok a, s')
           | (Raise e, s') => h e s'
           end.

Definition lift_result {S A} (r : Result A) : M S A := fun s => (r, s).

Definition gets {S A} (f : S -> A) : M S A := fun s => (Ok (f s), s).
Definition modify {S} (f : S -> S) : M S unit := fun s => (Ok tt, f s).

Declare Scope py_scope.
Delimit Scope py_scope with py.
Notation "x <- m ;; k" := (bind m (fun x => k))
  (at level 100, m at next level, right associativity) : py_scope.
Notation "m ;; k" := (bind m (fun _ => k))
  (at level 100, right associativity) : py_scope.
Open Scope py_scope.

(** [for x in xs: body x] *)
Fixpoint for_each {S X} (xs : list X) (body : X -> M S unit) : M S unit :=
  match xs with
  | [] => ret tt
  | x :: xs' => body x ;; for_each xs' body
  end.

(** Calling an attribute that holds a callback or [None]. *)
Definition NoneType_not_callable : Exn :=
  Exception (lit "'NoneType' object is not callable").

Definition call {S X} (f : option (X -> M S unit)) (x : X) : M S unit :=
  match f with
  | Some h => h x
  | None => raise NoneType_not_callable
  end.

Definition call2 {S X Y} (f : option (X -> Y -> M S unit)) (x : X) (y : Y) : M S unit :=
  match f with
  | Some h => h x y
  | None => raise NoneType_not_callable
  end.

(** [if f: f(x)] *)
Definition call_if_set {S X} (f : option (X -> M S unit)) (x : X) : M S unit :=
  match f with
  | Some h => h x
  | None => ret tt
  end.

(** Running the other component's code on its part of a paired state. *)
Definition on_snd {S1 S2 A} (m : M S2 A) : M (S1 * S2) A :=
  fun s => match m (snd s) with (r, s2) => (r, (fst s, s2)) end.

(** ** The fetcher: [streamcap_adapter.py] *)

(** The handlers a fetcher is constructed with; each may be [None]. *)
Record Callbacks (W : Type) := {
  on_chat : option (ChatMessage.t -> M W unit);
  on_gift : option (GiftMessage.t -> M W unit);
  on_member : option (MemberMessage.t -> M W unit);
  on_like : option (LikeMessage.t -> M W unit);
  on_social : option (SocialMessage.t -> M W unit);
  on_emoji_chat : option (EmojiChatMessage.t -> M W unit);
  on_room_user_seq : option (RoomUserSeqMessage.t -> M W unit);
  on_room_stats : option (RoomStatsMessage.t -> M W unit);
  on_control : option (ControlMessage.t -> M W unit);
  on_error : option (str -> M W unit);
  on_raw_message : option (str -> bytes -> M W unit)
}.
Arguments on_chat {W} _.
Arguments on_gift {W} _.
Arguments on_member {W} _.
Arguments on_like {W} _.
Arguments on_social {W} _.
Arguments on_emoji_chat {W} _.
Arguments on_room_user_seq {W} _.
Arguments on_room_stats {W} _.
Arguments on_control {W} _.
Arguments on_error {W} _.
Arguments on_raw_message {W} _.

(** The [ws] argument of the callbacks: [ws.send(data, opcode)]. *)
Record WebSocket (W : Type) := { send : bytes -> Z -> M W unit }.
Arguments send {W} _ _ _.

Definition OPCODE_BINARY : Z := 2.

Definition is_set {A} (o : option A) : bool :=
  match o with Some _ => true | None => false end.

(** [x in collection] for text. *)
Definition str_in (x : str) (l : list str) : bool := bool_decide (x ∈ l).
Definition str_eq (x y : str) : bool := bool_decide (x = y).

Definition useless_message_types : list str :=
  [lit "WebcastRanklistHourEntranceMessage"; lit "WebcastInRoomBannerMessage";
   lit "WebcastGiftSortMessage"; lit "WebcastRoomStreamAdaptationMessage";
   lit "WebcastRoomRankMessage"; lit "WebcastFansclubMessage";
   lit "WebcastRoomMessage"; lit "WebcastRoomUserSeqMessage";
   lit "WebcastRoomStatsMessage"; lit "WebcastControlMessage"].

Definition shopping_message_types : list str :=
  [lit "WebcastProductChangeMessage"; lit "WebcastLiveShoppingMessage";
   lit "WebcastLiveEcomGeneralMessage"].

Definition core_message_types : list str :=
  [lit "WebcastChatMessage"; lit "WebcastGiftMessage"; lit "WebcastMemberMessage";
   lit "WebcastLikeMessage"; lit "WebcastSocialMessage"; lit "WebcastEmojiChatMessage"].

Definition shopping_keywords : list str :=
  [lit "Shopping"; lit "Ecom"; lit "Product"; lit "Order"; lit "Buy"; lit "Purchase";
   lit "Cart"; lit "Item"; lit "Goods"; lit "Trade"; lit "Commerce"; lit "Sale"; lit "Shop"].

Definition has_shopping_keywords (method : str) : bool :=
  existsb (fun keyword => contains keyword method) shopping_keywords.

(** The [while i < len(hex_data)] loop of [_parseLiveEcomGeneralMsg] and
    [_extractReadableContent]: [i] advances by two; a slice that is a
    printable ASCII value gives its character, any other a dot. *)
Fixpoint hex_scan (hex_data : str) : str :=
  match hex_data with
  | a :: b :: rest =>
    match int16 [a; b] with
    | Ok byte_val => if (32 <=? byte_val) && (byte_val <=? 126) then byte_val else 46
    | Raise _ => 46
    end :: hex_scan rest
  | _ => []
  end.

Definition slice_to (n : nat) (s : str) : str := firstn n s.

Section ReadableContent.

Variable unicode_isprintable : Z -> bool.

Definition readable (c : Z) : bool := isprintable unicode_isprintable c && (32 <=? c).

(** The [for char in decoded_text] loop: the state is
    [(readable_parts, current_part)]. *)
Definition scan_step (st : list str * str) (char : Z) : list str * str :=
  let '(readable_parts, current_part) := st in
  if readable char then (readable_parts, current_part ++ [char])
  else if (3 <? length current_part)%nat then (readable_parts ++ [current_part], [])
  else (readable_parts, []).

Definition readable_runs (decoded_text : str) : list str :=
  let '(readable_parts, current_part) := fold_left scan_step decoded_text ([], []) in
  if truthy current_part && (3 <? length current_part)%nat
  then readable_parts ++ [current_part]
  else readable_parts.

Definition content_keywords : list str :=
  [lit "用户"; lit "商品"; lit "订单"; lit "购买"; lit "下单"; lit "购物";
   lit "价格"; lit "数量"; lit "名称"; lit "描述"; lit "时间"; lit "状态"].

(** [_extractReadableContent].  No operation in its three attempts can
    raise, so the [except] arms are not reached and the result is a plain
    value: the text, or [None]. *)
Definition _extractReadableContent (payload : bytes) : option str :=
  let decoded_text := decode_utf8_ignore payload in
  let readable_chars := List.filter readable decoded_text in
  if (5 <? length readable_chars)%nat then Some (slice_to 200 readable_chars)
  else
    let hex_data := hex payload in
    let decoded_text := hex_scan hex_data in
    let readable_parts := readable_runs decoded_text in
    match readable_parts with
    | _ :: _ => Some (slice_to 200 (join (lit " ") readable_parts))
    | [] =>
      let text := decode_utf8_ignore payload in
      let found_keywords := List.filter (fun kw => contains kw text) content_keywords in
      match found_keywords with
      | _ :: _ => Some (lit "包含关键词: " ++ join (lit ", ") found_keywords)
      | [] => None
      end
    end.

End ReadableContent.

(** *** Names at module level

    The file imports [threading], [websocket], the base class and the
    protobuf classes at its top.  [hashlib] is imported inside
    [_isDuplicateMessage] only, where it is a local of that function; in
    any other function the name is unbound and evaluating it raises
    [NameError]. *)
Definition NameError_hashlib : Exn := Exception (lit "name 'hashlib' is not defined").
Definition global_hashlib_md5 : Result (bytes -> str) := Raise NameError_hashlib.

Definition type_map_get (msg_type : Z) : str :=
  if msg_type =? 1 then lit "商品展示"
  else if msg_type =? 2 then lit "下单操作"
  else if msg_type =? 3 then lit "加购物车"
  else if msg_type =? 4 then lit "关注商品"
  else if msg_type =? 5 then lit "取消关注"
  else lit "未知操作(" ++ str_of_int msg_type ++ lit ")".

Definition ecom_keywords : list str :=
  [lit "Product"; lit "Order"; lit "Buy"; lit "Cart"; lit "Item"; lit "Goods";
   lit "Purchase"; lit "Sale"; lit "Shop"; lit "Commerce"; lit "Ecom";
   lit "Refresh"; lit "Update"].

Definition _cache_timeout : Q := inject_Z 2.

(** [current_time - v > self._cache_timeout]: the subtraction is the one
    of doubles, the comparison with the integer 2 is exact. *)
Definition is_expired (current_time v : Q) : bool :=
  negb (Qle_bool (binary64 (current_time - v)) _cache_timeout).

(** [[k for k, v in self._message_cache.items() if ...]] *)
Definition expired_keys (current_time : Q) (cache : gmap str Q) : list str :=
  map fst (List.filter (fun kv => is_expired current_time (snd kv)) (map_to_list cache)).

(** [for key in expired_keys: del self._message_cache[key]] *)
Definition purge (current_time : Q) (cache : gmap str Q) : gmap str Q :=
  fold_left (fun c key => delete key c) (expired_keys current_time cache) cache.

Section StreamCapDouyinFetcher.

Context {W : Type}.

Variable codec : Codec.
Variable unicode_isprintable : Z -> bool.

(** [time.strftime(fmt, time.localtime(secs))]: the host's clock zone. *)
Variable strftime_localtime : str -> Q -> Result str.

Variable self : Callbacks W.

(** The typed parsers: decode, hand to the handler if there is one; on any
    exception tell [on_error], if there is one, under the parser's label. *)
Definition _parseChatMsg (payload : bytes) : M W unit :=
  try_except
    (message <- lift_result (parse_ChatMessage codec payload) ;;
     call_if_set (on_chat self) message)
    (fun e => call_if_set (on_error self) (lit "[弹幕解析错误] " ++ exn_text e)).

Definition _parseGiftMsg (payload : bytes) : M W unit :=
  try_except
    (message <- lift_result (parse_GiftMessage codec payload) ;;
     call_if_set (on_gift self) message)
    (fun e => call_if_set (on_error self) (lit "[礼物解析错误] " ++ exn_text e)).

Definition _parseMemberMsg (payload : bytes) : M W unit :=
  try_except
    (message <- lift_result (parse_MemberMessage codec payload) ;;
     call_if_set (on_member self) message)
    (fun e => call_if_set (on_error self) (lit "[观众进入解析错误] " ++ exn_text e)).

Definition _parseLikeMsg (payload : bytes) : M W unit :=
  try_except
    (message <- lift_result (parse_LikeMessage codec payload) ;;
     call_if_set (on_like self) message)
    (fun e => call_if_set (on_error self) (lit "[点赞解析错误] " ++ exn_text e)).

Definition _parseSocialMsg (payload : bytes) : M W unit :=
  try_except
    (message <- lift_result (parse_SocialMessage codec payload) ;;
     call_if_set (on_social self) message)
    (fun e => call_if_set (on_error self) (lit "[关注解析错误] " ++ exn_text e)).

Definition _parseEmojiChatMsg (payload : bytes) : M W unit :=
  try_except
    (message <- lift_result (parse_EmojiChatMessage codec payload) ;;
     call_if_set (on_emoji_chat self) message)
    (fun e => call_if_set (on_error self) (lit "[表情弹幕解析错误] " ++ exn_text e)).

Definition _parseRoomUserSeqMsg (payload : bytes) : M W unit :=
  try_except
    (message <- lift_result (parse_RoomUserSeqMessage codec payload) ;;
     call_if_set (on_room_user_seq self) message)
    (fun e => call_if_set (on_error self) (lit "[房间用户序列解析错误] " ++ exn_text e)).

Definition _parseRoomStatsMsg (payload : bytes) : M W unit :=
  try_except
    (message <- lift_result (parse_RoomStatsMessage codec payload) ;;
     call_if_set (on_room_stats self) message)
    (fun e => call_if_set (on_error self) (lit "[房间统计解析错误] " ++ exn_text e)).

Definition _parseControlMsg (payload : bytes) : M W unit :=
  try_except
    (message <- lift_result (parse_ControlMessage codec payload) ;;
     call_if_set (on_control self) message)
    (fun e => call_if_set (on_error self) (lit "[控制消息解析错误] " ++ exn_text e)).

(** The commerce parsers call [self.on_error] for their output; the first
    two do so without asking whether it is set. *)
Definition _parseProductChangeMsg (payload : bytes) : M W unit :=
  try_except
    (message <- lift_result (parse_ProductChangeMessage codec payload) ;;
     let toast := ProductChangeMessage.update_toast message in
     if truthy toast then call (on_error self) (lit "[商品变更] " ++ toast) else ret tt)
    (fun e => call_if_set (on_error self) (lit "[商品变更解析错误] " ++ exn_text e)).

Definition _parseLiveShoppingMsg (payload : bytes) : M W unit :=
  try_except
    (message <- lift_result (parse_LiveShoppingMessage codec payload) ;;
     let msg_type := LiveShoppingMessage.msg_type message in
     let promotion_id := LiveShoppingMessage.promotion_id message in
     let common := LiveShoppingMessage.common message in
     let create_time :=
       match common with Some c => Common.create_time c | None => 0 end in
     let operation := type_map_get msg_type in
     (if 0 <? create_time then
        time_str <- lift_result
          (strftime_localtime (lit "%H:%M:%S") (inject_Z create_time / inject_Z 1000)%Q) ;;
        call (on_error self)
             (lit "[直播购物] " ++ time_str ++ lit " - " ++ operation
              ++ lit ", 商品ID:" ++ str_of_int promotion_id)
      else
        call (on_error self)
             (lit "[直播购物] " ++ operation ++ lit ", 商品ID:" ++ str_of_int promotion_id)) ;;
     if msg_type =? 2 then
       if 0 <? create_time then
         time_str <- lift_result
           (strftime_localtime (lit "%H:%M:%S") (inject_Z create_time / inject_Z 1000)%Q) ;;
         call (on_error self)
              (lit "[🛒 下单] " ++ time_str ++ lit " - 商品ID:" ++ str_of_int promotion_id)
       else
         call (on_error self) (lit "[🛒 下单] 商品ID:" ++ str_of_int promotion_id)
     else ret tt)
    (fun e => call_if_set (on_error self) (lit "[直播购物解析错误] " ++ exn_text e)).

Definition _parseLiveEcomGeneralMsg (payload : bytes) : M W unit :=
  try_except
    (let data_length := Z.of_nat (length payload) in
     let hex_data := hex payload in
     try_except
       (let decoded_text := hex_scan hex_data in
        let found_keywords :=
          List.filter (fun kw => contains kw decoded_text) ecom_keywords in
        if is_set (head found_keywords) then
          match on_error self with
          | Some h =>
            h (lit "[下单] 用户下单商品 - 关键词: " ++ join (lit ", ") found_keywords) ;;
            h (lit "[下单] 详细信息: " ++ slice_to 200 decoded_text ++ lit "...")
          | None => ret tt
          end
        else
          match on_error self with
          | Some h =>
            h (lit "[下单] 用户下单商品 - 数据长度: " ++ str_of_int data_length) ;;
            h (lit "[下单] 详细信息: " ++ slice_to 100 decoded_text ++ lit "...")
          | None => ret tt
          end)
       (fun decode_error =>
          match on_error self with
          | Some h =>
            h (lit "[下单] 用户下单商品 - 解析失败") ;;
            h (lit "[下单] 原始数据: " ++ slice_to 100 hex_data ++ lit "...")
          | None => ret tt
          end))
    (fun e => call_if_set (on_error self) (lit "[下单] 用户下单商品 - 处理异常: " ++ exn_text e)).

(** The body of the [try] inside the [for msg in response.messages_list]
    loop of [_wsOnMessage]. *)
Definition dispatch (msg : Message.t) : M W unit :=
  let method := Message.method msg in
  let payload := Message.payload msg in
  (match on_raw_message self with
   | Some h => h method payload
   | None => ret tt
   end) ;;
  let is_useless_message := str_in method useless_message_types in
  let is_shopping_message := str_in method shopping_message_types in
  let is_core_message := str_in method core_message_types in
  let has_shopping_keywords := has_shopping_keywords method in
  (if is_set (on_error self) && negb is_useless_message && negb is_core_message then
     if is_shopping_message || has_shopping_keywords then
       call (on_error self)
            (lit "[消息类型] " ++ method ++ lit " - 数据长度: "
             ++ str_of_int (Z.of_nat (length payload)))
     else
       match _extractReadableContent unicode_isprintable payload with
       | Some readable_content =>
         if truthy readable_content then
           call (on_error self)
                (lit "[🔍 未知消息] " ++ method ++ lit " - 内容: " ++ readable_content)
         else ret tt
       | None => ret tt
       end
   else ret tt) ;;
  if str_eq method (lit "WebcastChatMessage") && is_set (on_chat self)
  then _parseChatMsg payload
  else if str_eq method (lit "WebcastGiftMessage") && is_set (on_gift self)
  then _parseGiftMsg payload
  else if str_eq method (lit "WebcastMemberMessage") && is_set (on_member self)
  then _parseMemberMsg payload
  else if str_eq method (lit "WebcastLikeMessage") && is_set (on_like self)
  then _parseLikeMsg payload
  else if str_eq method (lit "WebcastSocialMessage") && is_set (on_social self)
  then _parseSocialMsg payload
  else if str_eq method (lit "WebcastEmojiChatMessage") && is_set (on_emoji_chat self)
  then _parseEmojiChatMsg payload
  else if str_eq method (lit "WebcastRoomUserSeqMessage") && is_set (on_room_user_seq self)
  then _parseRoomUserSeqMsg payload
  else if str_eq method (lit "WebcastRoomStatsMessage") && is_set (on_room_stats self)
  then _parseRoomStatsMsg payload
  else if str_eq method (lit "WebcastControlMessage") && is_set (on_control self)
  then _parseControlMsg payload
  else if str_eq method (lit "WebcastProductChangeMessage")
  then _parseProductChangeMsg payload
  else if str_eq method (lit "WebcastLiveShoppingMessage")
  then _parseLiveShoppingMsg payload
  else if str_eq method (lit "WebcastLiveEcomGeneralMessage")
  then _parseLiveEcomGeneralMsg payload
  else ret tt.

(** One turn of the loop: the body under its own [try]/[except]. *)
Definition handle_message (msg : Message.t) : M W unit :=
  try_except
    (dispatch msg)
    (fun e => call_if_set (on_error self)
                (lit "[消息解析异常] " ++ Message.method msg ++ lit ": " ++ exn_text e)).

Definition _wsOnMessage (ws : WebSocket W) (message : bytes) : M W unit :=
  try_except
    ((match on_raw_message self with
      | Some h => h (lit "WebSocketRawMessage") message
      | None => ret tt
      end) ;;
     package <- lift_result (parse_PushFrame codec message) ;;
     data <- lift_result (gzip_decompress codec (PushFrame.payload package)) ;;
     response <- lift_result (parse_Response codec data) ;;
     (if Response.need_ack response then
        token <- lift_result (encode_utf8 (Response.internal_ext response)) ;;
        let ack := serialize_PushFrame codec
                     {| PushFrame.log_id := PushFrame.log_id package;
                        PushFrame.payload_type := lit "ack";
                        PushFrame.payload := token |} in
        send ws ack OPCODE_BINARY
      else ret tt) ;;
     for_each (Response.messages_list response) handle_message)
    (fun e => call_if_set (on_error self) (lit "[消息解析错误] " ++ exn_text e)).

(** [_extractMessageSignature]: every arm that reaches a signature asks
    the unbound global [hashlib] for [md5]; the [except] clauses turn the
    [NameError], like any other exception, into [None]. *)
Definition _extractMessageSignature {S} (method : str) (payload : bytes) : M S (option str) :=
  try_except
    (if str_eq method (lit "WebcastLiveEcomGeneralMessage") then
       try_except
         (let hex_data := hex payload in
          if contains (lit "ProductRefreshMessage") (decode_utf8_ignore payload) then
            md5 <- lift_result global_hashlib_md5 ;;
            data <- lift_result
              (encode_utf8 (method ++ lit "_" ++ repr_bytes (firstn 100 payload))) ;;
            ret (Some (md5 data))
          else ret None)
         (fun _ => ret None)
     else if str_eq method (lit "WebcastLiveShoppingMessage") then
       try_except
         (message <- lift_result (parse_LiveShoppingMessage codec payload) ;;
          let promotion_id := LiveShoppingMessage.promotion_id message in
          let common := LiveShoppingMessage.common message in
          let create_time :=
            match common with Some c => Common.create_time c | None => 0 end in
          let time_second := if 0 <? create_time then create_time / 1000 else 0 in
          let signature :=
            method ++ lit "_" ++ str_of_int promotion_id ++ lit "_" ++ str_of_int time_second in
          md5 <- lift_result global_hashlib_md5 ;;
          data <- lift_result (encode_utf8 signature) ;;
          ret (Some (md5 data)))
         (fun _ => ret None)
     else if str_eq method (lit "WebcastProductChangeMessage") then
       try_except
         (message <- lift_result (parse_ProductChangeMessage codec payload) ;;
          let update_timestamp := default 0 (ProductChangeMessage.updateTimestamp message) in
          let update_toast := default [] (ProductChangeMessage.updateToast message) in
          let time_second := if 0 <? update_timestamp then update_timestamp / 1000 else 0 in
          let signature :=
            method ++ lit "_" ++ str_of_int time_second ++ lit "_" ++ update_toast in
          md5 <- lift_result global_hashlib_md5 ;;
          data <- lift_result (encode_utf8 signature) ;;
          ret (Some (md5 data)))
         (fun _ => ret None)
     else ret None)
    (fun _ => ret None).

(** [_isDuplicateMessage]: the state is the fetcher's [_message_cache]
    paired with the world of the callbacks; [current_time] is what
    [time.time()] returned. *)
Definition debug (text : str) : M (gmap str Q * W) unit :=
  on_snd (call_if_set (on_error self) text).

Definition message_hash_of (method : str) (payload : bytes) : Result str :=
  match encode_utf8 (method ++ lit "_" ++ repr_bytes payload) with
  | Ok data => Ok (md5_hexdigest data)
  | Raise e => Raise e
  end.

Definition _isDuplicateMessage (current_time : Q) (method : str) (payload : bytes)
  : M (gmap str Q * W) bool :=
  modify (fun s => (purge current_time (fst s), snd s)) ;;
  if str_in method [lit "WebcastLiveEcomGeneralMessage"; lit "WebcastLiveShoppingMessage";
                    lit "WebcastProductChangeMessage"] then
    content_signature <- _extractMessageSignature method payload ;;
    if match content_signature with Some sig => truthy sig | None => false end then
      let content_signature := default [] content_signature in
      cache <- gets fst ;;
      if is_set (cache !! content_signature) then
        debug (lit "[调试] 检测到重复消息: " ++ method ++ lit ", 签名: "
               ++ slice_to 16 content_signature ++ lit "...") ;;
        ret true
      else
        modify (fun s => (<[content_signature := current_time]> (fst s), snd s)) ;;
        debug (lit "[调试] 新消息已缓存: " ++ method ++ lit ", 签名: "
               ++ slice_to 16 content_signature ++ lit "...") ;;
        ret false
    else
      message_hash <- lift_result (message_hash_of method payload) ;;
      cache <- gets fst ;;
      if is_set (cache !! message_hash) then
        debug (lit "[调试] 检测到重复消息(备用): " ++ method ++ lit ", hash: "
               ++ slice_to 16 message_hash ++ lit "...") ;;
        ret true
      else
        modify (fun s => (<[message_hash := current_time]> (fst s), snd s)) ;;
        debug (lit "[调试] 新消息已缓存(备用): " ++ method ++ lit ", hash: "
               ++ slice_to 16 message_hash ++ lit "...") ;;
        ret false
  else
    message_hash <- lift_result (message_hash_of method payload) ;;
    cache <- gets fst ;;
    if is_set (cache !! message_hash) then ret true
    else
      modify (fun s => (<[message_hash := current_time]> (fst s), snd s)) ;;
      ret false.

End StreamCapDouyinFetcher.

(** ** The manager: [barrage_manager.py] *)

Inductive Level := INFO | WARNING | ERROR.

(** A fetcher as the registry holds it.  Its handlers are the closures
    over [recording_id] that [start_barrage_recording] builds
    ([fetcher_callbacks] below), so the identifier stands for them. *)
Record Fetcher := {
  live_id : str;
  recording_id : str;
  barrage_file : str
}.

(** What the manager's code reads and writes: its two dictionaries, the
    files it has written (per path, the chunks written in order), the
    logger's output and the wall clock ([datetime.now()], in seconds). *)
Record World := {
  active_fetchers : gmap str Fetcher;
  barrage_files : gmap str str;
  disk : gmap str (list str);
  journal : list (Level * str);
  clock : Z
}.

Definition set_active_fetchers (f : gmap str Fetcher -> gmap str Fetcher) (w : World) : World :=
  {| active_fetchers := f (active_fetchers w); barrage_files := barrage_files w;
     disk := disk w; journal := journal w; clock := clock w |}.

Definition set_barrage_files (f : gmap str str -> gmap str str) (w : World) : World :=
  {| active_fetchers := active_fetchers w; barrage_files := f (barrage_files w);
     disk := disk w; journal := journal w; clock := clock w |}.

Definition set_disk (f : gmap str (list str) -> gmap str (list str)) (w : World) : World :=
  {| active_fetchers := active_fetchers w; barrage_files := barrage_files w;
     disk := f (disk w); journal := journal w; clock := clock w |}.

Definition set_journal (f : list (Level * str) -> list (Level * str)) (w : World) : World :=
  {| active_fetchers := active_fetchers w; barrage_files := barrage_files w;
     disk := disk w; journal := f (journal w); clock := clock w |}.

Definition logger (level : Level) (text : str) : M World unit :=
  modify (set_journal (fun j => j ++ [(level, text)])).

Section BarrageManager.

(** The operating system: the paths it refuses to create or open, and how
    it joins path components and prints a time. *)
Variable os_fault : str -> option Exn.
Variable os_path_join : str -> str -> str.
Variable strftime : str -> Z -> str.

(** [fetcher.stop()], inherited from the base class [DouyinLiveWebFetcher]:
    it acts on the connection, of which the manager's world holds
    nothing, and returns or raises. *)
Variable stop : Fetcher -> Result unit.

(** [f.write(text)] on a file opened for writing at a path: the write the
    host refuses, if any (a full disk, a text that cannot be encoded). *)
Variable write_fault : str -> str -> option Exn.

(** [super().__init__(live_id)], the first statement of the fetcher's
    constructor: the base class is not part of the two files; its
    initialiser returns or raises. *)
Variable DouyinLiveWebFetcher_init : str -> Result unit.

(** [thread.start()] returns once the thread runs, or raises when the
    host can start no thread. *)
Variable thread_start : Fetcher -> Result unit.

Definition os_makedirs (path : str) : M World unit :=
  match os_fault path with
  | Some e => raise e
  | None => ret tt
  end.

(** [f.write(c1); f.write(c2); ...] on the file open at [path]: the first
    write that fails ends the run; what was written before it stays. *)
Fixpoint write_chunks (path : str) (chunks : list str) : M World unit :=
  match chunks with
  | [] => ret tt
  | chunk :: rest =>
    match write_fault path chunk with
    | Some e => raise e
    | None =>
      modify (set_disk (fun d => <[path := default [] (d !! path) ++ [chunk]]> d)) ;;
      write_chunks path rest
    end
  end.

(** [with open(path, "w") as f: f.write(c1); ...]: opening creates the
    file, or empties the one that is there. *)
Definition open_write (path : str) (chunks : list str) : M World unit :=
  match os_fault path with
  | Some e => raise e
  | None => modify (set_disk (fun d => <[path := []]> d)) ;; write_chunks path chunks
  end.

(** [with open(path, "a") as f: f.write(chunk)]: one line, written whole
    or not at all; [os_fault path] is the failure of the statement. *)
Definition open_append (path : str) (chunk : str) : M World unit :=
  match os_fault path with
  | Some e => raise e
  | None => modify (set_disk (fun d => <[path := default [] (d !! path) ++ [chunk]]> d))
  end.

Definition now_strftime (fmt : str) : M World str :=
  gets (fun w => strftime fmt (clock w)).

Definition _extract_live_id (live_url : str) : M World (option str) :=
  try_except
    (if contains (lit "live.douyin.com") live_url then
       if contains (lit "/") live_url then
         ret (Some (hd [] (split 63 (List.last (split 47 live_url) []))))
       else ret None
     else if contains (lit "v.douyin.com") live_url then
       logger WARNING (lit "短链接需要解析，暂不支持") ;;
       ret None
     else ret None)
    (fun e => logger ERROR (lit "提取直播间ID失败: " ++ exn_text e) ;; ret None).

Definition _create_barrage_file (recording_id recording_dir : str) : M World (option str) :=
  try_except
    (let recording_dir := if truthy recording_dir then recording_dir else lit "downloads" in
     os_makedirs recording_dir ;;
     timestamp <- now_strftime (lit "%Y%m%d_%H%M%S") ;;
     let filename := lit "barrage_" ++ recording_id ++ lit "_" ++ timestamp ++ lit ".txt" in
     let file_path := os_path_join recording_dir filename in
     started <- now_strftime (lit "%Y-%m-%d %H:%M:%S") ;;
     open_write file_path
       [lit "# 抖音直播间弹幕解析文件" ++ nl;
        lit "# 录制ID: " ++ recording_id ++ nl;
        lit "# 开始时间: " ++ started ++ nl;
        lit "# 格式: [时间] [消息类型] [详细信息]" ++ nl;
        lit "# 说明: 包含以下消息类型：" ++ nl;
        lit "#       - 弹幕: 观众聊天消息" ++ nl;
        lit "#       - 礼物: 观众赠送礼物" ++ nl;
        lit "#       - 进场: 观众进入直播间" ++ nl;
        lit "#       - 点赞: 观众点赞" ++ nl;
        lit "#       - 关注: 观众关注主播" ++ nl;
        lit "#       - 下单: 观众下单商品" ++ nl;
        lit "#       - 统计: 直播间统计信息" ++ nl ++ nl] ;;
     ret (Some file_path))
    (fun e => logger ERROR (lit "创建弹幕文件失败: " ++ exn_text e) ;; ret None).

Definition _write_to_file (recording_id message : str) : M World unit :=
  try_except
    (files <- gets barrage_files ;;
     match files !! recording_id with
     | Some barrage_file =>
       timestamp <- now_strftime (lit "%H:%M:%S") ;;
       open_append barrage_file (lit "[" ++ timestamp ++ lit "] " ++ message ++ nl)
     | None => ret tt
     end)
    (fun e => logger ERROR (lit "写入弹幕文件失败: " ++ exn_text e)).

Definition _handle_chat_message (recording_id : str) (msg : ChatMessage.t) : M World unit :=
  try_except
    (let user_name := User.nick_name (ChatMessage.user msg) in
     let content := ChatMessage.content msg in
     _write_to_file recording_id (lit "[弹幕] " ++ user_name ++ lit ": " ++ content))
    (fun e => logger ERROR (lit "处理聊天消息失败: " ++ exn_text e)).

Definition _handle_gift_message (recording_id : str) (msg : GiftMessage.t) : M World unit :=
  try_except
    (let user_name := User.nick_name (GiftMessage.user msg) in
     let gift_name := Gift.name (GiftMessage.gift msg) in
     let gift_count := GiftMessage.combo_count msg in
     _write_to_file recording_id
       (lit "[礼物] " ++ user_name ++ lit " 赠送 " ++ gift_name ++ lit " x" ++ str_of_int gift_count))
    (fun e => logger ERROR (lit "处理礼物消息失败: " ++ exn_text e)).

Definition _handle_member_message (recording_id : str) (msg : MemberMessage.t) : M World unit :=
  try_except
    (let user_name := User.nick_name (MemberMessage.user msg) in
     let gender_value := User.gender (MemberMessage.user msg) in
     let gender :=
       if gender_value =? 1 then lit "男"
       else if gender_value =? 0 then lit "女"
       else lit "未知" in
     _write_to_file recording_id
       (lit "[进场] [" ++ gender ++ lit "]" ++ user_name ++ lit " 进入了直播间"))
    (fun e => logger ERROR (lit "处理观众进入消息失败: " ++ exn_text e)).

Definition _handle_like_message (recording_id : str) (msg : LikeMessage.t) : M World unit :=
  try_except
    (let user_name := User.nick_name (LikeMessage.user msg) in
     let count := LikeMessage.count msg in
     _write_to_file recording_id
       (lit "[点赞] " ++ user_name ++ lit " 点了" ++ str_of_int count ++ lit "个赞"))
    (fun e => logger ERROR (lit "处理点赞消息失败: " ++ exn_text e)).

Definition _handle_social_message (recording_id : str) (msg : SocialMessage.t) : M World unit :=
  try_except
    (let user_name := User.nick_name (SocialMessage.user msg) in
     let user_id := User.id (SocialMessage.user msg) in
     _write_to_file recording_id
       (lit "[关注] [" ++ str_of_int user_id ++ lit "]" ++ user_name ++ lit " 关注了主播"))
    (fun e => logger ERROR (lit "处理关注消息失败: " ++ exn_text e)).

Definition _handle_emoji_chat_message (recording_id : str) (msg : EmojiChatMessage.t)
  : M World unit :=
  try_except
    (let user_name := User.nick_name (EmojiChatMessage.user msg) in
     let emoji_id := EmojiChatMessage.emoji_id msg in
     let default_content := EmojiChatMessage.default_content msg in
     let content :=
       if truthy default_content then default_content
       else lit "表情ID:" ++ str_of_int emoji_id in
     _write_to_file recording_id (lit "[表情] " ++ user_name ++ lit ": " ++ content))
    (fun e => logger ERROR (lit "处理表情弹幕消息失败: " ++ exn_text e)).

Definition _handle_room_user_seq_message (recording_id : str) (msg : RoomUserSeqMessage.t)
  : M World unit :=
  try_except
    (let current := RoomUserSeqMessage.total msg in
     let total := RoomUserSeqMessage.total_pv_for_anchor msg in
     _write_to_file recording_id
       (lit "[统计] 当前观看人数: " ++ str_of_int current
        ++ lit ", 累计观看人数: " ++ str_of_int total))
    (fun e => logger ERROR (lit "处理房间用户序列消息失败: " ++ exn_text e)).

Definition _handle_room_stats_message (recording_id : str) (msg : RoomStatsMessage.t)
  : M World unit :=
  try_except
    (let display_long := RoomStatsMessage.display_long msg in
     if truthy display_long
     then _write_to_file recording_id (lit "[房间统计] " ++ display_long)
     else ret tt)
    (fun e => logger ERROR (lit "处理房间统计消息失败: " ++ exn_text e)).

Definition _handle_control_message (recording_id : str) (msg : ControlMessage.t)
  : M World unit :=
  try_except
    (let status := ControlMessage.status msg in
     if status =? 3
     then _write_to_file recording_id (lit "[控制] 直播间已结束")
     else _write_to_file recording_id (lit "[控制] 直播间状态: " ++ str_of_int status))
    (fun e => logger ERROR (lit "处理控制消息失败: " ++ exn_text e)).

Definition _handle_error_message (recording_id msg : str) : M World unit :=
  try_except
    (_write_to_file recording_id (lit "[系统] " ++ msg))
    (fun e => logger ERROR (lit "处理错误消息失败: " ++ exn_text e)).

(** The keyword arguments [start_barrage_recording] constructs its fetcher
    with. *)
Definition fetcher_callbacks (recording_id : str) : Callbacks World :=
  {| on_chat := Some (_handle_chat_message recording_id);
     on_gift := Some (_handle_gift_message recording_id);
     on_member := Some (_handle_member_message recording_id);
     on_like := Some (_handle_like_message recording_id);
     on_social := Some (_handle_social_message recording_id);
     on_emoji_chat := Some (_handle_emoji_chat_message recording_id);
     on_room_user_seq := Some (_handle_room_user_seq_message recording_id);
     on_room_stats := Some (_handle_room_stats_message recording_id);
     on_control := Some (_handle_control_message recording_id);
     on_error := Some (_handle_error_message recording_id);
     on_raw_message := None |}.

(** [start_barrage_recording].  The constructor and the start of the
    thread are inside the [try] like the rest.  The thread runs
    [fetcher.start()] on its own; nothing of that run belongs to this
    call. *)
Definition start_barrage_recording (recording_id live_url platform recording_dir : str)
  : M World bool :=
  try_except
    (if negb (str_eq platform (lit "douyin")) then
       logger WARNING (lit "弹幕录制暂不支持平台: " ++ platform) ;;
       ret false
     else
       live_id <- _extract_live_id live_url ;;
       if negb (truthy (default [] live_id)) then
         logger ERROR (lit "无法从URL提取直播间ID: " ++ live_url) ;;
         ret false
       else
         barrage_file <- _create_barrage_file recording_id recording_dir ;;
         if negb (truthy (default [] barrage_file)) then ret false
         else
           lift_result (DouyinLiveWebFetcher_init (default [] live_id)) ;;
           let fetcher := {| live_id := default [] live_id;
                             recording_id := recording_id;
                             barrage_file := default [] barrage_file |} in
           modify (set_active_fetchers (fun m => <[recording_id := fetcher]> m)) ;;
           modify (set_barrage_files (fun m => <[recording_id := default [] barrage_file]> m)) ;;
           lift_result (thread_start fetcher) ;;
           logger INFO (lit "开始弹幕录制: " ++ recording_id ++ lit ", 文件: "
                        ++ default [] barrage_file) ;;
           ret true)
    (fun e => logger ERROR (lit "启动弹幕录制失败: " ++ exn_text e) ;; ret false).

Definition stop_barrage_recording (recording_id : str) : M World bool :=
  try_except
    (fetchers <- gets active_fetchers ;;
     match fetchers !! recording_id with
     | Some fetcher =>
       lift_result (stop fetcher) ;;
       modify (set_active_fetchers (fun m => delete recording_id m)) ;;
       files <- gets barrage_files ;;
       (if is_set (files !! recording_id)
        then modify (set_barrage_files (fun m => delete recording_id m))
        else ret tt) ;;
       logger INFO (lit "停止弹幕录制: " ++ recording_id) ;;
       ret true
     | None => ret false
     end)
    (fun e => logger ERROR (lit "停止弹幕录制失败: " ++ exn_text e) ;; ret false).

Definition is_recording (recording_id : str) : M World bool :=
  gets (fun w => is_set (active_fetchers w !! recording_id)).

Definition get_barrage_file (recording_id : str) : M World (option str) :=
  gets (fun w => barrage_files w !! recording_id).

End BarrageManager.

(** ** A sample environment

    The theorems below hold for every codec, clock and operating system.
    To run the code on concrete frames one of each is needed: a reader
    and writer of the protobuf wire format for a small schema, a host in
    UTC, a file system that refuses nothing. *)

Module Sample.

(** The reader follows the [parse] of the betterproto runtime that the
    generated classes use: fields are read one after the other and each
    is stored as it is read; a length-delimited or fixed-width field that
    runs past the end of the data is taken as far as the data goes; the
    only failures of the reader itself are a varint that ends with the
    data or is longer than ten bytes.  Text fields are decoded strictly. *)
Inductive Field := Varint (v : Z) | Len (b : list Z) | Fixed (b : list Z) | Skipped.

Definition IndexError : Exn := Exception (lit "index out of range").
Definition TooManyBytes : Exn := Exception (lit "Too many bytes when decoding varint.").
Definition UnicodeDecodeError : Exn :=
  Exception (lit "'utf-8' codec can't decode bytes: invalid data").

(** [decode_varint]: seven bits a byte, least significant group first;
    [more] counts the continuation bytes still allowed. *)
Fixpoint read_varint (more : nat) (bs : list Z) : Result (Z * list Z) :=
  match bs with
  | [] => Raise IndexError
  | b :: rest =>
    if b <? 128 then Ok (b, rest)
    else match more with
         | O => Raise TooManyBytes
         | S more' =>
           match read_varint more' rest with
           | Ok (v, rest') => Ok (b - 128 + 128 * v, rest')
           | Raise e => Raise e
           end
         end
  end.

(** One field off the front of the data: its number, its value and the
    rest. *)
Definition read_field (bs : list Z) : Result (Z * Field * list Z) :=
  match read_varint 9 bs with
  | Raise e => Raise e
  | Ok (num_wire, rest) =>
    let number := num_wire / 8 in
    let wire_type := num_wire mod 8 in
    if wire_type =? 0 then
      match read_varint 9 rest with
      | Ok (v, rest') => Ok (number, Varint v, rest')
      | Raise e => Raise e
      end
    else if wire_type =? 1 then Ok (number, Fixed (firstn 8 rest), skipn 8 rest)
    else if wire_type =? 2 then
      match read_varint 9 rest with
      | Ok (len, rest') =>
        Ok (number, Len (firstn (Z.to_nat len) rest'), skipn (Z.to_nat len) rest')
      | Raise e => Raise e
      end
    else if wire_type =? 5 then Ok (number, Fixed (firstn 4 rest), skipn 4 rest)
    else Ok (number, Skipped, rest)
  end.

(** [parse]: every field read is handed to [store], which puts it into
    the message under construction or raises. *)
Fixpoint parse_from {A} (store : A -> Z -> Field -> Result A) (fuel : nat)
         (bs : list Z) (message : A) : Result A :=
  match bs, fuel with
  | [], _ => Ok message
  | _, O => Ok message
  | _, S fuel' =>
    match read_field bs with
    | Raise e => Raise e
    | Ok (number, field, rest) =>
      match store message number field with
      | Ok message' => parse_from store fuel' rest message'
      | Raise e => Raise e
      end
    end
  end.

Definition parse {A} (store : A -> Z -> Field -> Result A) (empty : A) (bs : list Z)
  : Result A :=
  parse_from store (length bs) bs empty.

(** [bytes.decode('utf-8')]: the data is valid when nothing of it had to
    be dropped. *)
Definition decode_utf8 (b : list Z) : Result str :=
  let s := utf8_ignore b in
  match encode_utf8 s with
  | Ok back => if bool_decide (map ord_byte back = b) then Ok s else Raise UnicodeDecodeError
  | Raise _ => Raise UnicodeDecodeError
  end.

Definition to_bytes (l : list Z) : bytes := map byte_of_Z l.
Definition write_bytes (b : bytes) : list Z := map ord_byte b.

(** Storing a text or a submessage field. *)
Definition text {A} (b : list Z) (k : str -> A) : Result A :=
  match decode_utf8 b with
  | Ok s => Ok (k s)
  | Raise e => Raise e
  end.

Definition sub {A B} (parse_sub : list Z -> Result B) (b : list Z) (k : B -> A) : Result A :=
  match parse_sub b with
  | Ok m => Ok (k m)
  | Raise e => Raise e
  end.

Definition no_user : User.t := {| User.id := 0; User.nick_name := []; User.gender := 0 |}.

Definition parse_User : list Z -> Result User.t :=
  parse (fun u number field =>
           match number, field with
           | 1, Varint v =>
             Ok {| User.id := v; User.nick_name := User.nick_name u;
                   User.gender := User.gender u |}
           | 3, Len b =>
             text b (fun s => {| User.id := User.id u; User.nick_name := s;
                                 User.gender := User.gender u |})
           | 4, Varint v =>
             Ok {| User.id := User.id u; User.nick_name := User.nick_name u;
                   User.gender := v |}
           | _, _ => Ok u
           end) no_user.

Definition parse_Common : list Z -> Result Common.t :=
  parse (fun c number field =>
           match number, field with
           | 4, Varint v => Ok {| Common.create_time := v |}
           | _, _ => Ok c
           end) {| Common.create_time := 0 |}.

Definition parse_Gift : list Z -> Result Gift.t :=
  parse (fun g number field =>
           match number, field with
           | 16, Len b => text b (fun s => {| Gift.name := s |})
           | _, _ => Ok g
           end) {| Gift.name := [] |}.

Definition parse_Message : list Z -> Result Message.t :=
  parse (fun m number field =>
           match number, field with
           | 1, Len b =>
             text b (fun s => {| Message.method := s; Message.payload := Message.payload m |})
           | 2, Len b =>
             Ok {| Message.method := Message.method m; Message.payload := to_bytes b |}
           | _, _ => Ok m
           end) {| Message.method := []; Message.payload := [] |}.

Definition of_bytes {A} (p : list Z -> Result A) (b : bytes) : Result A := p (write_bytes b).

Fixpoint write_varint (fuel : nat) (v : Z) : list Z :=
  match fuel with
  | O => [v mod 128]
  | S fuel' => if v <? 128 then [v] else (128 + v mod 128) :: write_varint fuel' (v / 128)
  end.

Definition write_int (num v : Z) : list Z :=
  write_varint 10 (8 * num) ++ write_varint 10 v.

Definition write_len (num : Z) (b : list Z) : list Z :=
  write_varint 10 (8 * num + 2) ++ write_varint 10 (Z.of_nat (length b)) ++ b.

Definition write_str (num : Z) (s : str) : list Z :=
  write_len num (match encode_utf8 s with Ok b => write_bytes b | Raise _ => [] end).

Definition codec : Codec :=
  {| parse_PushFrame := of_bytes
       (parse (fun f number field =>
                 match number, field with
                 | 2, Varint v =>
                   Ok {| PushFrame.log_id := v;
                         PushFrame.payload_type := PushFrame.payload_type f;
                         PushFrame.payload := PushFrame.payload f |}
                 | 7, Len b =>
                   text b (fun s => {| PushFrame.log_id := PushFrame.log_id f;
                                       PushFrame.payload_type := s;
                                       PushFrame.payload := PushFrame.payload f |})
                 | 8, Len b =>
                   Ok {| PushFrame.log_id := PushFrame.log_id f;
                         PushFrame.payload_type := PushFrame.payload_type f;
                         PushFrame.payload := to_bytes b |}
                 | _, _ => Ok f
                 end)
              {| PushFrame.log_id := 0; PushFrame.payload_type := [];
                 PushFrame.payload := [] |});
     serialize_PushFrame := fun f =>
       to_bytes (write_int 2 (PushFrame.log_id f)
                 ++ write_str 7 (PushFrame.payload_type f)
                 ++ write_len 8 (write_bytes (PushFrame.payload f)));
     gzip_decompress := fun b => Ok b;
     parse_Response := of_bytes
       (parse (fun r number field =>
                 match number, field with
                 | 1, Len b =>
                   sub parse_Message b
                     (fun m => {| Response.need_ack := Response.need_ack r;
                                  Response.internal_ext := Response.internal_ext r;
                                  Response.messages_list := Response.messages_list r ++ [m] |})
                 | 5, Len b =>
                   text b (fun s => {| Response.need_ack := Response.need_ack r;
                                       Response.internal_ext := s;
                                       Response.messages_list := Response.messages_list r |})
                 | 9, Varint v =>
                   Ok {| Response.need_ack := 0 <? v;
                         Response.internal_ext := Response.internal_ext r;
                         Response.messages_list := Response.messages_list r |}
                 | _, _ => Ok r
                 end)
              {| Response.need_ack := false; Response.internal_ext := [];
                 Response.messages_list := [] |});
     parse_ChatMessage := of_bytes
       (parse (fun m number field =>
                 match number, field with
                 | 2, Len b =>
                   sub parse_User b
                     (fun u => {| ChatMessage.user := u;
                                  ChatMessage.content := ChatMessage.content m |})
                 | 3, Len b =>
                   text b (fun s => {| ChatMessage.user := ChatMessage.user m;
                                       ChatMessage.content := s |})
                 | _, _ => Ok m
                 end)
              {| ChatMessage.user := no_user; ChatMessage.content := [] |});
     parse_GiftMessage := of_bytes
       (parse (fun m number field =>
                 match number, field with
                 | 6, Varint v =>
                   Ok {| GiftMessage.user := GiftMessage.user m;
                         GiftMessage.gift := GiftMessage.gift m;
                         GiftMessage.combo_count := v |}
                 | 7, Len b =>
                   sub parse_User b
                     (fun u => {| GiftMessage.user := u;
                                  GiftMessage.gift := GiftMessage.gift m;
                                  GiftMessage.combo_count := GiftMessage.combo_count m |})
                 | 15, Len b =>
                   sub parse_Gift b
                     (fun g => {| GiftMessage.user := GiftMessage.user m;
                                  GiftMessage.gift := g;
                                  GiftMessage.combo_count := GiftMessage.combo_count m |})
                 | _, _ => Ok m
                 end)
              {| GiftMessage.user := no_user; GiftMessage.gift := {| Gift.name := [] |};
                 GiftMessage.combo_count := 0 |});
     parse_MemberMessage := of_bytes
       (parse (fun m number field =>
                 match number, field with
                 | 2, Len b => sub parse_User b (fun u => {| MemberMessage.user := u |})
                 | _, _ => Ok m
                 end)
              {| MemberMessage.user := no_user |});
     parse_LikeMessage := of_bytes
       (parse (fun m number field =>
                 match number, field with
                 | 2, Varint v =>
                   Ok {| LikeMessage.user := LikeMessage.user m; LikeMessage.count := v |}
                 | 5, Len b =>
                   sub parse_User b
                     (fun u => {| LikeMessage.user := u; LikeMessage.count := LikeMessage.count m |})
                 | _, _ => Ok m
                 end)
              {| LikeMessage.user := no_user; LikeMessage.count := 0 |});
     parse_SocialMessage := of_bytes
       (parse (fun m number field =>
                 match number, field with
                 | 2, Len b => sub parse_User b (fun u => {| SocialMessage.user := u |})
                 | _, _ => Ok m
                 end)
              {| SocialMessage.user := no_user |});
     parse_EmojiChatMessage := of_bytes
       (parse (fun m number field =>
                 match number, field with
                 | 2, Len b =>
                   sub parse_User b
                     (fun u => {| EmojiChatMessage.user := u;
                                  EmojiChatMessage.emoji_id := EmojiChatMessage.emoji_id m;
                                  EmojiChatMessage.default_content :=
                                    EmojiChatMessage.default_content m |})
                 | 3, Varint v =>
                   Ok {| EmojiChatMessage.user := EmojiChatMessage.user m;
                         EmojiChatMessage.emoji_id := v;
                         EmojiChatMessage.default_content :=
                           EmojiChatMessage.default_content m |}
                 | 5, Len b =>
                   text b (fun s => {| EmojiChatMessage.user := EmojiChatMessage.user m;
                                       EmojiChatMessage.emoji_id := EmojiChatMessage.emoji_id m;
                                       EmojiChatMessage.default_content := s |})
                 | _, _ => Ok m
                 end)
              {| EmojiChatMessage.user := no_user; EmojiChatMessage.emoji_id := 0;
                 EmojiChatMessage.default_content := [] |});
     parse_RoomUserSeqMessage := of_bytes
       (parse (fun m number field =>
                 match number, field with
                 | 3, Varint v =>
                   Ok {| RoomUserSeqMessage.total := v;
                         RoomUserSeqMessage.total_pv_for_anchor :=
                           RoomUserSeqMessage.total_pv_for_anchor m |}
                 | 11, Varint v =>
                   Ok {| RoomUserSeqMessage.total := RoomUserSeqMessage.total m;
                         RoomUserSeqMessage.total_pv_for_anchor := v |}
                 | _, _ => Ok m
                 end)
              {| RoomUserSeqMessage.total := 0; RoomUserSeqMessage.total_pv_for_anchor := 0 |});
     parse_RoomStatsMessage := of_bytes
       (parse (fun m number field =>
                 match number, field with
                 | 4, Len b => text b (fun s => {| RoomStatsMessage.display_long := s |})
                 | _, _ => Ok m
                 end)
              {| RoomStatsMessage.display_long := [] |});
     parse_ControlMessage := of_bytes
       (parse (fun m number field =>
                 match number, field with
                 | 2, Varint v => Ok {| ControlMessage.status := v |}
                 | _, _ => Ok m
                 end)
              {| ControlMessage.status := 0 |});
     parse_ProductChangeMessage := of_bytes
       (parse (fun m number field =>
                 match number, field with
                 | 3, Len b =>
                   text b (fun s => {| ProductChangeMessage.update_toast := s;
                                       ProductChangeMessage.updateTimestamp := None;
                                       ProductChangeMessage.updateToast := None |})
                 | _, _ => Ok m
                 end)
              {| ProductChangeMessage.update_toast := [];
                 ProductChangeMessage.updateTimestamp := None;
                 ProductChangeMessage.updateToast := None |});
     parse_LiveShoppingMessage := of_bytes
       (parse (fun m number field =>
                 match number, field with
                 | 1, Len b =>
                   sub parse_Common b
                     (fun c => {| LiveShoppingMessage.msg_type := LiveShoppingMessage.msg_type m;
                                  LiveShoppingMessage.promotion_id :=
                                    LiveShoppingMessage.promotion_id m;
                                  LiveShoppingMessage.common := Some c |})
                 | 2, Varint v =>
                   Ok {| LiveShoppingMessage.msg_type := v;
                         LiveShoppingMessage.promotion_id := LiveShoppingMessage.promotion_id m;
                         LiveShoppingMessage.common := LiveShoppingMessage.common m |}
                 | 4, Varint v =>
                   Ok {| LiveShoppingMessage.msg_type := LiveShoppingMessage.msg_type m;
                         LiveShoppingMessage.promotion_id := v;
                         LiveShoppingMessage.common := LiveShoppingMessage.common m |}
                 | _, _ => Ok m
                 end)
              {| LiveShoppingMessage.msg_type := 0; LiveShoppingMessage.promotion_id := 0;
                 LiveShoppingMessage.common := None |}) |}.

(** Writers for the sample frames. *)
Definition message (method : string) (payload : list Z) : list Z :=
  write_len 1 (write_str 1 (lit method) ++ write_len 2 payload).

Definition frame (log_id : Z) (need_ack : bool) (internal_ext : string)
           (messages : list (list Z)) : bytes :=
  to_bytes (write_int 2 log_id ++ write_str 7 (lit "msg")
            ++ write_len 8 (concat messages ++ write_str 5 (lit internal_ext)
                            ++ write_int 9 (if need_ack then 1 else 0))).

Definition user (nick_name : string) (gender : Z) : list Z :=
  write_str 3 (lit nick_name) ++ write_int 4 gender.

Definition live_shopping (msg_type promotion_id create_time : Z) : list Z :=
  write_len 1 (write_int 4 create_time) ++ write_int 2 msg_type ++ write_int 4 promotion_id.

(** The clock of a host in UTC. *)
Definition two_digits (n : Z) : str := [48 + n / 10; 48 + n mod 10].

Definition hms (secs : Z) : str :=
  two_digits ((secs / 3600) mod 24) ++ lit ":" ++ two_digits ((secs / 60) mod 60)
  ++ lit ":" ++ two_digits (secs mod 60).

Definition strftime (fmt : str) (secs : Z) : str :=
  if str_eq fmt (lit "%H:%M:%S") then hms secs else str_of_int secs.

Definition strftime_localtime (fmt : str) (secs : Q) : Result str :=
  Ok (strftime fmt (Qfloor secs)).

Definition os_fault (path : str) : option Exn := None.
Definition os_path_join (a b : str) : str := a ++ lit "/" ++ b.
Definition write_fault (path chunk : str) : option Exn := None.

(** A base class whose initialiser returns, and a host that starts every
    thread. *)
Definition DouyinLiveWebFetcher_init (live_id : str) : Result unit := Ok tt.
Definition thread_start (fetcher : Fetcher) : Result unit := Ok tt.

(** Above ASCII: the Latin-1 letters and signs, but not its controls. *)
Definition unicode_isprintable (c : Z) : bool := (161 <=? c) && negb (c =? 173).

(** A handler that writes what it is told onto a list. *)
Definition record_text : str -> M (list str) unit :=
  fun text log => (Ok tt, log ++ [text]).

Definition only_on_error (h : option (str -> M (list str) unit)) : Callbacks (list str) :=
  {| on_chat := None; on_gift := None; on_member := None; on_like := None;
     on_social := None; on_emoji_chat := None; on_room_user_seq := None;
     on_room_stats := None; on_control := None; on_error := h;
     on_raw_message := None |}.

(** A session [rec1] writing to [out/barrage.txt]. *)
Definition session : World :=
  {| active_fetchers :=
       {[ lit "rec1" := {| live_id := lit "123"; recording_id := lit "rec1";
                           barrage_file := lit "out/barrage.txt" |} ]};
     barrage_files := {[ lit "rec1" := lit "out/barrage.txt" ]};
     disk := {[ lit "out/barrage.txt" := [] ]};
     journal := [];
     clock := 45296 |}.

Definition empty_world : World :=
  {| active_fetchers := ∅; barrage_files := ∅; disk := ∅; journal := []; clock := 45296 |}.

End Sample.


(** ** The connection: [start] and the heartbeat *)

Definition OPCODE_PING : Z := 9.

Section Connection.

Context {W : Type}.
Variable codec : Codec.
Variable self : Callbacks W.

(** [self._connectWebSocket()] of the base class, and the socket [self.ws]
    it opens. *)
Variable _connectWebSocket : M W unit.
Variable ws : WebSocket W.

Definition start : M W unit :=
  try_except
    (_connectWebSocket ;;
     call_if_set (on_error self) (lit "[弹幕] 连接已启动，等待消息..."))
    (fun e => call_if_set (on_error self) (lit "[弹幕] 连接失败: " ++ exn_text e)).

(** [PushFrame(payload_type='hb').SerializeToString()] *)
Definition heartbeat_frame : bytes :=
  serialize_PushFrame codec
    {| PushFrame.log_id := 0; PushFrame.payload_type := lit "hb"; PushFrame.payload := [] |}.

(** One turn of the [while True] loop of [_sendHeartbeat]: [true] to go
    round again, [false] for [break]. *)
Definition heartbeat_turn : M W bool :=
  try_except
    (send ws heartbeat_frame OPCODE_PING ;; ret true)
    (fun e =>
       call_if_set (on_error self) (lit "[心跳包错误] " ++ exn_text e) ;;
       ret false).

(** [_sendHeartbeat], run for at most [fuel] turns: [Some tt] when the
    loop was left, [None] when it is still going round. *)
Fixpoint _sendHeartbeat (fuel : nat) : M W (option unit) :=
  match fuel with
  | O => ret None
  | S fuel' =>
    again <- heartbeat_turn ;;
    if again then _sendHeartbeat fuel' else ret (Some tt)
  end.

End Connection.

(** ** Vocabulary of the statements *)

(** The world after [chunks] have been appended to the file at [path]. *)
Definition appended (path : str) (chunks : list str) (w : World) : World :=
  match chunks with
  | [] => w
  | _ => set_disk (fun d => <[path := default [] (d !! path) ++ chunks]> d) w
  end.

(** A transcript line as [_write_to_file] lays it out. *)
Definition transcript_chunk (strftime : str -> Z -> str) (now : Z) (text : str) : str :=
  lit "[" ++ strftime (lit "%H:%M:%S") now ++ lit "] " ++ text ++ nl.

Definition member_line (gender user : str) : str :=
  lit "[进场] [" ++ gender ++ lit "]" ++ user ++ lit " 进入了直播间".

Definition logged (level : Level) (text : str) (w : World) : World :=
  set_journal (fun j => j ++ [(level, text)]) w.

(** ** Sample runs *)

(** A frame with one member-join message whose user has a nickname and no
    gender field on the wire. *)
Definition frame_join_without_gender : bytes :=
  Sample.frame 7 false ""
    [Sample.message "WebcastMemberMessage"
       (Sample.write_len 2 (Sample.write_str 3 (lit "Alice")))].

Definition silent_socket : WebSocket World := {| send := fun _ _ => ret tt |}.

Definition run_sample_session (message : bytes) (w : World) : World :=
  snd (_wsOnMessage Sample.codec Sample.unicode_isprintable Sample.strftime_localtime
         (fetcher_callbacks Sample.os_fault Sample.strftime (lit "rec1"))
         silent_socket message w).


(** A connection whose [stop()] fails, and one whose [stop()] returns. *)
Definition stop_raising (f : Fetcher) : Result unit :=
  Raise (Exception (lit "connection has no socket yet")).

Definition stop_returning (f : Fetcher) : Result unit := Ok tt.

Definition start_sample (w : World) : Result bool * World :=
  start_barrage_recording Sample.os_fault Sample.os_path_join Sample.strftime
    Sample.write_fault Sample.DouyinLiveWebFetcher_init Sample.thread_start
    (lit "rec2") (lit "https://live.douyin.com/123456") (lit "douyin") (lit "out") w.

(** ** Watching the socket

    To count what is handed to [ws.send], the world of the callbacks is
    paired with a tape; the handlers run on the world as before and the
    socket is tapped: each [send] is noted on the tape, then passed on. *)

Definition on_fst {S1 S2 A} (m : M S1 A) : M (S1 * S2) A :=
  fun s => match m (fst s) with (r, s1) => (r, (s1, snd s)) end.

Definition beside {W T X} (h : option (X -> M W unit)) : option (X -> M (W * T) unit) :=
  match h with
  | Some f => Some (fun x => on_fst (f x))
  | None => None
  end.

Definition beside2 {W T X Y} (h : option (X -> Y -> M W unit))
  : option (X -> Y -> M (W * T) unit) :=
  match h with
  | Some f => Some (fun x y => on_fst (f x y))
  | None => None
  end.

Definition beside_tape {W} (T : Type) (cb : Callbacks W) : Callbacks (W * T) :=
  {| on_chat := beside (on_chat cb);
     on_gift := beside (on_gift cb);
     on_member := beside (on_member cb);
     on_like := beside (on_like cb);
     on_social := beside (on_social cb);
     on_emoji_chat := beside (on_emoji_chat cb);
     on_room_user_seq := beside (on_room_user_seq cb);
     on_room_stats := beside (on_room_stats cb);
     on_control := beside (on_control cb);
     on_error := beside (on_error cb);
     on_raw_message := beside2 (on_raw_message cb) |}.

Definition tapped {W} (ws : WebSocket W) : WebSocket (W * list (bytes * Z)) :=
  {| send := fun data opcode s =>
       match send ws data opcode (fst s) with
       | (r, w') => (r, (w', snd s ++ [(data, opcode)]))
       end |}.

(** A computation that leaves the tape as it found it. *)
Definition keeps_tape {W T A} (m : M (W * T) A) : Prop :=
  forall s, snd (snd (m s)) = snd s.

(** The acknowledgement of a frame. *)
Definition ack_frame (codec : Codec) (package : PushFrame.t) (token : bytes) : bytes :=
  serialize_PushFrame codec
    {| PushFrame.log_id := PushFrame.log_id package;
       PushFrame.payload_type := lit "ack";
       PushFrame.payload := token |}.

(** The frame of the design document's scenario: log id 42, [need_ack]
    set, [internal_ext] ["tok123"]; it carries one chat message. *)
Definition frame_needing_ack : bytes :=
  Sample.frame 42 true "tok123"
    [Sample.message "WebcastChatMessage"
       (Sample.write_len 2 (Sample.user "Alice" 1) ++ Sample.write_str 3 (lit "hi"))].

Definition quiet_socket {W} : WebSocket W := {| send := fun _ _ => ret tt |}.

(** A handler that always returns. *)
Definition returns {W X} (h : X -> M W unit) : Prop :=
  forall x w, exists w', h x w = (Ok tt, w').

(** A gift message cut off inside the varint of its combo count (field
    6): the byte 172 announces a further byte that is not there.  The
    Response holds it followed by a chat message. *)
Definition truncated_gift : list Z := [48; 172].


(** A byte in the printable ASCII range 0x20 to 0x7E. *)
Definition printable_ascii (b : byte) : Prop := 32 <= ord_byte b <= 126.

(** What [hex_scan] makes of one byte value. *)
Definition dotted (v : Z) : Z := if (32 <=? v) && (v <=? 126) then v else 46.

(** The raw-message hook, which the dispatch of a message calls first when
    one is registered. *)
Definition raw_hook {W} (self : Callbacks W) (msg : Message.t) : M W unit :=
  match on_raw_message self with
  | Some h => h (Message.method msg) (Message.payload msg)
  | None => ret tt
  end.




(** A fetcher with a raw-message hook that notes the method and a
    diagnostic handler that notes what it is told. *)
Definition hooked : Callbacks (list str) :=
  {| on_chat := None; on_gift := None; on_member := None; on_like := None;
     on_social := None; on_emoji_chat := None; on_room_user_seq := None;
     on_room_stats := None; on_control := None;
     on_error := Some Sample.record_text;
     on_raw_message := Some (fun method _ => Sample.record_text (lit "raw " ++ method)) |}.

(** ** What the commerce parsers report *)

(** The parser the dispatch has for a commerce method. *)
Definition commerce_parser {W} (codec : Codec) (strftime_localtime : str -> Q -> Result str)
           (self : Callbacks W) (method : str) : bytes -> M W unit :=
  if str_eq method (lit "WebcastProductChangeMessage") then _parseProductChangeMsg codec self
  else if str_eq method (lit "WebcastLiveShoppingMessage")
       then _parseLiveShoppingMsg codec strftime_localtime self
       else _parseLiveEcomGeneralMsg self.

Definition type_notice (msg : Message.t) : str :=
  lit "[消息类型] " ++ Message.method msg ++ lit " - 数据长度: "
  ++ str_of_int (Z.of_nat (length (Message.payload msg))).

Definition product_change_reports (message : ProductChangeMessage.t) : list str :=
  if truthy (ProductChangeMessage.update_toast message)
  then [lit "[商品变更] " ++ ProductChangeMessage.update_toast message]
  else [].

Definition shopping_create_time (message : LiveShoppingMessage.t) : Z :=
  match LiveShoppingMessage.common message with
  | Some c => Common.create_time c
  | None => 0
  end.

(** The clock time shown for a live-shopping message: none when it has no
    positive [create_time]. *)
Definition shopping_time_str (strftime_localtime : str -> Q -> Result str)
           (message : LiveShoppingMessage.t) : Result (option str) :=
  if 0 <? shopping_create_time message then
    match strftime_localtime (lit "%H:%M:%S")
            (inject_Z (shopping_create_time message) / inject_Z 1000)%Q with
    | Ok time_str => Ok (Some time_str)
    | Raise e => Raise e
    end
  else Ok None.

Definition live_shopping_reports (time_str : option str) (message : LiveShoppingMessage.t)
  : list str :=
  let operation := type_map_get (LiveShoppingMessage.msg_type message) in
  let promotion_id := str_of_int (LiveShoppingMessage.promotion_id message) in
  match time_str with
  | Some t =>
    (lit "[直播购物] " ++ t ++ lit " - " ++ operation ++ lit ", 商品ID:" ++ promotion_id)
    :: (if LiveShoppingMessage.msg_type message =? 2
        then [lit "[🛒 下单] " ++ t ++ lit " - 商品ID:" ++ promotion_id]
        else [])
  | None =>
    (lit "[直播购物] " ++ operation ++ lit ", 商品ID:" ++ promotion_id)
    :: (if LiveShoppingMessage.msg_type message =? 2
        then [lit "[🛒 下单] 商品ID:" ++ promotion_id]
        else [])
  end.

Definition ecom_reports (payload : bytes) : list str :=
  let decoded_text := hex_scan (hex payload) in
  let found_keywords := List.filter (fun kw => contains kw decoded_text) ecom_keywords in
  if is_set (head found_keywords)
  then [lit "[下单] 用户下单商品 - 关键词: " ++ join (lit ", ") found_keywords;
        lit "[下单] 详细信息: " ++ slice_to 200 decoded_text ++ lit "..."]
  else [lit "[下单] 用户下单商品 - 数据长度: " ++ str_of_int (Z.of_nat (length payload));
        lit "[下单] 详细信息: " ++ slice_to 100 decoded_text ++ lit "..."].

(** A generic e-commerce message whose payload reads ["Order#1"]. *)
Definition ecom_order : Message.t :=
  {| Message.method := lit "WebcastLiveEcomGeneralMessage";
     Message.payload := list_byte_of_string "Order#1" |}.

(** A message of a method the dispatch does not know, with four letters
    of payload. *)
Definition unknown_abcd : Message.t :=
  {| Message.method := lit "WebcastFooMessage";
     Message.payload := list_byte_of_string "abcd" |}.

(** ** A burst of live-shopping messages *)

(** A diagnostic text as the manager's [on_error] handler writes it. *)
Definition system_chunk (strftime : str -> Z -> str) (now : Z) (text : str) : str :=
  transcript_chunk strftime now (lit "[系统] " ++ text).

(** [msg] is a live-shopping message for promotion 99 whose event time
    lies in the given second; it decodes to [decoded] and its clock time
    prints as [stamp]. *)
Definition in_burst (codec : Codec) (strftime_localtime : str -> Q -> Result str)
           (second : Z) (msg : Message.t) (decoded : LiveShoppingMessage.t)
           (stamp : option str) : Prop :=
  Message.method msg = lit "WebcastLiveShoppingMessage"
  /\ parse_LiveShoppingMessage codec (Message.payload msg) = Ok decoded
  /\ LiveShoppingMessage.promotion_id decoded = 99
  /\ 0 < shopping_create_time decoded
  /\ shopping_create_time decoded / 1000 = second
  /\ shopping_time_str strftime_localtime decoded = Ok stamp.

(** The transcript lines one such message leaves. *)
Definition shopping_lines (strftime : str -> Z -> str) (now : Z) (msg : Message.t)
           (decoded : LiveShoppingMessage.t) (stamp : option str) : list str :=
  map (system_chunk strftime now) (type_notice msg :: live_shopping_reports stamp decoded).

(** Three live-shopping messages for promotion 99, all in the second
    1700000000, in one Response. *)
Definition frame_three_purchases : bytes :=
  Sample.frame 9 false ""
    [Sample.message "WebcastLiveShoppingMessage" (Sample.live_shopping 1 99 1700000000100);
     Sample.message "WebcastLiveShoppingMessage" (Sample.live_shopping 1 99 1700000000200);
     Sample.message "WebcastLiveShoppingMessage" (Sample.live_shopping 1 99 1700000000300)].

(** ** Sample calls of the deduplicator *)

(** Two live-shopping payloads for promotion 99 whose event times,
    1700000000100 and 1700000000200, lie in the same second. *)
Definition purchase_a : bytes := Sample.to_bytes (Sample.live_shopping 1 99 1700000000100).
Definition purchase_b : bytes := Sample.to_bytes (Sample.live_shopping 1 99 1700000000200).

(** The signature components [_extractMessageSignature] reads off a
    live-shopping payload: promotion id and event time in whole seconds. *)
Definition signature_components (codec : Codec) (payload : bytes) : option (Z * Z) :=
  match parse_LiveShoppingMessage codec payload with
  | Ok message =>
    let create_time := shopping_create_time message in
    Some (LiveShoppingMessage.promotion_id message,
          if 0 <? create_time then create_time / 1000 else 0)
  | Raise _ => None
  end.

Definition check_duplicate (current_time : Q) (payload : bytes)
  : M (gmap str Q * list str) bool :=
  _isDuplicateMessage Sample.codec (Sample.only_on_error None) current_time
    (lit "WebcastLiveShoppingMessage") payload.

Definition shopping_message (payload : list Z) : Message.t :=
  {| Message.method := lit "WebcastLiveShoppingMessage";
     Message.payload := Sample.to_bytes payload |}.

Definition shopping_event (create_time : Z) : LiveShoppingMessage.t :=
  {| LiveShoppingMessage.msg_type := 1;
     LiveShoppingMessage.promotion_id := 99;
     LiveShoppingMessage.common := Some {| Common.create_time := create_time |} |}.

(** ** Vocabulary of the further properties *)

(** An entry of the cache is fresh at [current_time] when its age does
    not exceed the two seconds of [_cache_timeout]. *)
Definition fresh (current_time v : Q) : Prop := (current_time - v <= _cache_timeout)%Q.

(** The doubles next to 2 are [2 - 2^-52] and [2 + 2^-51].  An age rounds
    to a double that is at most 2 exactly when it is at most the midpoint
    [2 + 2^-52], the tie going to 2, whose mantissa is even.  An entry is
    young at [current_time] when its exact age is at most that midpoint. *)
Definition purge_threshold : Q := (_cache_timeout + (1 # 4503599627370496))%Q.

Definition young (current_time v : Q) : Prop := (current_time - v <= purge_threshold)%Q.

(** [n/d / 2^e < c], in integers. *)
Definition below (n d : positive) (c e : Z) : Prop :=
  Zpos n * 2 ^ Z.max 0 (- e) < c * (Zpos d * 2 ^ Z.max 0 e).

(** The cache a call of [_isDuplicateMessage] leaves, and its answer. *)
Definition cache_after {W A} (r : Result A * (gmap str Q * W)) : gmap str Q := fst (snd r).
Definition answer {S A} (r : Result A * S) : Result A := fst r.

(** The fallback hash of the first sample purchase. *)
Definition purchase_hash : str :=
  Eval vm_compute in
    match message_hash_of (lit "WebcastLiveShoppingMessage") purchase_a with
    | Ok mh => mh
    | Raise _ => []
    end.

Definition no_handlers : Callbacks (list str) := Sample.only_on_error None.

(** The characters of a text that need three or more bytes in UTF-8. *)
Definition wide_chars (s : str) : nat := length (List.filter (Z.leb 2048) s).

(** The noise methods that have no typed handler. *)
Definition pure_noise_types : list str :=
  [lit "WebcastRanklistHourEntranceMessage"; lit "WebcastInRoomBannerMessage";
   lit "WebcastGiftSortMessage"; lit "WebcastRoomStreamAdaptationMessage";
   lit "WebcastRoomRankMessage"; lit "WebcastFansclubMessage"; lit "WebcastRoomMessage"].

(** The methods that have a typed handler, and whether the fetcher was
    given that handler. *)
Definition typed_message_types : list str :=
  core_message_types
  ++ [lit "WebcastRoomUserSeqMessage"; lit "WebcastRoomStatsMessage";
      lit "WebcastControlMessage"].

Definition typed_handler_registered {W} (self : Callbacks W) (method : str) : bool :=
  if str_eq method (lit "WebcastChatMessage") then is_set (on_chat self)
  else if str_eq method (lit "WebcastGiftMessage") then is_set (on_gift self)
  else if str_eq method (lit "WebcastMemberMessage") then is_set (on_member self)
  else if str_eq method (lit "WebcastLikeMessage") then is_set (on_like self)
  else if str_eq method (lit "WebcastSocialMessage") then is_set (on_social self)
  else if str_eq method (lit "WebcastEmojiChatMessage") then is_set (on_emoji_chat self)
  else if str_eq method (lit "WebcastRoomUserSeqMessage") then is_set (on_room_user_seq self)
  else if str_eq method (lit "WebcastRoomStatsMessage") then is_set (on_room_stats self)
  else if str_eq method (lit "WebcastControlMessage") then is_set (on_control self)
  else false.

(** A message of a method unknown to the dispatch whose name holds a
    shopping keyword. *)
Definition unknown_order : Message.t :=
  {| Message.method := lit "WebcastOrderMessage"; Message.payload := [] |}.

Definition noise_banner : Message.t :=
  {| Message.method := lit "WebcastInRoomBannerMessage";
     Message.payload := list_byte_of_string "banner text" |}.

(** A frame cut off inside the varint of its log id (field 2). *)
Definition frame_cut_short : bytes := Sample.to_bytes [16; 172].

(** A gift message that cannot be decoded, for a fetcher without a gift
    handler. *)
Definition bad_gift : Message.t :=
  {| Message.method := lit "WebcastGiftMessage"; Message.payload := Sample.to_bytes truncated_gift |}.

Definition recorder : Callbacks (list str) := Sample.only_on_error (Some Sample.record_text).

(** A socket whose [send] fails. *)
Definition closed_socket {W} : WebSocket W :=
  {| send := fun _ _ => raise (Exception (lit "socket is already closed")) |}.

Definition run_recorder (ws : WebSocket (list str)) (message : bytes) : Result unit * list str :=
  _wsOnMessage Sample.codec Sample.unicode_isprintable Sample.strftime_localtime
    recorder ws message [].

(** ** The transcript file of a new session *)

Definition transcript_directory (recording_dir : str) : str :=
  if truthy recording_dir then recording_dir else lit "downloads".

Definition transcript_name (strftime : str -> Z -> str) (recording_id : str) (now : Z) : str :=
  lit "barrage_" ++ recording_id ++ lit "_" ++ strftime (lit "%Y%m%d_%H%M%S") now ++ lit ".txt".


(** The room identifier [_extract_live_id] reads off a direct link. *)
Definition room_of (live_url : str) : str :=
  hd [] (split 63 (List.last (split 47 live_url) [])).


(** A host that can start no further thread. *)
Definition thread_refused (fetcher : Fetcher) : Result unit :=
  Raise (Exception (lit "can't start new thread")).

(** The start of the sample session on that host. *)
Definition start_without_thread (w : World) : Result bool * World :=
  start_barrage_recording Sample.os_fault Sample.os_path_join Sample.strftime
    Sample.write_fault Sample.DouyinLiveWebFetcher_init thread_refused
    (lit "rec2") (lit "https://live.douyin.com/123456") (lit "douyin") (lit "out") w.

(** An operating system that refuses every path. *)
Definition read_only (path : str) : option Exn := Some (Exception (lit "Permission denied")).

Definition stopped_session : World :=
  snd (stop_barrage_recording stop_returning (lit "rec1") Sample.session).

(** ** The heartbeat *)

(** The socket accepts [k] pings in a row, taking the world from [w] to
    [w']. *)
Fixpoint pings_accepted {W} (ws : WebSocket W) (frame : bytes) (k : nat) (w w' : W) : Prop :=
  match k with
  | O => w' = w
  | S k' =>
    exists w1, send ws frame OPCODE_PING w = (Ok tt, w1) /\ pings_accepted ws frame k' w1 w'
  end.

(** A socket that counts what it is sent and fails from the third send
    on. *)
Definition two_pings_socket : WebSocket (nat * list str) :=
  {| send := fun _ _ s =>
       if (fst s <? 2)%nat then (Ok tt, (S (fst s), snd s))
       else (Raise (Exception (lit "Connection is already closed.")), (S (fst s), snd s)) |}.

Definition count_reports : Callbacks (nat * list str) :=
  {| on_chat := None; on_gift := None; on_member := None; on_like := None;
     on_social := None; on_emoji_chat := None; on_room_user_seq := None;
     on_room_stats := None; on_control := None;
     on_error := Some (fun text s => (Ok tt, (fst s, snd s ++ [text])));
     on_raw_message := None |}.

Definition refused_connection : M (list str) unit :=
  raise (Exception (lit "Handshake status 403 Forbidden")).

(** The frame of the design document's chat scenario: no ack asked, one
    chat message of Alice saying hi. *)
Definition frame_chat : bytes :=
  Sample.frame 11 false ""
    [Sample.message "WebcastChatMessage"
       (Sample.write_len 2 (Sample.user "Alice" 1) ++ Sample.write_str 3 (lit "hi"))].

Definition commerce_methods : list str :=
  [lit "WebcastLiveEcomGeneralMessage"; lit "WebcastLiveShoppingMessage";
   lit "WebcastProductChangeMessage"].

(** * Properties *)

(** ** Running computations *)

Ltac run :=
  repeat (progress (unfold bind, try_except, ret, raise, lift_result, gets, modify,
                    call, call2, call_if_set, on_snd; cbn [fst snd])).

Lemma bind_ok {S A B} (m : M S A) (k : A -> M S B) s a s' :
  m s = (Ok a, s') -> bind m k s = k a s'.
Proof. intros H. unfold bind. now rewrite H. Qed.

Lemma bind_raise {S A B} (m : M S A) (k : A -> M S B) s e s' :
  m s = (Raise e, s') -> bind m k s = (Raise e, s').
Proof. intros H. unfold bind. now rewrite H. Qed.

Lemma try_ok {S A} (m : M S A) h s a s' :
  m s = (Ok a, s') -> try_except m h s = (Ok a, s').
Proof. intros H. unfold try_except. now rewrite H. Qed.

Lemma try_raise {S A} (m : M S A) h s e s' :
  m s = (Raise e, s') -> try_except m h s = h e s'.
Proof. intros H. unfold try_except. now rewrite H. Qed.

(** ** The transcript *)

Section Transcript.

Variable os_fault : str -> option Exn.
Variable strftime : str -> Z -> str.

Lemma write_to_file_registered rid text w f :
  barrage_files w !! rid = Some f ->
  os_fault f = None ->
  _write_to_file os_fault strftime rid text w
  = (Ok tt, appended f [transcript_chunk strftime (clock w) text] w).
Proof.
  intros Hf Hok. unfold _write_to_file, now_strftime, open_append. run.
  rewrite Hf. run. now rewrite Hok.
Qed.

Lemma write_to_file_unknown rid text w :
  barrage_files w !! rid = None ->
  _write_to_file os_fault strftime rid text w = (Ok tt, w).
Proof.
  intros Hf. unfold _write_to_file. run. now rewrite Hf.
Qed.

Lemma write_to_file_returns rid text w :
  exists w', _write_to_file os_fault strftime rid text w = (Ok tt, w').
Proof.
  unfold _write_to_file, now_strftime, open_append, logger. run.
  destruct (barrage_files w !! rid) as [f|]; run; [|eauto].
  destruct (os_fault f); run; eauto.
Qed.

Lemma handle_error_message_returns rid text w :
  exists w', _handle_error_message os_fault strftime rid text w = (Ok tt, w').
Proof.
  unfold _handle_error_message.
  destruct (write_to_file_returns rid (lit "[系统] " ++ text) w) as [w' H].
  exists w'. now apply try_ok.
Qed.

End Transcript.

(** ** Member joins (C2) *)

Section MemberJoin.

Variable os_fault : str -> option Exn.
Variable strftime : str -> Z -> str.

(** C2, as amended.  A member-join event of a registered session whose
    file can be written is transcribed as
    [[进场] [{gender}]{user} 进入了直播间], where the gender is 男 for the
    value 1, 女 for the value 0 (the decoder's default, so also for an
    absent field) and 未知 for every other value. *)
Theorem C2_member_join_line rid (msg : MemberMessage.t) w f :
  barrage_files w !! rid = Some f ->
  os_fault f = None ->
  exists gender,
    _handle_member_message os_fault strftime rid msg w
    = (Ok tt, appended f [transcript_chunk strftime (clock w)
                            (member_line gender (User.nick_name (MemberMessage.user msg)))] w)
    /\ (gender = lit "男" \/ gender = lit "女" \/ gender = lit "未知")
    /\ (User.gender (MemberMessage.user msg) = 1 -> gender = lit "男")
    /\ (User.gender (MemberMessage.user msg) = 0 -> gender = lit "女")
    /\ (User.gender (MemberMessage.user msg) <> 1 ->
        User.gender (MemberMessage.user msg) <> 0 -> gender = lit "未知").
Proof.
  intros Hf Hok.
  set (g := User.gender (MemberMessage.user msg)).
  exists (if g =? 1 then lit "男" else if g =? 0 then lit "女" else lit "未知").
  split.
  - unfold _handle_member_message. fold g.
    erewrite try_ok; [reflexivity|].
    now apply write_to_file_registered.
  - repeat split.
    + destruct (g =? 1); [now left|]. destruct (g =? 0); [right; now left|right; now right].
    + intros ->. reflexivity.
    + intros ->. reflexivity.
    + intros H1 H0.
      destruct (Z.eqb_spec g 1); [contradiction|].
      destruct (Z.eqb_spec g 0); [contradiction|reflexivity].
Qed.

End MemberJoin.

(** C2, the claim as stated fails: with the gender absent the line says
    女, not 未知. *)
Lemma C2_absent_gender_is_not_unknown :
  disk (run_sample_session frame_join_without_gender Sample.session) !! lit "out/barrage.txt"
  = Some [lit "[12:34:56] [进场] [女]Alice 进入了直播间" ++ nl]
  /\ lit "[12:34:56] [进场] [女]Alice 进入了直播间" ++ nl
     <> transcript_chunk Sample.strftime 45296 (member_line (lit "未知") (lit "Alice")).
Proof.
  split; [vm_compute; reflexivity|].
  vm_compute. discriminate.
Qed.

Lemma C2_member_join_line_witness :
  barrage_files Sample.session !! lit "rec1" = Some (lit "out/barrage.txt")
  /\ Sample.os_fault (lit "out/barrage.txt") = None
  /\ exists gender,
       _handle_member_message Sample.os_fault Sample.strftime (lit "rec1")
         {| MemberMessage.user :=
              {| User.id := 5; User.nick_name := lit "Bob"; User.gender := 2 |} |}
         Sample.session
       = (Ok tt, appended (lit "out/barrage.txt")
                   [transcript_chunk Sample.strftime 45296 (member_line gender (lit "Bob"))]
                   Sample.session)
       /\ gender = lit "未知".
Proof.
  assert (H1 : barrage_files Sample.session !! lit "rec1" = Some (lit "out/barrage.txt"))
    by (vm_compute; reflexivity).
  assert (H2 : Sample.os_fault (lit "out/barrage.txt") = None) by reflexivity.
  split; [exact H1|]. split; [exact H2|].
  destruct (C2_member_join_line Sample.os_fault Sample.strftime (lit "rec1")
              {| MemberMessage.user :=
                   {| User.id := 5; User.nick_name := lit "Bob"; User.gender := 2 |} |}
              Sample.session (lit "out/barrage.txt") H1 H2)
    as (gender & Hrun & _ & _ & _ & Hother).
  exists gender. split; [exact Hrun|]. apply Hother; cbn; lia.
Defined.

(** ** Room identifiers (C7) *)

Lemma startswith_app p s : startswith p (p ++ s) = true.
Proof.
  induction p as [|a p IH]; [reflexivity|]. cbn. now rewrite Z.eqb_refl, IH.
Qed.

Lemma contains_unfold needle hay :
  contains needle hay
  = startswith needle hay || match hay with [] => false | _ :: hay' => contains needle hay' end.
Proof. destruct hay; reflexivity. Qed.

Lemma contains_app needle pre post : contains needle (pre ++ needle ++ post) = true.
Proof.
  induction pre as [|a pre IH].
  - cbn [app]. rewrite contains_unfold, startswith_app. reflexivity.
  - cbn [app]. rewrite contains_unfold, IH. apply orb_true_r.
Qed.

Lemma split_nonempty c s : split c s <> [].
Proof.
  destruct s as [|a s]; cbn; [discriminate|].
  destruct (a =? c); [discriminate|]. destruct (split c s); discriminate.
Qed.

Lemma hd_split c prefix rest :
  c ∉ prefix ->
  rest = [] \/ (exists q, rest = c :: q) ->
  hd [] (split c (prefix ++ rest)) = prefix.
Proof.
  induction prefix as [|a prefix IH]; intros Hc Hrest.
  - destruct Hrest as [->|[q ->]]; cbn; [reflexivity|]. now rewrite Z.eqb_refl.
  - cbn. destruct (Z.eqb_spec a c) as [->|Hne].
    + exfalso. apply Hc. left.
    + assert (Hc' : c ∉ prefix) by (intros Hin; apply Hc; now right).
      specialize (IH Hc' Hrest).
      destruct (split c (prefix ++ rest)) as [|p ps] eqn:E.
      * now apply split_nonempty in E.
      * cbn in *. now subst.
Qed.

Lemma last_split_no_sep c s : c ∉ s -> split c s = [s].
Proof.
  induction s as [|a s IH]; intros Hc; [reflexivity|].
  cbn. destruct (Z.eqb_spec a c) as [->|Hne].
  - exfalso. apply Hc. left.
  - rewrite IH; [reflexivity|]. intros Hin. apply Hc. now right.
Qed.

Lemma last_cons_nonempty {A} (x : A) l d : l <> [] -> List.last (x :: l) d = List.last l d.
Proof. destruct l; [contradiction|reflexivity]. Qed.

Lemma last_split c pre tail :
  c ∉ tail -> List.last (split c (pre ++ c :: tail)) [] = tail.
Proof.
  intros Hc. induction pre as [|a pre IH]; cbn.
  - rewrite Z.eqb_refl. rewrite last_cons_nonempty by apply split_nonempty.
    now rewrite last_split_no_sep.
  - destruct (a =? c).
    + rewrite last_cons_nonempty by apply split_nonempty. exact IH.
    + destruct (split c (pre ++ c :: tail)) as [|p ps] eqn:E.
      * now apply split_nonempty in E.
      * destruct ps as [|p' ps]; [|exact IH].
        (* a single part would hold the separator *)
        exfalso. clear IH.
        assert (Hlen : forall s, length (split c s) = S (length (List.filter (Z.eqb c) s))).
        { clear. induction s as [|x s IH]; [reflexivity|]. cbn.
          rewrite (Z.eqb_sym c x). destruct (x =? c); cbn; [now rewrite IH|].
          destruct (split c s) eqn:E; cbn in *; [discriminate|exact IH]. }
        specialize (Hlen (pre ++ c :: tail)). rewrite E in Hlen.
        rewrite List.filter_app in Hlen. cbn in Hlen. rewrite Z.eqb_refl in Hlen.
        rewrite length_app in Hlen. cbn in Hlen. lia.
Qed.

Section LiveId.

Variable w : World.

(** X29.  The link kinds as the code tells them apart: a URL that
    contains [live.douyin.com] yields what stands after its final [/] and
    before any [?]; a URL that contains [v.douyin.com] and not
    [live.douyin.com] yields nothing, and a warning is logged. *)
Theorem room_id_by_link_kind (live_url : str) :
  (forall pre tail room rest,
      contains (lit "live.douyin.com") live_url = true ->
      live_url = pre ++ [47] ++ tail -> 47 ∉ tail ->
      tail = room ++ rest -> 63 ∉ room -> (rest = [] \/ exists q, rest = 63 :: q) ->
      _extract_live_id live_url w = (Ok (Some room), w))
  /\ (contains (lit "v.douyin.com") live_url = true ->
      contains (lit "live.douyin.com") live_url = false ->
      _extract_live_id live_url w
      = (Ok None, logged WARNING (lit "短链接需要解析，暂不支持") w)).
Proof.
  split.
  - intros pre tail room rest Hlive Hurl Hslash Htail Hq Hrest.
    unfold _extract_live_id. run. rewrite Hlive.
    assert (Hhas : contains (lit "/") live_url = true).
    { rewrite Hurl. apply (contains_app [47] pre tail). }
    rewrite Hhas. cbn [fst snd].
    rewrite Hurl. cbn [app]. rewrite last_split by exact Hslash.
    rewrite Htail, hd_split by assumption. reflexivity.
  - intros Hshort Hlive. unfold _extract_live_id, logger. run.
    rewrite Hlive, Hshort. reflexivity.
Qed.

End LiveId.

(** C7, the code at the failing input.  The link is a shortened one (its
    host is [v.douyin.com]) that mentions [live.douyin.com] in its query.
    The branch that refuses shortened links with a warning is not
    reached: the link is taken for a direct one, a room identifier comes
    out of it and nothing is logged. *)
Theorem C7_short_link_with_direct_host_is_accepted :
  startswith (lit "https://v.douyin.com/")
    (lit "https://v.douyin.com/abc?from=live.douyin.com") = true
  /\ contains (lit "v.douyin.com") (lit "https://v.douyin.com/abc?from=live.douyin.com") = true
  /\ _extract_live_id (lit "https://v.douyin.com/abc?from=live.douyin.com") Sample.empty_world
     = (Ok (Some (lit "abc")), Sample.empty_world).
Proof. repeat split; vm_compute; reflexivity. Qed.

Lemma room_id_by_link_kind_witness :
  contains (lit "live.douyin.com") (lit "https://live.douyin.com/123456?x=1") = true
  /\ _extract_live_id (lit "https://live.douyin.com/123456?x=1") Sample.empty_world
     = (Ok (Some (lit "123456")), Sample.empty_world)
  /\ contains (lit "v.douyin.com") (lit "https://v.douyin.com/iXyZ/") = true
  /\ contains (lit "live.douyin.com") (lit "https://v.douyin.com/iXyZ/") = false
  /\ fst (_extract_live_id (lit "https://v.douyin.com/iXyZ/") Sample.empty_world) = Ok None.
Proof.
  assert (H1 : contains (lit "live.douyin.com") (lit "https://live.douyin.com/123456?x=1") = true)
    by (vm_compute; reflexivity).
  assert (H2 : contains (lit "v.douyin.com") (lit "https://v.douyin.com/iXyZ/") = true)
    by (vm_compute; reflexivity).
  assert (H3 : contains (lit "live.douyin.com") (lit "https://v.douyin.com/iXyZ/") = false)
    by (vm_compute; reflexivity).
  split; [exact H1|]. split.
  - apply (proj1 (room_id_by_link_kind Sample.empty_world
                    (lit "https://live.douyin.com/123456?x=1"))
             (lit "https://live.douyin.com") (lit "123456?x=1") (lit "123456") (lit "?x=1")).
    + exact H1.
    + vm_compute. reflexivity.
    + vm_compute. intros H. repeat (apply elem_of_cons in H as [H|H]; [discriminate|]).
      now apply elem_of_nil in H.
    + vm_compute. reflexivity.
    + vm_compute. intros H. repeat (apply elem_of_cons in H as [H|H]; [discriminate|]).
      now apply elem_of_nil in H.
    + right. eexists. vm_compute. reflexivity.
  - split; [exact H2|]. split; [exact H3|].
    rewrite (proj2 (room_id_by_link_kind Sample.empty_world (lit "https://v.douyin.com/iXyZ/")) H2 H3).
    reflexivity.
Defined.

(** ** Starting and stopping a session (C9, C10) *)

Section Sessions.

Variable os_fault : str -> option Exn.
Variable os_path_join : str -> str -> str.
Variable strftime : str -> Z -> str.
Variable stop : Fetcher -> Result unit.
Variable write_fault : str -> str -> option Exn.
Variable DouyinLiveWebFetcher_init : str -> Result unit.
Variable thread_start : Fetcher -> Result unit.

Lemma extract_live_id_returns live_url w :
  exists o w', _extract_live_id live_url w = (Ok o, w').
Proof.
  unfold _extract_live_id, logger. run.
  destruct (contains (lit "live.douyin.com") live_url).
  - destruct (contains (lit "/") live_url); eauto.
  - destruct (contains (lit "v.douyin.com") live_url); eauto.
Qed.

Lemma write_chunks_files path chunks w :
  active_fetchers (snd (write_chunks write_fault path chunks w)) = active_fetchers w
  /\ barrage_files (snd (write_chunks write_fault path chunks w)) = barrage_files w
  /\ journal (snd (write_chunks write_fault path chunks w)) = journal w
  /\ clock (snd (write_chunks write_fault path chunks w)) = clock w.
Proof.
  revert w. induction chunks as [|chunk rest IH]; intros w; cbn [write_chunks].
  - now repeat split.
  - destruct (write_fault path chunk); [now repeat split|].
    unfold bind, modify.
    match goal with |- context [write_chunks write_fault path rest ?w0] =>
      destruct (IH w0) as (Ha & Hb & Hj & Hc) end.
    now rewrite Ha, Hb, Hj, Hc.
Qed.

Lemma create_barrage_file_returns recording_id recording_dir w :
  exists o w',
    _create_barrage_file os_fault os_path_join strftime write_fault recording_id recording_dir w
    = (Ok o, w')
    /\ active_fetchers w' = active_fetchers w
    /\ barrage_files w' = barrage_files w.
Proof.
  unfold _create_barrage_file, os_makedirs, open_write, now_strftime, logger. run.
  destruct (os_fault _); run; [eexists _, _; now repeat split|].
  destruct (os_fault _); run; [eexists _, _; now repeat split|].
  match goal with |- context [write_chunks write_fault ?p ?c ?w0] =>
    destruct (write_chunks_files p c w0) as (Ha & Hb & _);
    destruct (write_chunks write_fault p c w0) as [[[]|e] w1]
  end; cbn [fst snd] in *; eexists _, _; (split; [reflexivity|]); cbn; now rewrite Ha, Hb.
Qed.

(** A start that answers [True] has registered the session. *)
Lemma start_registers recording_id live_url platform recording_dir w w1 :
  start_barrage_recording os_fault os_path_join strftime write_fault
    DouyinLiveWebFetcher_init thread_start
    recording_id live_url platform recording_dir w = (Ok true, w1) ->
  exists fetcher file,
    active_fetchers w1 !! recording_id = Some fetcher
    /\ barrage_files w1 !! recording_id = Some file.
Proof.
  unfold start_barrage_recording. intros H.
  unfold try_except in H.
  destruct (str_eq platform (lit "douyin")); cbn [negb] in H.
  2:{ unfold logger in H. run. cbn in H. discriminate. }
  destruct (extract_live_id_returns live_url w) as (o & w0 & E0).
  rewrite (bind_ok _ _ _ _ _ E0) in H.
  destruct (truthy (default [] o)); cbn [negb] in H.
  2:{ unfold logger in H. run. cbn in H. discriminate. }
  destruct (create_barrage_file_returns recording_id recording_dir w0)
    as (o' & w0' & E1 & _ & _).
  rewrite (bind_ok _ _ _ _ _ E1) in H.
  destruct (truthy (default [] o')); cbn [negb] in H.
  2:{ run. cbn in H. discriminate. }
  unfold logger in H. run.
  destruct (DouyinLiveWebFetcher_init _) as [[]|e]; cbn in H; [|discriminate].
  destruct (thread_start _) as [[]|e]; cbn in H; [|discriminate].
  injection H as <-.
  eexists _, _. cbn. split; apply lookup_insert_eq.
Qed.

Lemma stop_inactive recording_id w :
  active_fetchers w !! recording_id = None ->
  stop_barrage_recording stop recording_id w = (Ok false, w).
Proof.
  intros H. unfold stop_barrage_recording. run. now rewrite H.
Qed.

Lemma stop_active_returning recording_id w fetcher :
  active_fetchers w !! recording_id = Some fetcher ->
  stop fetcher = Ok tt ->
  exists w2,
    stop_barrage_recording stop recording_id w = (Ok true, w2)
    /\ active_fetchers w2 !! recording_id = None
    /\ barrage_files w2 !! recording_id = None.
Proof.
  intros H Hstop. unfold stop_barrage_recording, logger. run.
  rewrite H, Hstop. cbn.
  destruct (barrage_files w !! recording_id) eqn:Hf; cbn.
  - eexists. split; [reflexivity|]. cbn. split; apply lookup_delete_eq.
  - eexists. split; [reflexivity|]. cbn. split; [apply lookup_delete_eq|exact Hf].
Qed.

(** C9, as amended.  When a start has answered [True] and the
    connection's [stop()] returns, the stop answers [True] and leaves the
    session neither active nor mapped to a file; a stop of a session
    that is not active answers [False] and changes nothing. *)
Theorem C9_start_then_stop recording_id live_url platform recording_dir w w1 :
  (start_barrage_recording os_fault os_path_join strftime write_fault
     DouyinLiveWebFetcher_init thread_start
     recording_id live_url platform recording_dir w = (Ok true, w1) ->
   (forall fetcher, active_fetchers w1 !! recording_id = Some fetcher -> stop fetcher = Ok tt) ->
   exists w2,
     stop_barrage_recording stop recording_id w1 = (Ok true, w2)
     /\ fst (is_recording recording_id w2) = Ok false
     /\ fst (get_barrage_file recording_id w2) = Ok None)
  /\ (fst (is_recording recording_id w) = Ok false ->
      stop_barrage_recording stop recording_id w = (Ok false, w)).
Proof.
  split.
  - intros Hstart Hstop.
    destruct (start_registers _ _ _ _ _ _ Hstart) as (fetcher & file & Ha & _).
    destruct (stop_active_returning recording_id w1 fetcher Ha (Hstop _ Ha))
      as (w2 & Hrun & Hgone & Hfile).
    exists w2. split; [exact Hrun|]. unfold is_recording, get_barrage_file. run.
    now rewrite Hgone, Hfile.
  - unfold is_recording. run. intros H.
    apply stop_inactive. destruct (active_fetchers w !! recording_id); [discriminate|reflexivity].
Qed.

(** C10.  When [stop()] on the connection of an active session raises,
    the stop answers [False] after logging the failure; the session is
    still active and its file mapping is still there. *)
Theorem C10_stop_failure_keeps_session recording_id w fetcher e :
  active_fetchers w !! recording_id = Some fetcher ->
  stop fetcher = Raise e ->
  let w' := logged ERROR (lit "停止弹幕录制失败: " ++ exn_text e) w in
  stop_barrage_recording stop recording_id w = (Ok false, w')
  /\ fst (is_recording recording_id w') = Ok true
  /\ fst (get_barrage_file recording_id w') = Ok (barrage_files w !! recording_id).
Proof.
  intros H Hstop w'. subst w'. unfold stop_barrage_recording, logger, logged. run.
  rewrite H, Hstop. cbn. split; [reflexivity|].
  unfold is_recording, get_barrage_file. run. cbn. now rewrite H.
Qed.

End Sessions.

(** C9, the claim as stated fails: when the connection's [stop()]
    raises, a session that was just started is still active after the
    stop, and still has its file. *)
Lemma C9_start_then_failed_stop_stays_active :
  let w1 := snd (start_sample Sample.empty_world) in
  let w2 := snd (stop_barrage_recording stop_raising (lit "rec2") w1) in
  fst (start_sample Sample.empty_world) = Ok true
  /\ fst (stop_barrage_recording stop_raising (lit "rec2") w1) = Ok false
  /\ fst (is_recording (lit "rec2") w2) = Ok true
  /\ fst (get_barrage_file (lit "rec2") w2) = Ok (Some (lit "out/barrage_rec2_45296.txt")).
Proof. vm_compute. repeat split; reflexivity. Qed.

Lemma C9_start_then_stop_witness :
  let w1 := snd (start_sample Sample.empty_world) in
  start_sample Sample.empty_world = (Ok true, w1)
  /\ (forall fetcher, active_fetchers w1 !! lit "rec2" = Some fetcher ->
                      stop_returning fetcher = Ok tt)
  /\ (exists w2,
         stop_barrage_recording stop_returning (lit "rec2") w1 = (Ok true, w2)
         /\ fst (is_recording (lit "rec2") w2) = Ok false
         /\ fst (get_barrage_file (lit "rec2") w2) = Ok None)
  /\ fst (is_recording (lit "rec2") Sample.empty_world) = Ok false
  /\ stop_barrage_recording stop_returning (lit "rec2") Sample.empty_world
     = (Ok false, Sample.empty_world).
Proof.
  intros w1.
  assert (H1 : start_sample Sample.empty_world = (Ok true, w1)).
  { subst w1. destruct (start_sample Sample.empty_world) as [r w'] eqn:E.
    assert (Hr : fst (start_sample Sample.empty_world) = Ok true) by (vm_compute; reflexivity).
    rewrite E in Hr. cbn in Hr. now subst r. }
  assert (H2 : forall fetcher, active_fetchers w1 !! lit "rec2" = Some fetcher ->
                               stop_returning fetcher = Ok tt) by reflexivity.
  assert (H3 : fst (is_recording (lit "rec2") Sample.empty_world) = Ok false)
    by (vm_compute; reflexivity).
  pose proof (C9_start_then_stop Sample.os_fault Sample.os_path_join Sample.strftime
                stop_returning Sample.write_fault Sample.DouyinLiveWebFetcher_init
                Sample.thread_start (lit "rec2") (lit "https://live.douyin.com/123456")
                (lit "douyin") (lit "out") Sample.empty_world w1) as [Ha Hb].
  split; [exact H1|]. split; [exact H2|]. split; [exact (Ha H1 H2)|].
  split; [exact H3|].
  exact (proj2 (C9_start_then_stop Sample.os_fault Sample.os_path_join Sample.strftime
                  stop_returning Sample.write_fault Sample.DouyinLiveWebFetcher_init
                  Sample.thread_start (lit "rec2") (lit "https://live.douyin.com/123456")
                  (lit "douyin") (lit "out") Sample.empty_world Sample.empty_world) H3).
Defined.

Lemma C10_stop_failure_keeps_session_witness :
  active_fetchers Sample.session !! lit "rec1"
  = Some {| live_id := lit "123"; recording_id := lit "rec1";
            barrage_file := lit "out/barrage.txt" |}
  /\ stop_raising {| live_id := lit "123"; recording_id := lit "rec1";
                     barrage_file := lit "out/barrage.txt" |}
     = Raise (Exception (lit "connection has no socket yet"))
  /\ fst (stop_barrage_recording stop_raising (lit "rec1") Sample.session) = Ok false
  /\ fst (is_recording (lit "rec1")
            (snd (stop_barrage_recording stop_raising (lit "rec1") Sample.session)))
     = Ok true.
Proof.
  assert (H1 : active_fetchers Sample.session !! lit "rec1"
               = Some {| live_id := lit "123"; recording_id := lit "rec1";
                         barrage_file := lit "out/barrage.txt" |})
    by (vm_compute; reflexivity).
  split; [exact H1|]. split; [reflexivity|].
  destruct (C10_stop_failure_keeps_session stop_raising (lit "rec1") Sample.session _ _
              H1 eq_refl) as (Hrun & Hact & _).
  rewrite Hrun. cbn [fst snd]. split; [reflexivity|exact Hact].
Defined.

(** ** Acknowledgements (C3) *)

Section Tape.

Context {W T : Type}.

Lemma keeps_ret {A} (a : A) : keeps_tape (W:=W) (T:=T) (ret a).
Proof. intros s. reflexivity. Qed.

Lemma keeps_raise {A} e : keeps_tape (W:=W) (T:=T) (A:=A) (raise e).
Proof. intros s. reflexivity. Qed.

Lemma keeps_lift_result {A} (r : Result A) : keeps_tape (W:=W) (T:=T) (lift_result r).
Proof. intros s. reflexivity. Qed.

Lemma keeps_on_fst {A} (m : M W A) : keeps_tape (T:=T) (on_fst m).
Proof. intros s. unfold on_fst. now destruct (m (fst s)). Qed.

Lemma keeps_bind {A B} (m : M (W * T) A) (k : A -> M (W * T) B) :
  keeps_tape m -> (forall a, keeps_tape (k a)) -> keeps_tape (bind m k).
Proof.
  intros Hm Hk s. unfold bind. specialize (Hm s).
  destruct (m s) as [[a|e] s']; cbn in *; [|exact Hm].
  now rewrite Hk.
Qed.

Lemma keeps_try {A} (m : M (W * T) A) h :
  keeps_tape m -> (forall e, keeps_tape (h e)) -> keeps_tape (try_except m h).
Proof.
  intros Hm Hh s. unfold try_except. specialize (Hm s).
  destruct (m s) as [[a|e] s']; cbn in *; [exact Hm|].
  now rewrite Hh.
Qed.

Lemma keeps_call_if_set {X} (h : option (X -> M W unit)) x :
  keeps_tape (T:=T) (call_if_set (beside h) x).
Proof. destruct h; cbn; [apply keeps_on_fst|apply keeps_ret]. Qed.

Lemma keeps_call {X} (h : option (X -> M W unit)) x :
  keeps_tape (T:=T) (call (beside h) x).
Proof. destruct h; cbn; [apply keeps_on_fst|apply keeps_raise]. Qed.

Lemma keeps_for_each {X} (xs : list X) (body : X -> M (W * T) unit) :
  (forall x, keeps_tape (body x)) -> keeps_tape (for_each xs body).
Proof.
  intros Hb. induction xs as [|x xs IH]; cbn; [apply keeps_ret|].
  apply keeps_bind; [apply Hb|intros _; exact IH].
Qed.

End Tape.

Ltac keeps :=
  repeat first
    [ apply keeps_ret | apply keeps_raise | apply keeps_lift_result
    | apply keeps_on_fst | apply keeps_call_if_set | apply keeps_call
    | apply keeps_bind; [|intros ?] | apply keeps_try; [|intros ?]
    | match goal with
      | |- keeps_tape (if ?b then _ else _) => destruct b
      | |- keeps_tape (match beside ?h with _ => _ end) => destruct h; cbn [beside]
      | |- keeps_tape (match beside2 ?h with _ => _ end) => destruct h; cbn [beside2]
      | |- keeps_tape (match ?o with _ => _ end) => destruct o
      | |- keeps_tape (let _ := _ in _) => cbv zeta
      end ].

Section Acknowledgement.

Context {W : Type}.
Variable codec : Codec.
Variable unicode_isprintable : Z -> bool.
Variable strftime_localtime : str -> Q -> Result str.
Variable cb : Callbacks W.

Let self := beside_tape (list (bytes * Z)) cb.

Lemma handle_message_keeps_tape msg :
  keeps_tape (handle_message codec unicode_isprintable strftime_localtime self msg).
Proof.
  unfold handle_message, dispatch, _parseChatMsg, _parseGiftMsg, _parseMemberMsg,
    _parseLikeMsg, _parseSocialMsg, _parseEmojiChatMsg, _parseRoomUserSeqMsg,
    _parseRoomStatsMsg, _parseControlMsg, _parseProductChangeMsg,
    _parseLiveShoppingMsg, _parseLiveEcomGeneralMsg.
  subst self. cbn [beside_tape on_chat on_gift on_member on_like on_social on_emoji_chat
                   on_room_user_seq on_room_stats on_control on_error on_raw_message].
  keeps.
Qed.

Lemma report_keeps_tape text :
  keeps_tape (call_if_set (on_error self) text).
Proof. subst self. cbn [beside_tape on_error]. apply keeps_call_if_set. Qed.

(** C3.  When the frame decodes to a Response, the tape of the socket
    gains exactly one entry if the Response has [need_ack] set, the ack
    frame with the log id of the inbound frame and the UTF-8 bytes of the
    Response's [internal_ext], sent as a binary message; and gains none
    if [need_ack] is unset.  This holds whatever the handlers and the
    socket do. *)
Theorem C3_one_ack_when_asked (ws : WebSocket W) message package data response token w tape :
  (forall h, on_raw_message cb = Some h ->
             exists w', h (lit "WebSocketRawMessage") message w = (Ok tt, w')) ->
  parse_PushFrame codec message = Ok package ->
  gzip_decompress codec (PushFrame.payload package) = Ok data ->
  parse_Response codec data = Ok response ->
  encode_utf8 (Response.internal_ext response) = Ok token ->
  snd (snd (_wsOnMessage codec unicode_isprintable strftime_localtime self (tapped ws)
              message (w, tape)))
  = tape ++ (if Response.need_ack response
             then [(ack_frame codec package token, OPCODE_BINARY)]
             else []).
Proof.
  intros Hraw Hframe Hgzip Hresp Htoken.
  set (loop := for_each (Response.messages_list response)
                 (handle_message codec unicode_isprintable strftime_localtime self)).
  assert (Hloop : keeps_tape loop).
  { apply keeps_for_each. intros msg. apply handle_message_keeps_tape. }
  assert (Hguard : forall (m : M (W * list (bytes * Z)) unit) s,
             snd (snd (try_except (bind m (fun _ => loop))
                         (fun e => call_if_set (on_error self)
                                     (lit "[消息解析错误] " ++ exn_text e)) s))
             = snd (snd (m s))).
  { intros m s. unfold try_except, bind.
    destruct (m s) as [[[]|e] s1]; cbn [snd].
    - specialize (Hloop s1). destruct (loop s1) as [[[]|e] s2]; cbn [snd] in *.
      + exact Hloop.
      + now rewrite report_keeps_tape.
    - now rewrite report_keeps_tape. }
  assert (Hstart : exists w',
             (match on_raw_message self with
              | Some h => h (lit "WebSocketRawMessage") message
              | None => ret tt
              end) (w, tape) = (Ok tt, (w', tape))).
  { subst self. cbn [beside_tape on_raw_message].
    destruct (on_raw_message cb) as [h|] eqn:E; cbn [beside2].
    - destruct (Hraw h eq_refl) as [w' Hw']. exists w'. unfold on_fst. cbn [fst snd]. now rewrite Hw'.
    - exists w. reflexivity. }
  destruct Hstart as [w' Hstart].
  unfold _wsOnMessage. fold loop.
  unfold try_except at 1.
  rewrite (bind_ok _ _ _ _ _ Hstart).
  rewrite Hframe. unfold lift_result at 1. unfold bind at 1.
  rewrite Hgzip. unfold lift_result at 1. unfold bind at 1.
  rewrite Hresp. unfold lift_result at 1. unfold bind at 1.
  match goal with
  | |- context [bind ?m (fun _ => for_each _ _)] => set (ackstep := m)
  end.
  transitivity (snd (snd (ackstep (w', tape)))); [exact (Hguard ackstep (w', tape))|].
  subst ackstep.
  destruct (Response.need_ack response).
  - rewrite Htoken. unfold lift_result, bind. cbn [tapped send fst snd].
    destruct (send ws _ _ w') as [r w'']. reflexivity.
  - cbn. now rewrite app_nil_r.
Qed.

End Acknowledgement.

Lemma C3_one_ack_when_asked_witness :
  exists package data response token,
    parse_PushFrame Sample.codec frame_needing_ack = Ok package
    /\ gzip_decompress Sample.codec (PushFrame.payload package) = Ok data
    /\ parse_Response Sample.codec data = Ok response
    /\ encode_utf8 (Response.internal_ext response) = Ok token
    /\ PushFrame.log_id package = 42
    /\ Response.need_ack response = true
    /\ token = list_byte_of_string "tok123"
    /\ snd (snd (_wsOnMessage Sample.codec Sample.unicode_isprintable
                   Sample.strftime_localtime
                   (beside_tape (list (bytes * Z))
                      (Sample.only_on_error (Some Sample.record_text)))
                   (tapped quiet_socket) frame_needing_ack ([], [])))
       = [(ack_frame Sample.codec package token, OPCODE_BINARY)].
Proof.
  eexists _, _, _, _.
  split; [vm_compute; reflexivity|].
  split; [vm_compute; reflexivity|].
  split; [vm_compute; reflexivity|].
  split; [vm_compute; reflexivity|].
  split; [reflexivity|]. split; [reflexivity|]. split; [reflexivity|].
  rewrite (C3_one_ack_when_asked Sample.codec Sample.unicode_isprintable
             Sample.strftime_localtime (Sample.only_on_error (Some Sample.record_text))
             quiet_socket frame_needing_ack _ _ _ _ [] []
             ltac:(intros h Hh; discriminate Hh)
             ltac:(vm_compute; reflexivity) ltac:(vm_compute; reflexivity)
             ltac:(vm_compute; reflexivity) ltac:(vm_compute; reflexivity)).
  reflexivity.
Defined.

(** ** Exceptions stay with their message (C5) *)

Section Isolation.

Context {W : Type}.
Variable codec : Codec.
Variable unicode_isprintable : Z -> bool.
Variable strftime_localtime : str -> Q -> Result str.
Variable self : Callbacks W.


Lemma report_returns text w :
  (forall h, on_error self = Some h -> returns h) ->
  exists w', call_if_set (on_error self) text w = (Ok tt, w').
Proof.
  intros Hq. unfold call_if_set. destruct (on_error self) as [h|].
  - apply (Hq h eq_refl).
  - exists w. reflexivity.
Qed.





End Isolation.



(** ** Readable content (C8) *)

Lemma bind_ret_tt {S} (m : M S unit) s : bind m (fun _ => ret tt) s = m s.
Proof. unfold bind, ret. destruct (m s) as [[[]|e] s']; reflexivity. Qed.

Lemma ret_bind {S A B} (a : A) (k : A -> M S B) s : bind (ret a) k s = k a s.
Proof. reflexivity. Qed.

Lemma int16_hexdigits (b : byte) :
  int16 [hexdigit (ord_byte b / 16); hexdigit (ord_byte b mod 16)] = Ok (ord_byte b).
Proof. destruct b; reflexivity. Qed.

Lemma hex_scan_hex (payload : bytes) :
  hex_scan (hex payload) = map dotted (map ord_byte payload).
Proof.
  induction payload as [|b payload IH]; [reflexivity|].
  change (hex (b :: payload))
    with (hexdigit (ord_byte b / 16) :: hexdigit (ord_byte b mod 16) :: hex payload).
  cbn [hex_scan map]. rewrite int16_hexdigits, IH. reflexivity.
Qed.

Lemma utf8_ignore_ascii (l : list Z) :
  Forall (fun c => c < 128) l -> utf8_ignore l = l.
Proof.
  induction 1 as [|c l Hc _ IH]; [reflexivity|].
  cbn [utf8_ignore]. destruct (Z.ltb_spec c 128); [|lia]. now rewrite IH.
Qed.

Lemma length_join_filter (sep : str) (P : str -> bool) (l : list str) :
  (length (join sep (List.filter P l)) <= length (join sep l))%nat.
Proof.
  induction l as [|p l IH]; [reflexivity|].
  assert (Hcons : (length (join sep l) <= length (join sep (p :: l)))%nat).
  { destruct l; cbn [join length]; [lia|]. rewrite !length_app. lia. }
  cbn [List.filter]. destruct (P p); [|lia].
  destruct (List.filter P l) as [|q qs] eqn:E.
  - destruct l; cbn [join]; [lia|]. rewrite !length_app. lia.
  - destruct l as [|p' l]; [discriminate|].
    change (join sep (p :: q :: qs)) with (p ++ sep ++ join sep (q :: qs)).
    change (join sep (p :: p' :: l)) with (p ++ sep ++ join sep (p' :: l)).
    rewrite !length_app. lia.
Qed.

Section Readable.

Variable unicode_isprintable : Z -> bool.

Let is_readable := readable unicode_isprintable.
Let extract_text := _extractReadableContent unicode_isprintable.

Lemma readable_ascii c : 32 <= c <= 126 -> is_readable c = true.
Proof.
  intros H. subst is_readable. unfold readable, isprintable.
  destruct (Z.ltb_spec c 128); [|lia].
  destruct (Z.leb_spec 32 c); [|lia]. destruct (Z.ltb_spec c 127); [reflexivity|lia].
Qed.

Lemma scan_all_readable text parts current :
  Forall (fun c => is_readable c = true) text ->
  fold_left (scan_step unicode_isprintable) text (parts, current)
  = (parts, current ++ text).
Proof.
  intros H. revert current. induction H as [|c text Hc _ IH]; intros current.
  - now rewrite app_nil_r.
  - cbn [fold_left]. unfold scan_step at 2. fold is_readable. rewrite Hc.
    rewrite IH, <- app_assoc. reflexivity.
Qed.

Lemma scan_parts_long text parts current :
  Forall (fun p => 3 < length p)%nat parts ->
  Forall (fun p => 3 < length p)%nat
         (fst (fold_left (scan_step unicode_isprintable) text (parts, current))).
Proof.
  revert parts current. induction text as [|c text IH]; intros parts current H; [exact H|].
  cbn [fold_left]. unfold scan_step at 2.
  destruct (readable unicode_isprintable c); [now apply IH|].
  destruct (Nat.ltb_spec 3 (length current)); [|now apply IH].
  apply IH. apply Forall_app. split; [exact H|]. now constructor.
Qed.

Lemma readable_runs_long text :
  Forall (fun p => 3 < length p)%nat (readable_runs unicode_isprintable text).
Proof.
  unfold readable_runs.
  pose proof (scan_parts_long text [] [] (Forall_nil_2 _)) as H.
  destruct (fold_left _ text ([], [])) as [parts current]. cbn [fst] in H.
  destruct (truthy current); cbn [andb]; [|exact H].
  destruct (Nat.ltb_spec 3 (length current)); [|exact H].
  apply Forall_app. split; [exact H|]. now constructor.
Qed.

Lemma extract_bounds payload content :
  extract_text payload = Some content -> (0 < length content <= 200)%nat.
Proof.
  subst extract_text. unfold _extractReadableContent, slice_to.
  destruct (Nat.ltb_spec 5 (length (List.filter (readable unicode_isprintable)
                                      (decode_utf8_ignore payload)))) as [Hlong|_].
  - intros H. apply (inj Some) in H. subst content. rewrite length_firstn. lia.
  - pose proof (readable_runs_long (hex_scan (hex payload))) as Hruns.
    destruct (readable_runs unicode_isprintable (hex_scan (hex payload))) as [|p ps].
    + destruct (List.filter _ content_keywords) as [|k ks] eqn:E; [discriminate|].
      intros H. apply (inj Some) in H. subst content. rewrite <- E, length_app.
      pose proof (length_join_filter (lit ", ")
                    (fun kw => contains kw (decode_utf8_ignore payload)) content_keywords) as Hle.
      replace (length (join (lit ", ") content_keywords)) with 46%nat in Hle
        by (vm_compute; reflexivity).
      replace (length (lit "包含关键词: ")) with 7%nat by (vm_compute; reflexivity). lia.
    + intros H. apply (inj Some) in H. subst content. rewrite length_firstn.
      apply Forall_cons in Hruns as [Hp _].
      assert (0 < length (join (lit " ") (p :: ps)))%nat; [|lia].
      destruct ps; cbn [join]; [lia|]. rewrite length_app. lia.
Qed.

Lemma extract_decoded payload :
  (5 < length (List.filter is_readable (decode_utf8_ignore payload)))%nat ->
  extract_text payload = Some (firstn 200 (List.filter is_readable (decode_utf8_ignore payload))).
Proof.
  intros H. subst extract_text is_readable. unfold _extractReadableContent, slice_to.
  destruct (Nat.ltb_spec 5 (length (List.filter (readable unicode_isprintable)
                                      (decode_utf8_ignore payload)))); [reflexivity|lia].
Qed.

Lemma extract_short_ascii payload :
  Forall printable_ascii payload ->
  (3 < length payload <= 5)%nat ->
  extract_text payload = Some (map ord_byte payload).
Proof.
  intros Hp Hlen. subst extract_text. unfold _extractReadableContent, slice_to.
  assert (Hrange : Forall (fun c => 32 <= c <= 126) (map ord_byte payload)).
  { apply Forall_map. exact Hp. }
  assert (Hdec : decode_utf8_ignore payload = map ord_byte payload).
  { unfold decode_utf8_ignore. apply utf8_ignore_ascii.
    eapply Forall_impl; [exact Hrange|]. cbn. intros; lia. }
  assert (Hread : Forall (fun c => is_readable c = true) (map ord_byte payload)).
  { eapply Forall_impl; [exact Hrange|]. apply readable_ascii. }
  assert (Hfilter : List.filter (readable unicode_isprintable) (map ord_byte payload)
                    = map ord_byte payload).
  { clear -Hread. induction Hread as [|c l Hc _ IH]; [reflexivity|].
    cbn [List.filter]. subst is_readable. cbn beta in Hc. now rewrite Hc, IH. }
  rewrite Hdec, Hfilter, length_map.
  destruct (Nat.ltb_spec 5 (length payload)); [lia|].
  rewrite hex_scan_hex.
  assert (Hdot : map dotted (map ord_byte payload) = map ord_byte payload).
  { clear -Hrange. induction Hrange as [|c l Hc _ IH]; [reflexivity|].
    cbn [map]. rewrite IH. unfold dotted.
    destruct (Z.leb_spec 32 c); [|lia]. destruct (Z.leb_spec c 126); [reflexivity|lia]. }
  rewrite Hdot. unfold readable_runs.
  rewrite (scan_all_readable _ [] [] Hread). cbn [app].
  assert (Htruthy : truthy (map ord_byte payload) = true).
  { destruct payload; [cbn in Hlen; lia|reflexivity]. }
  rewrite Htruthy. cbn [andb]. rewrite length_map.
  destruct (Nat.ltb_spec 3 (length payload)); [|lia].
  cbn [app join]. rewrite firstn_all2; [reflexivity|]. rewrite length_map. lia.
Qed.

End Readable.

(** ** Dispatch of unknown and of commerce messages (C8, C6) *)

Lemma str_in_false method l x :
  str_in method l = false -> x ∈ l -> str_eq method x = false.
Proof.
  unfold str_in, str_eq. intros H Hx.
  apply bool_decide_eq_false in H. apply bool_decide_eq_false.
  intros ->. contradiction.
Qed.

Lemma try_returning {S A} (m : M S A) h s a s' :
  m s = (Ok a, s') -> try_except m h s = m s.
Proof. intros H. unfold try_except. now rewrite H. Qed.

Lemma for_each_returns {S X} (xs : list X) (h : X -> M S unit) s :
  returns h -> exists s', for_each xs h s = (Ok tt, s').
Proof.
  intros Hh. revert s. induction xs as [|x xs IH]; intros s; cbn [for_each].
  - eexists. reflexivity.
  - destruct (Hh x s) as [s1 H1]. rewrite (bind_ok _ _ _ _ _ H1). apply IH.
Qed.

Lemma for_each_one {S X} (x : X) (h : X -> M S unit) s : for_each [x] h s = h x s.
Proof. cbn [for_each]. apply bind_ret_tt. Qed.

Lemma for_each_two {S X} (x y : X) (h : X -> M S unit) s :
  for_each [x; y] h s = bind (h x) (fun _ => h y) s.
Proof.
  cbn [for_each]. unfold bind at 1 3. destruct (h x s) as [[[]|e] s1]; [|reflexivity].
  apply bind_ret_tt.
Qed.

Ltac in_list := apply (bool_decide_unpack _); vm_compute; exact I.

Ltac decide_tests :=
  repeat match goal with
         | |- context [str_eq (lit ?a) (lit ?b)] =>
           let v := eval vm_compute in (str_eq (lit a) (lit b)) in
           replace (str_eq (lit a) (lit b)) with v by (vm_compute; reflexivity)
         | |- context [str_in (lit ?a) ?l] =>
           let v := eval vm_compute in (str_in (lit a) l) in
           replace (str_in (lit a) l) with v by (vm_compute; reflexivity)
         | |- context [has_shopping_keywords (lit ?a)] =>
           let v := eval vm_compute in (has_shopping_keywords (lit a)) in
           replace (has_shopping_keywords (lit a)) with v by (vm_compute; reflexivity)
         end.

Section Dispatch.

Context {W : Type}.
Variable codec : Codec.
Variable unicode_isprintable : Z -> bool.
Variable strftime_localtime : str -> Q -> Result str.
Variable self : Callbacks W.

Let route := dispatch codec unicode_isprintable strftime_localtime self.

Lemma dispatch_unknown msg w w1 :
  raw_hook self msg w = (Ok tt, w1) ->
  str_in (Message.method msg) useless_message_types = false ->
  str_in (Message.method msg) core_message_types = false ->
  str_in (Message.method msg) shopping_message_types = false ->
  has_shopping_keywords (Message.method msg) = false ->
  route msg w
  = match on_error self with
    | Some h =>
      match _extractReadableContent unicode_isprintable (Message.payload msg) with
      | Some content =>
        h (lit "[🔍 未知消息] " ++ Message.method msg ++ lit " - 内容: " ++ content) w1
      | None => (Ok tt, w1)
      end
    | None => (Ok tt, w1)
    end.
Proof.
  intros Hraw Huseless Hcore Hshop Hkw. subst route. unfold dispatch. cbv zeta.
  change (match on_raw_message self with
          | Some h => h (Message.method msg) (Message.payload msg)
          | None => ret tt
          end) with (raw_hook self msg).
  rewrite (bind_ok _ _ _ _ _ Hraw).
  rewrite Huseless, Hcore, Hshop, Hkw.
  rewrite (str_in_false _ _ (lit "WebcastChatMessage") Hcore) by in_list.
  rewrite (str_in_false _ _ (lit "WebcastGiftMessage") Hcore) by in_list.
  rewrite (str_in_false _ _ (lit "WebcastMemberMessage") Hcore) by in_list.
  rewrite (str_in_false _ _ (lit "WebcastLikeMessage") Hcore) by in_list.
  rewrite (str_in_false _ _ (lit "WebcastSocialMessage") Hcore) by in_list.
  rewrite (str_in_false _ _ (lit "WebcastEmojiChatMessage") Hcore) by in_list.
  rewrite (str_in_false _ _ (lit "WebcastRoomUserSeqMessage") Huseless) by in_list.
  rewrite (str_in_false _ _ (lit "WebcastRoomStatsMessage") Huseless) by in_list.
  rewrite (str_in_false _ _ (lit "WebcastControlMessage") Huseless) by in_list.
  rewrite (str_in_false _ _ (lit "WebcastProductChangeMessage") Hshop) by in_list.
  rewrite (str_in_false _ _ (lit "WebcastLiveShoppingMessage") Hshop) by in_list.
  rewrite (str_in_false _ _ (lit "WebcastLiveEcomGeneralMessage") Hshop) by in_list.
  cbn [andb negb orb]. rewrite bind_ret_tt.
  destruct (on_error self) as [h|]; cbn [is_set andb]; [|reflexivity].
  destruct (_extractReadableContent unicode_isprintable (Message.payload msg))
    as [content|] eqn:E; [|reflexivity].
  apply extract_bounds in E. destruct content; [cbn in E; lia|reflexivity].
Qed.

(** C8, as amended.  Once the raw-message hook, if one is registered, has
    returned, a message whose method is in none of the three sets
    and holds none of the shopping keywords is, when a diagnostic handler
    is registered, forwarded to it as
    [[🔍 未知消息] {method} - 内容: {content}] exactly when the extraction
    returns a content, and dropped otherwise; without a diagnostic handler
    it is dropped.  A content returned is never empty and never longer
    than 200 characters; it is the first 200 printable characters of the
    UTF-8 reading when that reading has more than 5 of them; and a
    payload of 4 or 5 printable ASCII bytes is returned as it is. *)
Theorem C8_unknown_message_goes_to_diagnostics msg w w1 :
  raw_hook self msg w = (Ok tt, w1) ->
  Message.method msg ∉ useless_message_types ->
  Message.method msg ∉ core_message_types ->
  Message.method msg ∉ shopping_message_types ->
  has_shopping_keywords (Message.method msg) = false ->
  route msg w
  = match on_error self with
    | Some h =>
      match _extractReadableContent unicode_isprintable (Message.payload msg) with
      | Some content =>
        h (lit "[🔍 未知消息] " ++ Message.method msg ++ lit " - 内容: " ++ content) w1
      | None => (Ok tt, w1)
      end
    | None => (Ok tt, w1)
    end
  /\ (forall payload content,
         _extractReadableContent unicode_isprintable payload = Some content ->
         (0 < length content <= 200)%nat)
  /\ (forall payload,
         let printable := List.filter (readable unicode_isprintable)
                            (decode_utf8_ignore payload) in
         (5 < length printable)%nat ->
         _extractReadableContent unicode_isprintable payload = Some (firstn 200 printable))
  /\ (forall payload,
         Forall printable_ascii payload ->
         (3 < length payload <= 5)%nat ->
         _extractReadableContent unicode_isprintable payload = Some (map ord_byte payload)).
Proof.
  intros Hraw Huseless Hcore Hshop Hkw. split; [|split; [|split]].
  - apply dispatch_unknown; try assumption; unfold str_in; now apply bool_decide_eq_false.
  - intros payload content. apply extract_bounds.
  - intros payload printable. apply extract_decoded.
  - intros payload. apply extract_short_ascii.
Qed.

Lemma dispatch_commerce msg w w1 :
  Message.method msg ∈ shopping_message_types ->
  raw_hook self msg w = (Ok tt, w1) ->
  route msg w
  = bind (call_if_set (on_error self) (type_notice msg))
         (fun _ => commerce_parser codec strftime_localtime self
                     (Message.method msg) (Message.payload msg)) w1.
Proof.
  intros Hm Hraw. subst route. unfold dispatch, type_notice, commerce_parser. cbv zeta.
  change (match on_raw_message self with
          | Some h => h (Message.method msg) (Message.payload msg)
          | None => ret tt
          end) with (raw_hook self msg).
  rewrite (bind_ok _ _ _ _ _ Hraw). clear Hraw.
  destruct msg as [method payload]. cbn [Message.method Message.payload] in *.
  unfold shopping_message_types in Hm. rewrite !elem_of_cons in Hm.
  destruct Hm as [->|[->|[->|Hm]]]; [| | |now apply elem_of_nil in Hm];
    decide_tests; cbn [andb negb orb];
    destruct (on_error self); reflexivity.
Qed.

End Dispatch.

Section CommerceParsers.

Context {W : Type}.
Variable codec : Codec.
Variable strftime_localtime : str -> Q -> Result str.
Variable self : Callbacks W.
Variable h : str -> M W unit.
Hypothesis on_error_is_h : on_error self = Some h.
Hypothesis h_returns : returns h.

Lemma guarded_reports (reports : list str) (handler : Exn -> M W unit) w :
  try_except (for_each reports h) handler w = for_each reports h w.
Proof.
  destruct (for_each_returns reports h w h_returns) as [w' H].
  now apply try_returning with (a := tt) (s' := w').
Qed.

Lemma ecom_with_handler payload w :
  _parseLiveEcomGeneralMsg self payload w = for_each (ecom_reports payload) h w.
Proof.
  unfold _parseLiveEcomGeneralMsg, ecom_reports. cbv zeta. rewrite on_error_is_h.
  set (found := List.filter _ ecom_keywords).
  destruct (is_set (head found)).
  - rewrite <- (guarded_reports _
                  (fun e => call_if_set (Some h)
                              (lit "[下单] 用户下单商品 - 处理异常: " ++ exn_text e))).
    unfold try_except at 1 3.
    rewrite <- (guarded_reports _
                  (fun _ => bind (h (lit "[下单] 用户下单商品 - 解析失败"))
                              (fun _ => h (lit "[下单] 原始数据: " ++ slice_to 100 (hex payload)
                                           ++ lit "...")))).
    unfold try_except. rewrite for_each_two. reflexivity.
  - rewrite <- (guarded_reports _
                  (fun e => call_if_set (Some h)
                              (lit "[下单] 用户下单商品 - 处理异常: " ++ exn_text e))).
    unfold try_except at 1 3.
    rewrite <- (guarded_reports _
                  (fun _ => bind (h (lit "[下单] 用户下单商品 - 解析失败"))
                              (fun _ => h (lit "[下单] 原始数据: " ++ slice_to 100 (hex payload)
                                           ++ lit "...")))).
    unfold try_except. rewrite for_each_two. reflexivity.
Qed.

Lemma product_change_with_handler payload message w :
  parse_ProductChangeMessage codec payload = Ok message ->
  _parseProductChangeMsg codec self payload w
  = for_each (product_change_reports message) h w.
Proof.
  intros Hp. unfold _parseProductChangeMsg, product_change_reports.
  rewrite Hp, on_error_is_h. unfold lift_result at 1. unfold bind at 1.
  destruct (truthy (ProductChangeMessage.update_toast message)); [|reflexivity].
  rewrite <- (guarded_reports _
                (fun e => call_if_set (Some h) (lit "[商品变更解析错误] " ++ exn_text e))).
  unfold try_except. rewrite for_each_one. reflexivity.
Qed.

Lemma live_shopping_with_handler payload message stamp w :
  parse_LiveShoppingMessage codec payload = Ok message ->
  shopping_time_str strftime_localtime message = Ok stamp ->
  _parseLiveShoppingMsg codec strftime_localtime self payload w
  = for_each (live_shopping_reports stamp message) h w.
Proof.
  intros Hp Hstamp.
  rewrite <- (guarded_reports _
                (fun e => call_if_set (Some h) (lit "[直播购物解析错误] " ++ exn_text e))).
  unfold _parseLiveShoppingMsg, live_shopping_reports, shopping_time_str in *.
  rewrite Hp, on_error_is_h. unfold try_except. unfold lift_result at 1. unfold bind at 1.
  cbv zeta. fold (shopping_create_time message).
  destruct (0 <? shopping_create_time message).
  - destruct (strftime_localtime _ _) as [t|e]; [|discriminate].
    injection Hstamp as <-. unfold lift_result, call.
    destruct (LiveShoppingMessage.msg_type message =? 2).
    + rewrite for_each_two. unfold bind. reflexivity.
    + rewrite for_each_one. unfold bind at 1 2. unfold ret.
      destruct (h _ w) as [[[]|e] w1]; reflexivity.
  - injection Hstamp as <-. unfold call.
    destruct (LiveShoppingMessage.msg_type message =? 2).
    + rewrite for_each_two. reflexivity.
    + rewrite for_each_one. unfold bind, ret.
      destruct (h _ w) as [[[]|e] w1]; reflexivity.
Qed.

End CommerceParsers.

Section Commerce.

Context {W : Type}.
Variable codec : Codec.
Variable unicode_isprintable : Z -> bool.
Variable strftime_localtime : str -> Q -> Result str.
Variable self : Callbacks W.

Lemma ecom_without_handler payload w :
  on_error self = None -> _parseLiveEcomGeneralMsg self payload w = (Ok tt, w).
Proof.
  intros H. unfold _parseLiveEcomGeneralMsg. cbv zeta. rewrite H.
  unfold try_except, ret. now destruct (is_set _).
Qed.

(** C6, as amended.  Once the raw-message hook, if one is registered, has
    returned, a commerce message is handed to its parser whatever
    handlers are registered: the dispatch tests none.  What the parser
    produces goes to the diagnostic handler: with one registered, and
    returning, a product-change message gives its toast line, a
    live-shopping message its one or two lines, a generic e-commerce
    message its two lines; without one, a generic e-commerce message gives
    nothing. *)
Theorem C6_commerce_output_goes_to_on_error msg w w1 :
  Message.method msg ∈ shopping_message_types ->
  raw_hook self msg w = (Ok tt, w1) ->
  dispatch codec unicode_isprintable strftime_localtime self msg w
  = bind (call_if_set (on_error self) (type_notice msg))
         (fun _ => commerce_parser codec strftime_localtime self
                     (Message.method msg) (Message.payload msg)) w1
  /\ (on_error self = None ->
      forall payload w, _parseLiveEcomGeneralMsg self payload w = (Ok tt, w))
  /\ (forall h, on_error self = Some h -> returns h ->
      forall payload w,
        _parseLiveEcomGeneralMsg self payload w = for_each (ecom_reports payload) h w
        /\ (forall message,
               parse_ProductChangeMessage codec payload = Ok message ->
               _parseProductChangeMsg codec self payload w
               = for_each (product_change_reports message) h w)
        /\ (forall message stamp,
               parse_LiveShoppingMessage codec payload = Ok message ->
               shopping_time_str strftime_localtime message = Ok stamp ->
               _parseLiveShoppingMsg codec strftime_localtime self payload w
               = for_each (live_shopping_reports stamp message) h w)).
Proof.
  intros Hm Hraw. split; [now apply dispatch_commerce|]. split.
  - intros Hnone payload w0. now apply ecom_without_handler.
  - intros h Hh Hq payload w0. split; [|split].
    + now apply ecom_with_handler.
    + intros message. now apply product_change_with_handler.
    + intros message stamp. now apply live_shopping_with_handler.
Qed.

End Commerce.

(** C6, the claim as stated fails: the same generic e-commerce message
    produces three lines when a diagnostic handler is registered and no
    output at all when none is. *)
Lemma C6_no_output_without_diagnostic_handler :
  dispatch Sample.codec Sample.unicode_isprintable Sample.strftime_localtime
    (Sample.only_on_error None) ecom_order []
  = (Ok tt, [])
  /\ dispatch Sample.codec Sample.unicode_isprintable Sample.strftime_localtime
       (Sample.only_on_error (Some Sample.record_text)) ecom_order []
     = (Ok tt, [lit "[消息类型] WebcastLiveEcomGeneralMessage - 数据长度: 7";
                lit "[下单] 用户下单商品 - 关键词: Order";
                lit "[下单] 详细信息: Order#1..."]).
Proof. split; vm_compute; reflexivity. Qed.

Lemma C6_commerce_output_goes_to_on_error_witness :
  Message.method ecom_order ∈ shopping_message_types
  /\ raw_hook hooked ecom_order [] = (Ok tt, [lit "raw WebcastLiveEcomGeneralMessage"])
  /\ returns Sample.record_text
  /\ dispatch Sample.codec Sample.unicode_isprintable Sample.strftime_localtime
       hooked ecom_order []
     = (Ok tt, [lit "raw WebcastLiveEcomGeneralMessage";
                lit "[消息类型] WebcastLiveEcomGeneralMessage - 数据长度: 7";
                lit "[下单] 用户下单商品 - 关键词: Order";
                lit "[下单] 详细信息: Order#1..."])
  /\ _parseLiveEcomGeneralMsg hooked (Message.payload ecom_order) []
     = for_each (ecom_reports (Message.payload ecom_order)) Sample.record_text [].
Proof.
  assert (H1 : Message.method ecom_order ∈ shopping_message_types).
  { in_list. }
  assert (H2 : raw_hook hooked ecom_order [] = (Ok tt, [lit "raw WebcastLiveEcomGeneralMessage"])).
  { vm_compute. reflexivity. }
  assert (H3 : returns Sample.record_text).
  { intros text log. eexists. reflexivity. }
  split; [exact H1|]. split; [exact H2|]. split; [exact H3|].
  destruct (C6_commerce_output_goes_to_on_error Sample.codec Sample.unicode_isprintable
              Sample.strftime_localtime hooked ecom_order [] _ H1 H2) as (Hrun & _ & Hout).
  split.
  - rewrite Hrun. vm_compute. reflexivity.
  - apply (Hout Sample.record_text eq_refl H3 (Message.payload ecom_order) []).
Defined.

(** C8, the claim as stated fails: four letters of payload are forwarded,
    although neither attempt found more than five characters. *)
Lemma C8_content_of_four_characters_is_forwarded :
  dispatch Sample.codec Sample.unicode_isprintable Sample.strftime_localtime
    (Sample.only_on_error (Some Sample.record_text)) unknown_abcd []
  = (Ok tt, [lit "[🔍 未知消息] WebcastFooMessage - 内容: abcd"])
  /\ _extractReadableContent Sample.unicode_isprintable (Message.payload unknown_abcd)
     = Some (lit "abcd")
  /\ length (lit "abcd") = 4%nat.
Proof. repeat split; vm_compute; reflexivity. Qed.

Lemma C8_unknown_message_goes_to_diagnostics_witness :
  raw_hook hooked unknown_abcd [] = (Ok tt, [lit "raw WebcastFooMessage"])
  /\ (Message.method unknown_abcd ∉ useless_message_types)
  /\ (Message.method unknown_abcd ∉ core_message_types)
  /\ (Message.method unknown_abcd ∉ shopping_message_types)
  /\ has_shopping_keywords (Message.method unknown_abcd) = false
  /\ dispatch Sample.codec Sample.unicode_isprintable Sample.strftime_localtime
       hooked unknown_abcd []
     = (Ok tt, [lit "raw WebcastFooMessage"; lit "[🔍 未知消息] WebcastFooMessage - 内容: abcd"]).
Proof.
  assert (H0 : raw_hook hooked unknown_abcd [] = (Ok tt, [lit "raw WebcastFooMessage"])).
  { vm_compute. reflexivity. }
  assert (H1 : Message.method unknown_abcd ∉ useless_message_types).
  { apply (bool_decide_eq_false_1 _). vm_compute. reflexivity. }
  assert (H2 : Message.method unknown_abcd ∉ core_message_types).
  { apply (bool_decide_eq_false_1 _). vm_compute. reflexivity. }
  assert (H3 : Message.method unknown_abcd ∉ shopping_message_types).
  { apply (bool_decide_eq_false_1 _). vm_compute. reflexivity. }
  assert (H4 : has_shopping_keywords (Message.method unknown_abcd) = false).
  { vm_compute. reflexivity. }
  split; [exact H0|]. split; [exact H1|]. split; [exact H2|]. split; [exact H3|].
  split; [exact H4|].
  rewrite (proj1 (C8_unknown_message_goes_to_diagnostics Sample.codec
                    Sample.unicode_isprintable Sample.strftime_localtime hooked
                    unknown_abcd [] _ H0 H1 H2 H3 H4)).
  vm_compute. reflexivity.
Defined.

(** ** A burst of live-shopping messages (C1) *)

Lemma appended_appended path a b w :
  appended path b (appended path a w) = appended path (a ++ b) w.
Proof.
  destruct a as [|x a]; [reflexivity|].
  destruct b as [|y b]; [now rewrite app_nil_r|].
  unfold appended. cbn [app]. destruct w as [fetchers files d j c].
  unfold set_disk. cbn. f_equal.
  rewrite lookup_insert_eq. cbn [default]. rewrite insert_insert_eq.
  f_equal. unfold id. now rewrite <- app_assoc.
Qed.

Lemma appended_files path chunks w :
  barrage_files (appended path chunks w) = barrage_files w.
Proof. destruct chunks; reflexivity. Qed.

Lemma appended_clock path chunks w : clock (appended path chunks w) = clock w.
Proof. destruct chunks; reflexivity. Qed.

Section Burst.

Variable codec : Codec.
Variable unicode_isprintable : Z -> bool.
Variable strftime_localtime : str -> Q -> Result str.
Variable os_fault : str -> option Exn.
Variable strftime : str -> Z -> str.
Variable rid f : str.
Hypothesis file_writable : os_fault f = None.

Let self := fetcher_callbacks os_fault strftime rid.
Let h := _handle_error_message os_fault strftime rid.

Lemma handle_error_registered text w :
  barrage_files w !! rid = Some f ->
  h text w = (Ok tt, appended f [system_chunk strftime (clock w) text] w).
Proof.
  intros Hf. subst h. unfold _handle_error_message.
  erewrite try_ok; [reflexivity|]. now apply write_to_file_registered.
Qed.

Lemma h_returns : returns h.
Proof. intros text w. apply handle_error_message_returns. Qed.

Lemma reports_appended reports w :
  barrage_files w !! rid = Some f ->
  for_each reports h w
  = (Ok tt, appended f (map (system_chunk strftime (clock w)) reports) w).
Proof.
  intros Hf. revert w Hf. induction reports as [|text reports IH]; intros w Hf.
  - reflexivity.
  - cbn [for_each map].
    rewrite (bind_ok _ _ _ _ _ (handle_error_registered text w Hf)).
    rewrite IH by (now rewrite appended_files).
    rewrite appended_clock, appended_appended. reflexivity.
Qed.

Lemma handle_live_shopping second msg decoded stamp w :
  barrage_files w !! rid = Some f ->
  in_burst codec strftime_localtime second msg decoded stamp ->
  handle_message codec unicode_isprintable strftime_localtime self msg w
  = (Ok tt, appended f (shopping_lines strftime (clock w) msg decoded stamp) w).
Proof.
  intros Hf (Hm & Hp & _ & _ & _ & Hstamp).
  unfold handle_message, shopping_lines.
  erewrite try_ok; [reflexivity|].
  rewrite (dispatch_commerce codec unicode_isprintable strftime_localtime self msg w w);
    [| |reflexivity].
  2:{ rewrite Hm. in_list. }
  unfold commerce_parser. rewrite Hm. decide_tests.
  rewrite <- (reports_appended _ w Hf).
  cbn [for_each]. unfold bind.
  change (call_if_set (on_error self) (type_notice msg) w) with (h (type_notice msg) w).
  destruct (h (type_notice msg) w) as [[[]|e] w1]; [|reflexivity].
  now apply (live_shopping_with_handler codec strftime_localtime self h eq_refl h_returns).
Qed.

(** C1, as amended.  The dispatch does not consult the deduplicator.  A
    Response with three live-shopping messages for promotion 99 in one
    second leaves, for each of the three, its type notice, its
    [[直播购物]] line and, when its [msg_type] is 2, its [[🛒 下单]] line:
    three [[直播购物]] lines in all, not one. *)
Theorem C1_each_message_of_a_burst_is_transcribed
        (ws : WebSocket World) message package data response
        m1 m2 m3 d1 d2 d3 s1 s2 s3 second w :
  barrage_files w !! rid = Some f ->
  parse_PushFrame codec message = Ok package ->
  gzip_decompress codec (PushFrame.payload package) = Ok data ->
  parse_Response codec data = Ok response ->
  Response.need_ack response = false ->
  Response.messages_list response = [m1; m2; m3] ->
  in_burst codec strftime_localtime second m1 d1 s1 ->
  in_burst codec strftime_localtime second m2 d2 s2 ->
  in_burst codec strftime_localtime second m3 d3 s3 ->
  _wsOnMessage codec unicode_isprintable strftime_localtime self ws message w
  = (Ok tt, appended f (shopping_lines strftime (clock w) m1 d1 s1
                        ++ shopping_lines strftime (clock w) m2 d2 s2
                        ++ shopping_lines strftime (clock w) m3 d3 s3) w).
Proof.
  intros Hf Hframe Hgzip Hresp Hack Hlist H1 H2 H3.
  unfold _wsOnMessage. erewrite try_ok; [reflexivity|].
  change (on_raw_message self) with (@None (str -> bytes -> M World unit)).
  cbv beta iota. rewrite ret_bind, Hframe. unfold lift_result at 1. unfold bind at 1.
  rewrite Hgzip. unfold lift_result at 1. unfold bind at 1.
  rewrite Hresp. unfold lift_result at 1. unfold bind at 1.
  rewrite Hack, ret_bind, Hlist. cbn [for_each].
  rewrite (bind_ok _ _ _ _ _ (handle_live_shopping second m1 d1 s1 w Hf H1)).
  assert (Hf1 : barrage_files (appended f (shopping_lines strftime (clock w) m1 d1 s1) w) !! rid
                = Some f) by now rewrite appended_files.
  rewrite (bind_ok _ _ _ _ _ (handle_live_shopping second m2 d2 s2 _ Hf1 H2)).
  rewrite appended_clock, appended_appended.
  assert (Hf2 : barrage_files
                  (appended f (shopping_lines strftime (clock w) m1 d1 s1
                               ++ shopping_lines strftime (clock w) m2 d2 s2) w) !! rid
                = Some f) by now rewrite appended_files.
  rewrite (bind_ok _ _ _ _ _ (handle_live_shopping second m3 d3 s3 _ Hf2 H3)).
  rewrite appended_clock, appended_appended, <- app_assoc. reflexivity.
Qed.

End Burst.

(** C1, the claim as stated fails: the three messages leave three
    [[直播购物]] lines. *)
Lemma C1_three_purchase_lines_not_one :
  disk (run_sample_session frame_three_purchases Sample.session) !! lit "out/barrage.txt"
  = Some [lit "[12:34:56] [系统] [消息类型] WebcastLiveShoppingMessage - 数据长度: 13" ++ nl;
          lit "[12:34:56] [系统] [直播购物] 22:13:20 - 商品展示, 商品ID:99" ++ nl;
          lit "[12:34:56] [系统] [消息类型] WebcastLiveShoppingMessage - 数据长度: 13" ++ nl;
          lit "[12:34:56] [系统] [直播购物] 22:13:20 - 商品展示, 商品ID:99" ++ nl;
          lit "[12:34:56] [系统] [消息类型] WebcastLiveShoppingMessage - 数据长度: 13" ++ nl;
          lit "[12:34:56] [系统] [直播购物] 22:13:20 - 商品展示, 商品ID:99" ++ nl]
  /\ length (List.filter (contains (lit "[直播购物]"))
               (default [] (disk (run_sample_session frame_three_purchases Sample.session)
                            !! lit "out/barrage.txt")))
     = 3%nat.
Proof. split; vm_compute; reflexivity. Qed.

Lemma C1_each_message_of_a_burst_is_transcribed_witness :
  barrage_files Sample.session !! lit "rec1" = Some (lit "out/barrage.txt")
  /\ Sample.os_fault (lit "out/barrage.txt") = None
  /\ in_burst Sample.codec Sample.strftime_localtime 1700000000
       (shopping_message (Sample.live_shopping 1 99 1700000000100))
       (shopping_event 1700000000100) (Some (lit "22:13:20"))
  /\ _wsOnMessage Sample.codec Sample.unicode_isprintable Sample.strftime_localtime
       (fetcher_callbacks Sample.os_fault Sample.strftime (lit "rec1"))
       silent_socket frame_three_purchases Sample.session
     = (Ok tt,
        appended (lit "out/barrage.txt")
          (shopping_lines Sample.strftime 45296
             (shopping_message (Sample.live_shopping 1 99 1700000000100))
             (shopping_event 1700000000100) (Some (lit "22:13:20"))
           ++ shopping_lines Sample.strftime 45296
                (shopping_message (Sample.live_shopping 1 99 1700000000200))
                (shopping_event 1700000000200) (Some (lit "22:13:20"))
           ++ shopping_lines Sample.strftime 45296
                (shopping_message (Sample.live_shopping 1 99 1700000000300))
                (shopping_event 1700000000300) (Some (lit "22:13:20")))
          Sample.session).
Proof.
  assert (Hf : barrage_files Sample.session !! lit "rec1" = Some (lit "out/barrage.txt"))
    by (vm_compute; reflexivity).
  assert (Hburst : forall t,
             t = 1700000000100 \/ t = 1700000000200 \/ t = 1700000000300 ->
             in_burst Sample.codec Sample.strftime_localtime 1700000000
               (shopping_message (Sample.live_shopping 1 99 t))
               (shopping_event t) (Some (lit "22:13:20"))).
  { intros t [-> | [-> | ->]]; repeat split; vm_compute; reflexivity. }
  split; [exact Hf|]. split; [reflexivity|].
  split; [apply Hburst; now left|].
  eapply (C1_each_message_of_a_burst_is_transcribed Sample.codec Sample.unicode_isprintable
            Sample.strftime_localtime Sample.os_fault Sample.strftime
            (lit "rec1") (lit "out/barrage.txt") eq_refl silent_socket
            frame_three_purchases _ _ _ _ _ _ _ _ _ _ _ _ 1700000000 Sample.session Hf).
  - vm_compute. reflexivity.
  - vm_compute. reflexivity.
  - vm_compute. reflexivity.
  - vm_compute. reflexivity.
  - vm_compute. reflexivity.
  - apply Hburst. now left.
  - apply Hburst. right. now left.
  - apply Hburst. right. now right.
Defined.

(** ** The deduplicator (C4) *)

(** C4, the code at the failing input.  The two payloads have the same
    signature components (promotion 99, second 1700000000).  Submitted
    one second apart to an empty cache, neither call returns [True]: the
    second, which the design wants suppressed, is not. *)
Theorem C4_same_signature_within_window_not_suppressed :
  signature_components Sample.codec purchase_a = Some (99, 1700000000)
  /\ signature_components Sample.codec purchase_b = Some (99, 1700000000)
  /\ fst (check_duplicate 0 purchase_a (∅, [])) = Ok false
  /\ fst (check_duplicate 1 purchase_b (snd (check_duplicate 0 purchase_a (∅, [])))) = Ok false.
Proof. repeat split; vm_compute; reflexivity. Qed.

(** * Further properties *)

(** ** The deduplicator *)

Section Signature.

Variable codec : Codec.

Lemma extract_signature_none {S} (method : str) (payload : bytes) (s : S) :
  _extractMessageSignature codec method payload s = (Ok None, s).
Proof.
  unfold _extractMessageSignature, try_except, bind, lift_result, ret, global_hashlib_md5.
  destruct (str_eq method (lit "WebcastLiveEcomGeneralMessage")).
  { cbv zeta. now destruct (contains _ _). }
  destruct (str_eq method (lit "WebcastLiveShoppingMessage")).
  { now destruct (parse_LiveShoppingMessage codec payload). }
  destruct (str_eq method (lit "WebcastProductChangeMessage")).
  { now destruct (parse_ProductChangeMessage codec payload). }
  reflexivity.
Qed.

(** X1.  [_extractMessageSignature] never yields a signature: whatever
    the method and the payload, it returns [None] and changes nothing. *)
Theorem signature_is_never_extracted {S} (method : str) (payload : bytes) (s : S) :
  _extractMessageSignature codec method payload s = (Ok None, s).
Proof. apply extract_signature_none. Qed.

End Signature.

Lemma lookup_fold_delete (keys : list str) (cache : gmap str Q) (k : str) :
  fold_left (fun c key => delete key c) keys cache !! k
  = if bool_decide (k ∈ keys) then None else cache !! k.
Proof.
  revert cache. induction keys as [|key keys IH]; intros cache; cbn [fold_left].
  - reflexivity.
  - rewrite IH. destruct (decide (k = key)) as [->|Hne].
    + rewrite lookup_delete_eq.
      rewrite (bool_decide_eq_true_2 (key ∈ key :: keys)) by (apply elem_of_cons; now left).
      now destruct (bool_decide (key ∈ keys)).
    + rewrite lookup_delete_ne by congruence.
      destruct (bool_decide_reflect (k ∈ keys)) as [Hin|Hnin].
      * rewrite bool_decide_eq_true_2; [reflexivity|]. apply elem_of_cons. now right.
      * rewrite bool_decide_eq_false_2; [reflexivity|].
        rewrite elem_of_cons. tauto.
Qed.

Lemma elem_of_expired_keys (current_time : Q) (cache : gmap str Q) (k : str) :
  k ∈ expired_keys current_time cache
  <-> exists v, cache !! k = Some v /\ is_expired current_time v = true.
Proof.
  unfold expired_keys. rewrite list_elem_of_In, in_map_iff. split.
  - intros ([k' v] & <- & Hin). apply filter_In in Hin as [Hin Hexp].
    apply list_elem_of_In, elem_of_map_to_list in Hin. cbn in *. eauto.
  - intros (v & Hk & Hexp). exists (k, v). split; [reflexivity|].
    apply filter_In. split; [|exact Hexp].
    apply list_elem_of_In, elem_of_map_to_list. exact Hk.
Qed.

Lemma purge_lookup (current_time : Q) (cache : gmap str Q) (k : str) :
  purge current_time cache !! k
  = match cache !! k with
    | Some v => if is_expired current_time v then None else Some v
    | None => None
    end.
Proof.
  unfold purge. rewrite lookup_fold_delete.
  destruct (bool_decide_reflect (k ∈ expired_keys current_time cache)) as [Hin|Hnin].
  - apply elem_of_expired_keys in Hin as (v & -> & ->). reflexivity.
  - destruct (cache !! k) as [v|] eqn:Hk; [|reflexivity].
    destruct (is_expired current_time v) eqn:Hexp; [|reflexivity].
    exfalso. apply Hnin, elem_of_expired_keys. eauto.
Qed.

(** *** Rounding to a double *)

Lemma pow2_pos e : 0 <= e -> 0 < 2 ^ e.
Proof. intros. now apply Z.pow_pos_nonneg. Qed.

Lemma scaled_below n d c e :
  (fst (scaled n d e) < c * Zpos (snd (scaled n d e))) <-> below n d c e.
Proof.
  unfold scaled, below. destruct (Z.leb_spec 0 e) as [He|He]; cbn [fst snd].
  - rewrite Z2Pos.id by (pose proof (pow2_pos e He); nia).
    replace (Z.max 0 (- e)) with 0 by lia. replace (Z.max 0 e) with e by lia.
    change (2 ^ 0) with 1. rewrite Z.mul_1_r. reflexivity.
  - replace (Z.max 0 (- e)) with (- e) by lia. replace (Z.max 0 e) with 0 by lia.
    change (2 ^ 0) with 1. rewrite Z.mul_1_r. reflexivity.
Qed.

Lemma below_shift n d c e : below n d c (e + 1) <-> below n d (2 * c) e.
Proof.
  unfold below. destruct (Z.leb_spec 0 e) as [He|He].
  - replace (Z.max 0 (- (e + 1))) with 0 by lia. replace (Z.max 0 (- e)) with 0 by lia.
    replace (Z.max 0 (e + 1)) with (e + 1) by lia. replace (Z.max 0 e) with e by lia.
    rewrite Z.pow_add_r by lia. change (2 ^ 1) with 2. split; intros; nia.
  - replace (Z.max 0 (- (e + 1))) with (- e - 1) by lia.
    replace (Z.max 0 (- e)) with (- e - 1 + 1) by lia.
    replace (Z.max 0 (e + 1)) with 0 by lia. replace (Z.max 0 e) with 0 by lia.
    rewrite Z.pow_add_r by lia. change (2 ^ 1) with 2. change (2 ^ 0) with 1.
    pose proof (pow2_pos (- e - 1) ltac:(lia)). split; intros; nia.
Qed.

Lemma below_weaken n d c e e' : 0 <= c -> e <= e' -> below n d c e -> below n d c e'.
Proof.
  intros Hc Hle. unfold below. intros H.
  assert (H1 : 2 ^ Z.max 0 (- e') <= 2 ^ Z.max 0 (- e)) by (apply Z.pow_le_mono_r; lia).
  assert (H2 : 2 ^ Z.max 0 e <= 2 ^ Z.max 0 e') by (apply Z.pow_le_mono_r; lia).
  assert (H3 : Zpos n * 2 ^ Z.max 0 (- e') <= Zpos n * 2 ^ Z.max 0 (- e)).
  { apply Z.mul_le_mono_nonneg_l; lia. }
  assert (H4 : c * (Zpos d * 2 ^ Z.max 0 e) <= c * (Zpos d * 2 ^ Z.max 0 e')).
  { apply Z.mul_le_mono_nonneg_l; [lia|]. apply Z.mul_le_mono_nonneg_l; lia. }
  lia.
Qed.

Lemma log2_estimate n d :
  let e := Z.log2 (Zpos n) - Z.log2 (Zpos d) - 52 in
  below n d (2 ^ 53) e /\ ~ below n d (2 ^ 51) e.
Proof.
  intros e.
  pose proof (Z.log2_spec (Zpos n) ltac:(lia)) as [Hn1 Hn2].
  pose proof (Z.log2_spec (Zpos d) ltac:(lia)) as [Hd1 Hd2].
  pose proof (Z.log2_nonneg (Zpos n)) as Hk. pose proof (Z.log2_nonneg (Zpos d)) as Hj.
  set (k := Z.log2 (Zpos n)) in *. set (j := Z.log2 (Zpos d)) in *.
  set (L := Z.max 0 (- e)). set (U := Z.max 0 e).
  assert (HLU : U - L = e) by lia.
  pose proof (pow2_pos L ltac:(lia)) as HL. pose proof (pow2_pos U ltac:(lia)) as HU.
  unfold below. fold L U. split.
  - assert (Heq : 2 ^ Z.succ k * 2 ^ L = 2 ^ 53 * (2 ^ j * 2 ^ U)).
    { rewrite <- !Z.pow_add_r by lia. f_equal. lia. }
    nia.
  - assert (Heq : 2 ^ 51 * (2 ^ Z.succ j * 2 ^ U) = 2 ^ k * 2 ^ L).
    { rewrite <- !Z.pow_add_r by lia. f_equal. lia. }
    nia.
Qed.

Lemma ulp_exponent_spec n d :
  let e := ulp_exponent n d in
  -1074 <= e /\ below n d (2 ^ 53) e /\ (e = -1074 \/ ~ below n d (2 ^ 52) e).
Proof.
  unfold ulp_exponent.
  destruct (log2_estimate n d) as [Hup Hlow].
  set (e0 := Z.log2 (Zpos n) - Z.log2 (Zpos d) - 52) in *.
  pose proof (scaled_below n d (2 ^ 52) e0) as Hs.
  destruct (scaled n d e0) as [a b]. cbn [fst snd] in Hs. cbv zeta.
  set (e1 := if a <? 2 ^ 52 * Zpos b then e0 - 1 else e0).
  assert (H1 : below n d (2 ^ 53) e1 /\ ~ below n d (2 ^ 52) e1).
  { subst e1. destruct (Z.ltb_spec a (2 ^ 52 * Zpos b)) as [Hlt|Hge].
    - apply Hs in Hlt. split.
      + apply (below_shift n d (2 ^ 52) (e0 - 1)). now replace (e0 - 1 + 1) with e0 by lia.
      + intros H. apply Hlow. replace e0 with (e0 - 1 + 1) by lia.
        now apply (below_shift n d (2 ^ 51) (e0 - 1)).
    - split; [exact Hup|]. intros H. apply Hs in H. lia. }
  destruct H1 as [H53 H52].
  split; [lia|]. split.
  - apply (below_weaken n d (2 ^ 53) e1); [lia|lia|exact H53].
  - destruct (Z.max_spec e1 (-1074)) as [[_ ->]|[_ ->]]; [now left|now right].
Qed.

Lemma round_half_even_le (n : Z) (d : positive) (N : Z) :
  n <= N * Zpos d -> round_half_even n d <= N.
Proof.
  intros H. unfold round_half_even.
  pose proof (Z.div_mod n (Zpos d) ltac:(lia)) as Hdm.
  pose proof (Z.mod_pos_bound n (Zpos d) ltac:(lia)) as Hr.
  assert (Hq : n / Zpos d <= N) by (apply Z.div_le_upper_bound; lia).
  destruct (Z.compare_spec (2 * (n mod Zpos d)) (Zpos d)) as [E|E|E].
  - destruct (Z.even _); [lia|]. nia.
  - lia.
  - nia.
Qed.

Lemma round_half_even_ge (n : Z) (d : positive) (N : Z) :
  N * Zpos d <= n -> N <= round_half_even n d.
Proof.
  intros H. unfold round_half_even.
  assert (Hq : N <= n / Zpos d) by (apply Z.div_le_lower_bound; lia).
  destruct (_ ?= _); [destruct (Z.even _)| |]; lia.
Qed.

(** Up to the midpoint above an even [N] the rounding gives at most [N];
    past it, more. *)
Lemma round_half_even_tie (n : Z) (d : positive) (N : Z) :
  Z.even N = true -> 2 * n <= (2 * N + 1) * Zpos d -> round_half_even n d <= N.
Proof.
  intros Heven H. unfold round_half_even.
  pose proof (Z.div_mod n (Zpos d) ltac:(lia)) as Hdm.
  pose proof (Z.mod_pos_bound n (Zpos d) ltac:(lia)) as Hr.
  assert (Hq : n / Zpos d <= N).
  { apply Z.lt_succ_r. apply Z.div_lt_upper_bound; [lia|]. nia. }
  destruct (Z.compare_spec (2 * (n mod Zpos d)) (Zpos d)) as [E|E|E].
  - destruct (Z.even (n / Zpos d)) eqn:Hev; [lia|].
    assert (n / Zpos d <> N) by (intros E'; rewrite E' in Hev; congruence). lia.
  - lia.
  - nia.
Qed.

Lemma round_half_even_past (n : Z) (d : positive) (N : Z) :
  (2 * N + 1) * Zpos d < 2 * n -> N + 1 <= round_half_even n d.
Proof.
  intros H. unfold round_half_even.
  pose proof (Z.div_mod n (Zpos d) ltac:(lia)) as Hdm.
  pose proof (Z.mod_pos_bound n (Zpos d) ltac:(lia)) as Hr.
  assert (Hq : N <= n / Zpos d) by (apply Z.div_le_lower_bound; [lia|nia]).
  destruct (Z.compare_spec (2 * (n mod Zpos d)) (Zpos d)) as [E|E|E].
  - destruct (Z.even _); nia.
  - nia.
  - lia.
Qed.

Lemma nearest_double_exact (n d : positive) :
  (Zpos n * 2 ^ 52 <= (2 ^ 53 + 1) * Zpos d -> (nearest_double n d <= inject_Z 2)%Q)
  /\ ((2 ^ 53 + 1) * Zpos d < Zpos n * 2 ^ 52 -> (inject_Z 2 < nearest_double n d)%Q).
Proof.
  unfold nearest_double.
  destruct (ulp_exponent_spec n d) as (Hmin & H53 & H52).
  set (e := ulp_exponent n d) in *. clearbody e.
  apply scaled_below in H53.
  assert (H52' : e = -1074 \/ 2 ^ 52 * Zpos (snd (scaled n d e)) <= fst (scaled n d e)).
  { destruct H52 as [->|H52]; [now left|right].
    apply Z.nlt_ge. intros H. apply H52. now apply scaled_below. }
  clear H52. unfold scaled in *.
  destruct (Z.leb_spec 0 e) as [He|He]; cbn [fst snd] in *.
  - (* e >= 0: the number is at least 2^52 *)
    pose proof (pow2_pos e He) as Hp.
    rewrite Z2Pos.id in * by nia.
    destruct H52' as [->|H52]; [lia|].
    set (b := Z.to_pos (Zpos d * 2 ^ e)) in *.
    assert (Hb : Zpos b = Zpos d * 2 ^ e) by (subst b; apply Z2Pos.id; nia).
    pose proof (round_half_even_ge (Zpos n) b (2 ^ 52) ltac:(lia)) as Hm.
    split.
    + intros H. exfalso. nia.
    + intros _. unfold Qlt. cbn [Qnum Qden inject_Z].
      assert (2 ^ 52 <= round_half_even (Zpos n) b * 2 ^ e) by nia.
      assert (2 ^ 52 <= 2 ^ 1024) by (apply Z.pow_le_mono_r; lia).
      change (2 ^ 52) with 4503599627370496 in *. lia.
  - (* e < 0 *)
    pose proof (pow2_pos (- e) ltac:(lia)) as Hp.
    set (k := - e) in *.
    assert (Hcase : k <= 50 \/ k = 51 \/ 52 <= k) by lia.
    unfold Qle, Qlt. cbn [Qnum Qden inject_Z]. rewrite Z2Pos.id by lia.
    destruct Hcase as [Hk|[Hk|Hk]].
    + (* the number is at least 4 *)
      destruct H52' as [E|H52]; [lia|].
      assert (H50 : 2 ^ k <= 2 ^ 50) by (apply Z.pow_le_mono_r; lia).
      pose proof (round_half_even_ge (Zpos n * 2 ^ k) d (2 ^ 52) H52) as Hm.
      change (2 ^ 52) with (4 * 2 ^ 50) in *. change (2 ^ 53) with (8 * 2 ^ 50) in *.
      split; [intros H; exfalso; nia|intros _; nia].
    + (* between 2 and 4: the spacing is 2^-51 *)
      rewrite Hk in *. split.
      * intros H.
        pose proof (round_half_even_tie (Zpos n * 2 ^ 51) d (2 ^ 52) eq_refl) as Hm.
        change (2 ^ 52) with (2 * 2 ^ 51) in *. change (2 ^ 53) with (4 * 2 ^ 51) in *.
        lia.
      * intros H.
        pose proof (round_half_even_past (Zpos n * 2 ^ 51) d (2 ^ 52)) as Hm.
        change (2 ^ 52) with (2 * 2 ^ 51) in *. change (2 ^ 53) with (4 * 2 ^ 51) in *.
        lia.
    + (* below 2 *)
      assert (Hk52 : 2 ^ 52 <= 2 ^ k) by (apply Z.pow_le_mono_r; lia).
      split.
      * intros _.
        pose proof (round_half_even_le (Zpos n * 2 ^ k) d (2 * 2 ^ k)) as Hm.
        change (2 ^ 53) with (2 * 2 ^ 52) in *. nia.
      * intros H. exfalso. change (2 ^ 53) with (2 * 2 ^ 52) in *. nia.
Qed.

Lemma round_half_even_nonneg (n : Z) (d : positive) : 0 <= n -> 0 <= round_half_even n d.
Proof.
  intros H. unfold round_half_even.
  pose proof (Z.div_pos n (Zpos d) H ltac:(lia)).
  destruct (_ ?= _); [destruct (Z.even _)| |]; lia.
Qed.

Lemma nearest_double_nonneg (n d : positive) : (0 <= nearest_double n d)%Q.
Proof.
  unfold nearest_double. generalize (ulp_exponent n d). intros e. unfold scaled.
  destruct (Z.leb_spec 0 e) as [He|He].
  - pose proof (round_half_even_nonneg (Zpos n) (Z.to_pos (Zpos d * 2 ^ e)) ltac:(lia)).
    pose proof (Z.pow_pos_nonneg 2 e ltac:(lia) He).
    unfold Qle. cbn [Qnum Qden inject_Z]. nia.
  - pose proof (Z.pow_pos_nonneg 2 (- e) ltac:(lia) ltac:(lia)).
    pose proof (round_half_even_nonneg (Zpos n * 2 ^ (- e)) d ltac:(nia)).
    unfold Qle. cbn [Qnum Qden]. lia.
Qed.

(** The difference of two doubles is at most 2 exactly when the exact
    difference is at most [2 + 2^-52]. *)
Lemma binary64_le_2 (q : Q) :
  (binary64 q <= _cache_timeout)%Q <-> (q <= purge_threshold)%Q.
Proof.
  destruct q as [num den]. unfold binary64. cbn [Qnum Qden].
  assert (Ht : forall z : Z,
             (z # den <= purge_threshold)%Q <-> z * 2 ^ 52 <= (2 ^ 53 + 1) * Zpos den).
  { intros z. unfold Qle. cbn. reflexivity. }
  destruct num as [|n|n].
  - split; intros _; [apply Ht; lia|]. unfold Qle. cbn. lia.
  - rewrite Ht. destruct (nearest_double_exact n den) as [Hle Hgt].
    change (inject_Z 2) with _cache_timeout in *. split; [|exact Hle].
    intros H. apply Z.nlt_ge. intros Hn. apply Hgt in Hn.
    now apply (Qlt_not_le _ _ Hn).
  - split; intros _; [apply Ht; lia|].
    pose proof (nearest_double_nonneg n den) as Hn. unfold Qle in *.
    cbn [Qnum Qden Qopp] in *. cbn. lia.
Qed.

Lemma is_expired_false (current_time v : Q) :
  is_expired current_time v = false <-> young current_time v.
Proof.
  unfold is_expired, young. rewrite negb_false_iff, Qle_bool_iff. apply binary64_le_2.
Qed.

(** An entry that is at most two seconds old is young. *)
Lemma fresh_young (current_time v : Q) : fresh current_time v -> young current_time v.
Proof.
  unfold fresh, young, purge_threshold. intros H.
  apply (Qle_trans _ _ _ H). unfold _cache_timeout, Qle. cbn. lia.
Qed.

Lemma purge_young_iff (current_time : Q) (cache : gmap str Q) (k : str) (v : Q) :
  purge current_time cache !! k = Some v
  <-> cache !! k = Some v /\ young current_time v.
Proof.
  rewrite purge_lookup. destruct (cache !! k) as [v'|]; [|split; [discriminate|intros [? _]; discriminate]].
  destruct (is_expired current_time v') eqn:Hexp.
  - split; [discriminate|]. intros [[= ->] Hyoung].
    apply is_expired_false in Hyoung. congruence.
  - apply is_expired_false in Hexp. split.
    + intros [= ->]. now split.
    + now intros [-> _].
Qed.

(** X2.  The purge at the head of every call keeps exactly the entries
    whose age does not exceed [2 + 2^-52] seconds, with their timestamps:
    the age is compared with 2 after it has been rounded to a double, and
    that is the largest age that rounds to no more than 2. *)
Theorem purge_keeps_exactly_the_young (current_time : Q) (cache : gmap str Q) (k : str) (v : Q) :
  purge current_time cache !! k = Some v
  <-> cache !! k = Some v /\ (current_time - v <= purge_threshold)%Q.
Proof. apply purge_young_iff. Qed.

Section Dedup.

Context {W : Type}.
Variable codec : Codec.
Variable self : Callbacks W.

Let check := _isDuplicateMessage codec self.

Lemma debug_returns (text : str) (cache : gmap str Q) (w : W) :
  (forall h, on_error self = Some h -> returns h) ->
  exists w', debug self text (cache, w) = (Ok tt, (cache, w')).
Proof.
  intros Hq. unfold debug, on_snd, call_if_set. cbn [fst snd].
  destruct (on_error self) as [h|].
  - destruct (Hq h eq_refl text w) as [w' ->]. eauto.
  - eauto.
Qed.

Lemma check_runs (current_time : Q) (method : str) (payload : bytes) (mh : str)
      (cache : gmap str Q) (w : W) :
  (forall h, on_error self = Some h -> returns h) ->
  message_hash_of method payload = Ok mh ->
  exists w',
    check current_time method payload (cache, w)
    = match purge current_time cache !! mh with
      | Some _ => (Ok true, (purge current_time cache, w'))
      | None => (Ok false, (<[mh := current_time]> (purge current_time cache), w'))
      end.
Proof.
  intros Hq Hmh. subst check. unfold _isDuplicateMessage.
  unfold modify at 1. unfold bind at 1. cbn [fst snd].
  destruct (str_in method _).
  - unfold bind at 1. rewrite extract_signature_none. cbv beta iota.
    rewrite Hmh. unfold lift_result at 1. unfold bind at 1.
    unfold gets at 1. unfold bind at 1. cbn [fst snd].
    destruct (purge current_time cache !! mh) as [t|]; cbn [is_set].
    + unfold bind at 1.
      match goal with |- context [debug self ?text (?c, w)] =>
        destruct (debug_returns text c w Hq) as [w' ->] end.
      exists w'. reflexivity.
    + unfold modify at 1. unfold bind at 1. cbn [fst snd]. unfold bind at 1.
      match goal with |- context [debug self ?text (?c, w)] =>
        destruct (debug_returns text c w Hq) as [w' ->] end.
      exists w'. reflexivity.
  - rewrite Hmh. unfold lift_result at 1. unfold bind at 1.
    unfold gets at 1. unfold bind at 1. cbn [fst snd].
    exists w. destruct (purge current_time cache !! mh); reflexivity.
Qed.

(** X3.  A repeat inside the window is suppressed and does not refresh
    the entry: when the cache holds the hash of (method, payload) with a
    timestamp no older than two seconds, the call answers [True] and the
    cache it leaves still holds that timestamp. *)
Theorem repeat_within_window_is_suppressed
        (current_time first_seen : Q) (method : str) (payload : bytes) (mh : str)
        (cache : gmap str Q) (w : W) :
  (forall h, on_error self = Some h -> returns h) ->
  message_hash_of method payload = Ok mh ->
  cache !! mh = Some first_seen ->
  fresh current_time first_seen ->
  answer (check current_time method payload (cache, w)) = Ok true
  /\ cache_after (check current_time method payload (cache, w)) !! mh = Some first_seen.
Proof.
  intros Hq Hmh Hc Hfresh.
  destruct (check_runs current_time method payload mh cache w Hq Hmh) as [w' Hrun].
  assert (Hp : purge current_time cache !! mh = Some first_seen).
  { apply purge_young_iff. split; [exact Hc|now apply fresh_young]. }
  rewrite Hp in Hrun. rewrite Hrun. unfold answer, cache_after. cbn [fst snd]. now split.
Qed.

(** X4.  A message whose hash is not in the cache, or is there with a
    timestamp older than [2 + 2^-52] seconds, is not suppressed, and is
    entered with the time of this call. *)
Theorem first_or_late_message_is_accepted
        (current_time : Q) (method : str) (payload : bytes) (mh : str)
        (cache : gmap str Q) (w : W) :
  (forall h, on_error self = Some h -> returns h) ->
  message_hash_of method payload = Ok mh ->
  (cache !! mh = None
   \/ exists seen, cache !! mh = Some seen /\ (purge_threshold < current_time - seen)%Q) ->
  answer (check current_time method payload (cache, w)) = Ok false
  /\ cache_after (check current_time method payload (cache, w)) !! mh = Some current_time.
Proof.
  intros Hq Hmh Hc.
  destruct (check_runs current_time method payload mh cache w Hq Hmh) as [w' Hrun].
  assert (Hp : purge current_time cache !! mh = None).
  { destruct (purge current_time cache !! mh) as [v|] eqn:E; [|reflexivity].
    apply purge_young_iff in E as [E Hfresh]. unfold young in Hfresh.
    destruct Hc as [Hc|(seen & Hc & Hold)]; [congruence|].
    assert (v = seen) by congruence. subst v. exfalso.
    apply (Qlt_not_le _ _ Hold Hfresh). }
  rewrite Hp in Hrun. rewrite Hrun. unfold answer, cache_after. cbn [fst snd].
  split; [reflexivity|apply lookup_insert_eq].
Qed.

(** X5.  Whatever a call does, the cache it leaves holds no entry older
    than [2 + 2^-52] seconds at the time of the call. *)
Theorem cache_holds_only_fresh_entries
        (current_time : Q) (method : str) (payload : bytes)
        (cache : gmap str Q) (w : W) (k : str) (v : Q) :
  cache_after (check current_time method payload (cache, w)) !! k = Some v ->
  (current_time - v <= purge_threshold)%Q.
Proof.
  assert (Hcases : cache_after (check current_time method payload (cache, w))
                   = purge current_time cache
                   \/ exists mh, cache_after (check current_time method payload (cache, w))
                                 = <[mh := current_time]> (purge current_time cache)).
  { remember (check current_time method payload (cache, w)) as r eqn:Hr.
    subst check. unfold _isDuplicateMessage in Hr.
    unfold modify at 1 in Hr. unfold bind at 1 in Hr. cbn [fst snd] in Hr.
    assert (Hdebug : forall text (c : gmap str Q) (A : Type) (k : unit -> M (gmap str Q * W) A),
               (forall s, fst (snd (k tt s)) = fst s) ->
               fst (snd (bind (debug self text) k (c, w))) = c).
    { intros text c A k0 Hk. unfold bind, debug, on_snd, call_if_set. cbn [fst snd].
      destruct (on_error self) as [h|]; cbn.
      - destruct (h text w) as [[[]|e] w']; cbn; [apply Hk|reflexivity].
      - apply Hk. }
    unfold cache_after.
    destruct (str_in method _).
    - unfold bind at 1 in Hr. rewrite extract_signature_none in Hr. cbv beta iota in Hr.
      destruct (message_hash_of method payload) as [mh|e]; [|subst r; now left].
      unfold lift_result at 1 in Hr. unfold bind at 1 in Hr.
      unfold gets at 1 in Hr. unfold bind at 1 in Hr. cbn [fst snd] in Hr.
      destruct (purge current_time cache !! mh) as [t|]; cbn [is_set] in Hr.
      + subst r. left. apply Hdebug. reflexivity.
      + unfold modify at 1 in Hr. unfold bind at 1 in Hr. cbn [fst snd] in Hr.
        subst r. right. exists mh. apply Hdebug. reflexivity.
    - destruct (message_hash_of method payload) as [mh|e]; [|subst r; now left].
      unfold lift_result at 1 in Hr. unfold bind at 1 in Hr.
      unfold gets at 1 in Hr. unfold bind at 1 in Hr. cbn [fst snd] in Hr.
      destruct (purge current_time cache !! mh) as [t|]; cbn [is_set] in Hr;
        subst r; [now left|].
      right. exists mh. reflexivity. }
  destruct Hcases as [->|[mh ->]].
  - intros H. now apply purge_young_iff in H.
  - intros H. destruct (decide (mh = k)) as [->|Hne].
    + rewrite lookup_insert_eq in H. injection H as <-.
      unfold purge_threshold, _cache_timeout.
      ring_simplify (current_time - current_time)%Q. discriminate.
    + rewrite lookup_insert_ne in H by exact Hne.
      now apply purge_young_iff in H.
Qed.

End Dedup.

Lemma no_handlers_return :
  forall h, on_error no_handlers = Some h -> returns h.
Proof. intros h H. discriminate H. Qed.

(** With the doubles nearest to 2.2 and 0.2 for the time of the call and
    the timestamp, the exact age exceeds two seconds, yet not the
    midpoint: the entry is kept. *)
Lemma purge_keeps_exactly_the_young_witness :
  (_cache_timeout < binary64 (22 # 10) - binary64 (2 # 10))%Q
  /\ (binary64 (22 # 10) - binary64 (2 # 10) <= purge_threshold)%Q
  /\ purge (binary64 (22 # 10)) {[ purchase_hash := binary64 (2 # 10) ]} !! purchase_hash
     = Some (binary64 (2 # 10)).
Proof.
  assert (H1 : (_cache_timeout < binary64 (22 # 10) - binary64 (2 # 10))%Q).
  { vm_compute. reflexivity. }
  assert (H2 : (binary64 (22 # 10) - binary64 (2 # 10) <= purge_threshold)%Q).
  { vm_compute. discriminate. }
  split; [exact H1|]. split; [exact H2|].
  apply (proj2 (purge_keeps_exactly_the_young (binary64 (22 # 10))
                  {[ purchase_hash := binary64 (2 # 10) ]} purchase_hash
                  (binary64 (2 # 10)))).
  split; [apply lookup_singleton_eq|exact H2].
Defined.

Lemma repeat_within_window_is_suppressed_witness :
  message_hash_of (lit "WebcastLiveShoppingMessage") purchase_a = Ok purchase_hash
  /\ ({[ purchase_hash := 0%Q ]} : gmap str Q) !! purchase_hash = Some 0%Q
  /\ fresh 1 0
  /\ answer (check_duplicate 1 purchase_a ({[ purchase_hash := 0%Q ]}, [])) = Ok true
  /\ cache_after (check_duplicate 1 purchase_a ({[ purchase_hash := 0%Q ]}, []))
     !! purchase_hash = Some 0%Q.
Proof.
  assert (H1 : message_hash_of (lit "WebcastLiveShoppingMessage") purchase_a = Ok purchase_hash)
    by (vm_compute; reflexivity).
  assert (H2 : ({[ purchase_hash := 0%Q ]} : gmap str Q) !! purchase_hash = Some 0%Q)
    by apply lookup_singleton_eq.
  assert (H3 : fresh 1 0) by (vm_compute; discriminate).
  split; [exact H1|]. split; [exact H2|]. split; [exact H3|].
  exact (repeat_within_window_is_suppressed Sample.codec no_handlers 1 0
           (lit "WebcastLiveShoppingMessage") purchase_a purchase_hash
           {[ purchase_hash := 0%Q ]} [] no_handlers_return H1 H2 H3).
Defined.

Lemma first_or_late_message_is_accepted_witness :
  message_hash_of (lit "WebcastLiveShoppingMessage") purchase_a = Ok purchase_hash
  /\ (purge_threshold < 3 - 0)%Q
  /\ answer (check_duplicate 3 purchase_a ({[ purchase_hash := 0%Q ]}, [])) = Ok false
  /\ cache_after (check_duplicate 3 purchase_a ({[ purchase_hash := 0%Q ]}, []))
     !! purchase_hash = Some 3%Q.
Proof.
  assert (H1 : message_hash_of (lit "WebcastLiveShoppingMessage") purchase_a = Ok purchase_hash)
    by (vm_compute; reflexivity).
  assert (H2 : (purge_threshold < 3 - 0)%Q) by (vm_compute; reflexivity).
  split; [exact H1|]. split; [exact H2|].
  apply (first_or_late_message_is_accepted Sample.codec no_handlers 3
           (lit "WebcastLiveShoppingMessage") purchase_a purchase_hash
           {[ purchase_hash := 0%Q ]} [] no_handlers_return H1).
  right. exists 0%Q. split; [apply lookup_singleton_eq|exact H2].
Defined.

Lemma cache_holds_only_fresh_entries_witness :
  cache_after (check_duplicate 3 purchase_a ({[ purchase_hash := 0%Q ]}, []))
  !! purchase_hash = Some 3%Q
  /\ (3 - 3 <= purge_threshold)%Q.
Proof.
  assert (H : cache_after (check_duplicate 3 purchase_a ({[ purchase_hash := 0%Q ]}, []))
              !! purchase_hash = Some 3%Q)
    by (vm_compute; reflexivity).
  split; [exact H|]. unfold check_duplicate in H.
  exact (cache_holds_only_fresh_entries Sample.codec no_handlers 3
           (lit "WebcastLiveShoppingMessage") purchase_a {[ purchase_hash := 0%Q ]} []
           purchase_hash 3 H).
Defined.

(** ** Readable content *)

Lemma land_low_bits a n : 0 <= n -> 0 <= Z.land a (Z.ones n) < 2 ^ n.
Proof.
  intros Hn. rewrite Z.land_ones by exact Hn. apply Z.mod_pos_bound. now apply Z.pow_pos_nonneg.
Qed.

Lemma wide_chars_cons c s :
  wide_chars (c :: s) = ((if (2048 <=? c)%Z then 1 else 0) + wide_chars s)%nat.
Proof. unfold wide_chars. cbn [List.filter]. now destruct (2048 <=? c). Qed.

Lemma utf8_ignore_weight (n : nat) : forall l,
  (length l <= n)%nat ->
  (length (utf8_ignore l) + 2 * wide_chars (utf8_ignore l) <= length l)%nat.
Proof.
  induction n as [|n IH]; intros l Hl.
  { destruct l; [cbn; lia|cbn in Hl; lia]. }
  destruct l as [|ch s1]; [cbn; lia|].
  cbn [length] in Hl.
  assert (H1 := IH s1 ltac:(lia)).
  cbn [utf8_ignore].
  destruct (Z.ltb_spec ch 128).
  { cbn [length]. rewrite wide_chars_cons. destruct (Z.leb_spec 2048 ch); lia. }
  destruct (ch <? 194); [cbn [length]; lia|].
  destruct (Z.ltb_spec ch 224).
  { destruct s1 as [|ch2 s2]; [cbn; lia|]. cbn [length] in *.
    assert (H2 := IH s2 ltac:(lia)).
    destruct (is_continuation ch2); [|lia].
    cbn [length]. rewrite wide_chars_cons.
    pose proof (land_low_bits ch 5 ltac:(lia)) as Ha.
    pose proof (land_low_bits ch2 6 ltac:(lia)) as Hb.
    change (Z.ones 5) with 31 in Ha. change (Z.ones 6) with 63 in Hb.
    change (2 ^ 5) with 32 in Ha. change (2 ^ 6) with 64 in Hb.
    destruct (Z.leb_spec 2048 (Z.land ch 31 * 64 + Z.land ch2 63)); lia. }
  destruct (ch <? 240).
  { destruct s1 as [|ch2 s2]; [cbn; lia|]. cbn [length] in *.
    assert (H2 := IH s2 ltac:(lia)).
    destruct (negb (is_continuation ch2) || _); [lia|].
    destruct s2 as [|ch3 s3]; [cbn; lia|]. cbn [length] in *.
    assert (H3 := IH s3 ltac:(lia)).
    destruct (is_continuation ch3); [|lia].
    cbn [length]. rewrite wide_chars_cons. destruct (2048 <=? _); lia. }
  destruct (ch <? 245); [|cbn [length]; lia].
  destruct s1 as [|ch2 s2]; [cbn; lia|]. cbn [length] in *.
  assert (H2 := IH s2 ltac:(lia)).
  destruct (negb (is_continuation ch2) || _); [lia|].
  destruct s2 as [|ch3 s3]; [cbn; lia|]. cbn [length] in *.
  assert (H3 := IH s3 ltac:(lia)).
  destruct (negb (is_continuation ch3)); [lia|].
  destruct s3 as [|ch4 s4]; [cbn; lia|]. cbn [length] in *.
  assert (H4 := IH s4 ltac:(lia)).
  destruct (is_continuation ch4); [|lia].
  cbn [length]. rewrite wide_chars_cons. destruct (2048 <=? _); lia.
Qed.

Lemma decode_weight (payload : bytes) :
  (length (decode_utf8_ignore payload) + 2 * wide_chars (decode_utf8_ignore payload)
   <= length payload)%nat.
Proof.
  unfold decode_utf8_ignore.
  pose proof (utf8_ignore_weight (length (map ord_byte payload)) (map ord_byte payload)
                (Nat.le_refl _)) as H.
  now rewrite length_map in H.
Qed.

Lemma startswith_true p s : startswith p s = true -> exists rest, s = p ++ rest.
Proof.
  revert s. induction p as [|a p IH]; intros s H; [now exists s|].
  destruct s as [|b s]; [discriminate|]. cbn in H.
  apply andb_true_iff in H as [Hab Hps]. apply Z.eqb_eq in Hab as ->.
  destruct (IH s Hps) as [rest ->]. now exists rest.
Qed.

Lemma contains_true needle hay :
  contains needle hay = true -> exists pre post, hay = pre ++ needle ++ post.
Proof.
  induction hay as [|a hay IH]; rewrite contains_unfold; intros H;
    apply orb_true_iff in H as [H|H].
  - apply startswith_true in H as [rest ->]. now exists [], rest.
  - discriminate.
  - apply startswith_true in H as [rest ->]. now exists [], rest.
  - destruct (IH H) as (pre & post & ->). now exists (a :: pre), post.
Qed.

Lemma wide_chars_app s t : wide_chars (s ++ t) = (wide_chars s + wide_chars t)%nat.
Proof. unfold wide_chars. now rewrite List.filter_app, length_app. Qed.

Lemma contains_wide needle hay :
  contains needle hay = true -> (wide_chars needle <= wide_chars hay)%nat.
Proof.
  intros H. apply contains_true in H as (pre & post & ->).
  rewrite !wide_chars_app. lia.
Qed.

Lemma wide_chars_le s : (wide_chars s <= length s)%nat.
Proof.
  induction s as [|c s IH]; [reflexivity|].
  rewrite wide_chars_cons. cbn [length]. destruct (2048 <=? c); lia.
Qed.

Lemma no_keyword_in_short_payload (payload : bytes) :
  (length payload < 6)%nat ->
  List.filter (fun kw => contains kw (decode_utf8_ignore payload)) content_keywords = [].
Proof.
  intros Hlen.
  assert (Hkw : Forall (fun kw => wide_chars kw = 2%nat) content_keywords).
  { apply Forall_forall. intros kw Hin.
    unfold content_keywords in Hin. rewrite !elem_of_cons in Hin.
    repeat (destruct Hin as [->|Hin]; [vm_compute; reflexivity|]).
    now apply elem_of_nil in Hin. }
  pose proof (decode_weight payload) as Hw.
  induction Hkw as [|kw kws Hkw _ IH]; [reflexivity|].
  cbn [List.filter].
  destruct (contains kw (decode_utf8_ignore payload)) eqn:E; [|exact IH].
  apply contains_wide in E.
  pose proof (wide_chars_le (decode_utf8_ignore payload)). lia.
Qed.

Lemma hex_scan_facts (payload : bytes) :
  hex_scan (hex payload) = map dotted (map ord_byte payload)
  /\ length (hex_scan (hex payload)) = length payload
  /\ Forall (fun c => 32 <= c <= 126) (hex_scan (hex payload)).
Proof.
  rewrite hex_scan_hex. split; [reflexivity|]. split; [now rewrite !length_map|].
  apply Forall_map, Forall_map, Forall_forall. intros b _. cbn. unfold dotted.
  destruct (Z.leb_spec 32 (ord_byte b)); cbn [andb]; [|lia].
  destruct (Z.leb_spec (ord_byte b) 126); lia.
Qed.

(** X6.  The character loop over [payload.hex()] reads every byte back:
    the text it builds has one character per byte of the payload, the
    byte itself when it is printable ASCII and a dot otherwise. *)
Theorem hex_scan_reads_each_byte (payload : bytes) :
  hex_scan (hex payload) = map dotted (map ord_byte payload)
  /\ length (hex_scan (hex payload)) = length payload
  /\ Forall (fun c => 32 <= c <= 126) (hex_scan (hex payload)).
Proof. apply hex_scan_facts. Qed.

Section Fallback.

Variable unicode_isprintable : Z -> bool.

Let printable (payload : bytes) : str :=
  List.filter (readable unicode_isprintable) (decode_utf8_ignore payload).

Lemma runs_of_scanned_text (payload : bytes) :
  readable_runs unicode_isprintable (hex_scan (hex payload))
  = if (3 <? length payload)%nat then [hex_scan (hex payload)] else [].
Proof.
  destruct (hex_scan_facts payload) as (_ & Hlen & Hrange).
  unfold readable_runs.
  rewrite (scan_all_readable unicode_isprintable _ [] []).
  2:{ eapply Forall_impl; [exact Hrange|]. apply readable_ascii. }
  cbn [app]. rewrite Hlen.
  destruct (Nat.ltb_spec 3 (length payload)) as [Hlong|Hshort].
  - destruct (hex_scan (hex payload)); [cbn in Hlen; lia|reflexivity].
  - now rewrite andb_false_r.
Qed.

Lemma printable_le (payload : bytes) : (length (printable payload) <= length payload)%nat.
Proof.
  subst printable. cbn beta.
  pose proof (decode_weight payload).
  pose proof (List.filter_length_le (readable unicode_isprintable) (decode_utf8_ignore payload)).
  lia.
Qed.

(** X7.  The extraction returns nothing exactly for the payloads of at
    most three bytes. *)
Theorem extraction_fails_exactly_on_short_payloads (payload : bytes) :
  _extractReadableContent unicode_isprintable payload = None
  <-> (length payload <= 3)%nat.
Proof.
  unfold _extractReadableContent, slice_to. fold (printable payload).
  pose proof (printable_le payload) as Hle.
  rewrite runs_of_scanned_text.
  destruct (Nat.ltb_spec 5 (length (printable payload))) as [H5|H5].
  { split; [discriminate|lia]. }
  destruct (Nat.ltb_spec 3 (length payload)) as [H3|H3].
  { split; [discriminate|lia]. }
  rewrite no_keyword_in_short_payload by lia. split; [lia|reflexivity].
Qed.

(** X8.  When the UTF-8 reading has at most five printable characters and
    the payload more than three bytes, the content is the first 200
    characters of the scanned text: every byte of the payload in its
    place, the non-printable ones as dots, nothing split off and no
    separator put in. *)
Theorem second_attempt_returns_the_dotted_payload (payload : bytes) :
  (length (printable payload) <= 5)%nat ->
  (3 < length payload)%nat ->
  _extractReadableContent unicode_isprintable payload
  = Some (firstn 200 (map dotted (map ord_byte payload))).
Proof.
  intros H5 H3. unfold _extractReadableContent, slice_to. fold (printable payload).
  rewrite runs_of_scanned_text, hex_scan_hex.
  destruct (Nat.ltb_spec 5 (length (printable payload))); [lia|].
  destruct (Nat.ltb_spec 3 (length payload)); [|lia].
  reflexivity.
Qed.

End Fallback.

Lemma second_attempt_returns_the_dotted_payload_witness :
  (length (List.filter (readable Sample.unicode_isprintable)
             (decode_utf8_ignore [x00; x41; x42; xff; x43])) <= 5)%nat
  /\ (3 < length [x00; x41; x42; xff; x43])%nat
  /\ _extractReadableContent Sample.unicode_isprintable [x00; x41; x42; xff; x43]
     = Some (lit ".AB.C").
Proof.
  assert (H1 : (length (List.filter (readable Sample.unicode_isprintable)
                          (decode_utf8_ignore [x00; x41; x42; xff; x43])) <= 5)%nat)
    by (vm_compute; lia).
  assert (H2 : (3 < length [x00; x41; x42; xff; x43])%nat) by (cbn; lia).
  split; [exact H1|]. split; [exact H2|].
  rewrite (second_attempt_returns_the_dotted_payload Sample.unicode_isprintable
             [x00; x41; x42; xff; x43] H1 H2).
  vm_compute. reflexivity.
Defined.

(** ** Dispatch *)

Section DispatchMore.

Context {W : Type}.
Variable codec : Codec.
Variable unicode_isprintable : Z -> bool.
Variable strftime_localtime : str -> Q -> Result str.
Variable self : Callbacks W.

Let route := dispatch codec unicode_isprintable strftime_localtime self.

(** X9.  A noise message without typed handler leaves no trace: no
    handler is called, the diagnostic one included, and nothing is
    decoded. *)
Theorem noise_is_dropped_silently (msg : Message.t) (w : W) :
  Message.method msg ∈ pure_noise_types ->
  on_raw_message self = None ->
  route msg w = (Ok tt, w).
Proof.
  intros Hm Hraw. subst route. unfold dispatch. rewrite Hraw. cbv zeta. rewrite ret_bind.
  destruct msg as [method payload]. cbn [Message.method Message.payload] in *.
  unfold pure_noise_types in Hm. rewrite !elem_of_cons in Hm.
  repeat (destruct Hm as [->|Hm];
          [decide_tests; destruct (on_error self); reflexivity|]).
  now apply elem_of_nil in Hm.
Qed.

(** X10.  A message of a typed method whose handler was not given to the
    fetcher is dropped before it is decoded: nothing is called and
    nothing reported, also when the payload is malformed. *)
Theorem message_without_its_handler_is_dropped (msg : Message.t) (w : W) :
  Message.method msg ∈ typed_message_types ->
  typed_handler_registered self (Message.method msg) = false ->
  on_raw_message self = None ->
  route msg w = (Ok tt, w).
Proof.
  intros Hm Hreg Hraw. subst route. unfold dispatch. rewrite Hraw. cbv zeta. rewrite ret_bind.
  destruct msg as [method payload]. cbn [Message.method Message.payload] in *.
  unfold typed_message_types, core_message_types in Hm. cbn [app] in Hm.
  rewrite !elem_of_cons in Hm. unfold typed_handler_registered in Hreg.
  repeat (destruct Hm as [->|Hm];
          [revert Hreg; decide_tests; intros Hreg; rewrite Hreg;
           destruct (on_error self); reflexivity|]).
  now apply elem_of_nil in Hm.
Qed.

(** X11.  A message of an unknown method whose name holds one of the
    shopping keywords is announced to the diagnostic handler by method
    and payload length, whatever the payload; its content is not looked
    at. *)
Theorem keyword_method_is_announced (msg : Message.t) (w : W) (h : str -> M W unit) :
  on_raw_message self = None ->
  on_error self = Some h ->
  Message.method msg ∉ useless_message_types ->
  Message.method msg ∉ core_message_types ->
  Message.method msg ∉ shopping_message_types ->
  has_shopping_keywords (Message.method msg) = true ->
  route msg w = h (type_notice msg) w.
Proof.
  intros Hraw Hh Huseless Hcore Hshop Hkw.
  apply (bool_decide_eq_false_2 _) in Huseless, Hcore, Hshop.
  fold (str_in (Message.method msg) useless_message_types) in Huseless.
  fold (str_in (Message.method msg) core_message_types) in Hcore.
  fold (str_in (Message.method msg) shopping_message_types) in Hshop.
  subst route. unfold dispatch, type_notice.
  rewrite Hraw, Huseless, Hcore, Hshop, Hkw, Hh. cbv zeta.
  rewrite (str_in_false _ _ (lit "WebcastChatMessage") Hcore) by in_list.
  rewrite (str_in_false _ _ (lit "WebcastGiftMessage") Hcore) by in_list.
  rewrite (str_in_false _ _ (lit "WebcastMemberMessage") Hcore) by in_list.
  rewrite (str_in_false _ _ (lit "WebcastLikeMessage") Hcore) by in_list.
  rewrite (str_in_false _ _ (lit "WebcastSocialMessage") Hcore) by in_list.
  rewrite (str_in_false _ _ (lit "WebcastEmojiChatMessage") Hcore) by in_list.
  rewrite (str_in_false _ _ (lit "WebcastRoomUserSeqMessage") Huseless) by in_list.
  rewrite (str_in_false _ _ (lit "WebcastRoomStatsMessage") Huseless) by in_list.
  rewrite (str_in_false _ _ (lit "WebcastControlMessage") Huseless) by in_list.
  rewrite (str_in_false _ _ (lit "WebcastProductChangeMessage") Hshop) by in_list.
  rewrite (str_in_false _ _ (lit "WebcastLiveShoppingMessage") Hshop) by in_list.
  rewrite (str_in_false _ _ (lit "WebcastLiveEcomGeneralMessage") Hshop) by in_list.
  cbn [andb negb orb is_set]. rewrite ret_bind, bind_ret_tt. reflexivity.
Qed.

(** X12.  A frame that cannot be read is reported once to the diagnostic
    handler, if there is one, and nothing else happens: nothing is sent
    and no message is handled.  This holds for a frame that does not
    parse, a payload that does not decompress and a Response that does
    not parse. *)
Theorem unreadable_frame_is_reported (ws : WebSocket W) (message : bytes) (w : W) (e : Exn) :
  on_raw_message self = None ->
  (parse_PushFrame codec message = Raise e
   \/ (exists package,
          parse_PushFrame codec message = Ok package
          /\ gzip_decompress codec (PushFrame.payload package) = Raise e)
   \/ (exists package data,
          parse_PushFrame codec message = Ok package
          /\ gzip_decompress codec (PushFrame.payload package) = Ok data
          /\ parse_Response codec data = Raise e)) ->
  _wsOnMessage codec unicode_isprintable strftime_localtime self ws message w
  = call_if_set (on_error self) (lit "[消息解析错误] " ++ exn_text e) w.
Proof.
  intros Hraw Hbad. unfold _wsOnMessage. rewrite Hraw.
  destruct Hbad as [H1|[(package & H1 & H2)|(package & data & H1 & H2 & H3)]].
  - rewrite (try_raise _ _ w e w); [reflexivity|]. rewrite ret_bind, H1. reflexivity.
  - rewrite (try_raise _ _ w e w); [reflexivity|]. rewrite ret_bind, H1. unfold lift_result at 1. unfold bind at 1.
    rewrite H2. reflexivity.
  - rewrite (try_raise _ _ w e w); [reflexivity|]. rewrite ret_bind, H1. unfold lift_result at 1. unfold bind at 1.
    rewrite H2. unfold lift_result at 1. unfold bind at 1. rewrite H3. reflexivity.
Qed.

(** X13.  When the Response asks for an ack and sending the ack raises,
    the failure is reported and none of the Response's messages is
    handled. *)
Theorem failed_ack_drops_the_response
        (ws : WebSocket W) (message : bytes) package data response token (w w' : W) (e : Exn) :
  on_raw_message self = None ->
  parse_PushFrame codec message = Ok package ->
  gzip_decompress codec (PushFrame.payload package) = Ok data ->
  parse_Response codec data = Ok response ->
  Response.need_ack response = true ->
  encode_utf8 (Response.internal_ext response) = Ok token ->
  send ws (ack_frame codec package token) OPCODE_BINARY w = (Raise e, w') ->
  _wsOnMessage codec unicode_isprintable strftime_localtime self ws message w
  = call_if_set (on_error self) (lit "[消息解析错误] " ++ exn_text e) w'.
Proof.
  intros Hraw H1 H2 H3 Hack Htoken Hsend. unfold _wsOnMessage. rewrite Hraw.
  rewrite (try_raise _ _ w e w'); [reflexivity|]. rewrite ret_bind, H1. unfold lift_result at 1. unfold bind at 1.
  rewrite H2. unfold lift_result at 1. unfold bind at 1.
  rewrite H3. unfold lift_result at 1. unfold bind at 1.
  rewrite Hack, Htoken. unfold lift_result at 1. unfold bind at 1 2.
  unfold ack_frame in Hsend. now rewrite Hsend.
Qed.

End DispatchMore.

Lemma noise_is_dropped_silently_witness :
  Message.method noise_banner ∈ pure_noise_types
  /\ on_raw_message recorder = None
  /\ dispatch Sample.codec Sample.unicode_isprintable Sample.strftime_localtime
       recorder noise_banner [] = (Ok tt, []).
Proof.
  assert (H : Message.method noise_banner ∈ pure_noise_types) by in_list.
  split; [exact H|]. split; [reflexivity|].
  exact (noise_is_dropped_silently Sample.codec Sample.unicode_isprintable
           Sample.strftime_localtime recorder noise_banner [] H eq_refl).
Defined.

Lemma message_without_its_handler_is_dropped_witness :
  Message.method bad_gift ∈ typed_message_types
  /\ typed_handler_registered recorder (Message.method bad_gift) = false
  /\ on_raw_message recorder = None
  /\ dispatch Sample.codec Sample.unicode_isprintable Sample.strftime_localtime
       recorder bad_gift [] = (Ok tt, []).
Proof.
  assert (H1 : Message.method bad_gift ∈ typed_message_types) by in_list.
  assert (H2 : typed_handler_registered recorder (Message.method bad_gift) = false)
    by (vm_compute; reflexivity).
  split; [exact H1|]. split; [exact H2|]. split; [reflexivity|].
  exact (message_without_its_handler_is_dropped Sample.codec Sample.unicode_isprintable
           Sample.strftime_localtime recorder bad_gift [] H1 H2 eq_refl).
Defined.

Lemma keyword_method_is_announced_witness :
  (Message.method unknown_order ∉ useless_message_types)
  /\ (Message.method unknown_order ∉ core_message_types)
  /\ (Message.method unknown_order ∉ shopping_message_types)
  /\ has_shopping_keywords (Message.method unknown_order) = true
  /\ dispatch Sample.codec Sample.unicode_isprintable Sample.strftime_localtime
       recorder unknown_order []
     = (Ok tt, [lit "[消息类型] WebcastOrderMessage - 数据长度: 0"]).
Proof.
  assert (H1 : Message.method unknown_order ∉ useless_message_types).
  { apply (bool_decide_eq_false_1 _). vm_compute. reflexivity. }
  assert (H2 : Message.method unknown_order ∉ core_message_types).
  { apply (bool_decide_eq_false_1 _). vm_compute. reflexivity. }
  assert (H3 : Message.method unknown_order ∉ shopping_message_types).
  { apply (bool_decide_eq_false_1 _). vm_compute. reflexivity. }
  assert (H4 : has_shopping_keywords (Message.method unknown_order) = true)
    by (vm_compute; reflexivity).
  split; [exact H1|]. split; [exact H2|]. split; [exact H3|]. split; [exact H4|].
  rewrite (keyword_method_is_announced Sample.codec Sample.unicode_isprintable
             Sample.strftime_localtime recorder unknown_order [] Sample.record_text
             eq_refl eq_refl H1 H2 H3 H4).
  vm_compute. reflexivity.
Defined.

Lemma unreadable_frame_is_reported_witness :
  parse_PushFrame Sample.codec frame_cut_short = Raise Sample.IndexError
  /\ run_recorder quiet_socket frame_cut_short
     = (Ok tt, [lit "[消息解析错误] index out of range"]).
Proof.
  assert (H : parse_PushFrame Sample.codec frame_cut_short = Raise Sample.IndexError)
    by (vm_compute; reflexivity).
  split; [exact H|]. unfold run_recorder.
  rewrite (unreadable_frame_is_reported Sample.codec Sample.unicode_isprintable
             Sample.strftime_localtime recorder quiet_socket
             frame_cut_short [] Sample.IndexError eq_refl (or_introl H)).
  vm_compute. reflexivity.
Defined.

Lemma failed_ack_drops_the_response_witness :
  exists package data response token,
    parse_PushFrame Sample.codec frame_needing_ack = Ok package
    /\ gzip_decompress Sample.codec (PushFrame.payload package) = Ok data
    /\ parse_Response Sample.codec data = Ok response
    /\ Response.need_ack response = true
    /\ length (Response.messages_list response) = 1%nat
    /\ encode_utf8 (Response.internal_ext response) = Ok token
    /\ send (closed_socket (W:=list str)) (ack_frame Sample.codec package token) OPCODE_BINARY []
       = (Raise (Exception (lit "socket is already closed")), [])
    /\ run_recorder closed_socket frame_needing_ack
       = (Ok tt, [lit "[消息解析错误] socket is already closed"]).
Proof.
  eexists _, _, _, _.
  split; [vm_compute; reflexivity|].
  split; [vm_compute; reflexivity|].
  split; [vm_compute; reflexivity|].
  split; [reflexivity|]. split; [reflexivity|].
  split; [vm_compute; reflexivity|].
  split; [reflexivity|].
  unfold run_recorder.
  rewrite (failed_ack_drops_the_response Sample.codec Sample.unicode_isprintable
             Sample.strftime_localtime recorder closed_socket frame_needing_ack
             _ _ _ _ [] [] (Exception (lit "socket is already closed")) eq_refl
             ltac:(vm_compute; reflexivity) ltac:(vm_compute; reflexivity)
             ltac:(vm_compute; reflexivity) ltac:(reflexivity)
             ltac:(vm_compute; reflexivity) ltac:(reflexivity)).
  vm_compute. reflexivity.
Defined.

(** ** The manager *)

Lemma truthy_app_l (s t : str) : truthy s = true -> truthy (s ++ t) = true.
Proof. destruct s; [discriminate|reflexivity]. Qed.

Section ManagerMore.

Variable os_fault : str -> option Exn.
Variable os_path_join : str -> str -> str.
Variable strftime : str -> Z -> str.
Variable stop : Fetcher -> Result unit.
Variable write_fault : str -> str -> option Exn.
Variable DouyinLiveWebFetcher_init : str -> Result unit.
Variable thread_start : Fetcher -> Result unit.

Let write := _write_to_file os_fault strftime.
Let start := start_barrage_recording os_fault os_path_join strftime write_fault
               DouyinLiveWebFetcher_init thread_start.

(** X14.  Appending a line for a session that is not registered does
    nothing; when the file cannot be opened the failure is logged and
    swallowed. *)
Theorem append_line_edge_cases (recording_id text : str) (w : World) :
  (barrage_files w !! recording_id = None -> write recording_id text w = (Ok tt, w))
  /\ (forall f e,
         barrage_files w !! recording_id = Some f ->
         os_fault f = Some e ->
         write recording_id text w
         = (Ok tt, logged ERROR (lit "写入弹幕文件失败: " ++ exn_text e) w)).
Proof.
  split.
  - apply write_to_file_unknown.
  - intros f e Hf He. subst write. unfold _write_to_file, now_strftime, open_append, logger.
    run. rewrite Hf. run. now rewrite He.
Qed.

(** X15.  Appending a line changes no file but the session's own, and
    leaves both dictionaries as they are. *)
Theorem append_line_touches_one_file (recording_id text : str) (w : World) :
  active_fetchers (snd (write recording_id text w)) = active_fetchers w
  /\ barrage_files (snd (write recording_id text w)) = barrage_files w
  /\ (forall path,
         barrage_files w !! recording_id <> Some path ->
         disk (snd (write recording_id text w)) !! path = disk w !! path).
Proof.
  subst write. unfold _write_to_file, now_strftime, open_append, logger. run.
  destruct (barrage_files w !! recording_id) as [f|] eqn:Hf; run; [|now repeat split].
  destruct (os_fault f); run; cbn; [now repeat split|].
  repeat split. intros path Hne. apply lookup_insert_ne. congruence.
Qed.

(** X16.  None of the handlers the manager gives its fetcher lets an
    exception out. *)
Theorem manager_handlers_return (recording_id : str) :
  returns (_handle_chat_message os_fault strftime recording_id)
  /\ returns (_handle_gift_message os_fault strftime recording_id)
  /\ returns (_handle_member_message os_fault strftime recording_id)
  /\ returns (_handle_like_message os_fault strftime recording_id)
  /\ returns (_handle_social_message os_fault strftime recording_id)
  /\ returns (_handle_emoji_chat_message os_fault strftime recording_id)
  /\ returns (_handle_room_user_seq_message os_fault strftime recording_id)
  /\ returns (_handle_room_stats_message os_fault strftime recording_id)
  /\ returns (_handle_control_message os_fault strftime recording_id)
  /\ returns (_handle_error_message os_fault strftime recording_id).
Proof.
  assert (Hw : forall text w handler,
             exists w', try_except (_write_to_file os_fault strftime recording_id text) handler w
                        = (Ok tt, w')).
  { intros text w handler.
    destruct (write_to_file_returns os_fault strftime recording_id text w) as [w' H].
    exists w'. now apply try_ok. }
  repeat split; intros msg w;
    unfold _handle_chat_message, _handle_gift_message, _handle_member_message,
      _handle_like_message, _handle_social_message, _handle_emoji_chat_message,
      _handle_room_user_seq_message, _handle_room_stats_message, _handle_control_message,
      _handle_error_message; cbv zeta; try apply Hw.
  - destruct (truthy _); [apply Hw|]. eexists. reflexivity.
  - destruct (_ =? 3); apply Hw.
Qed.

(** X17.  A session of the manager survives every frame: whatever the
    bytes, the codec and the socket, [_wsOnMessage] returns. *)
Theorem managed_session_survives_every_frame
        (codec : Codec) (unicode_isprintable : Z -> bool)
        (strftime_localtime : str -> Q -> Result str)
        (recording_id : str) (ws : WebSocket World) (message : bytes) (w : World) :
  exists w',
    _wsOnMessage codec unicode_isprintable strftime_localtime
      (fetcher_callbacks os_fault strftime recording_id) ws message w = (Ok tt, w').
Proof.
  unfold _wsOnMessage, try_except.
  match goal with |- context [let (_, _) := ?m w in _] => destruct (m w) as [[[]|e] w1] end.
  - eauto.
  - cbn [fetcher_callbacks on_error call_if_set]. apply handle_error_message_returns.
Qed.

Lemma logger_keeps level text w :
  active_fetchers (snd (logger level text w)) = active_fetchers w
  /\ barrage_files (snd (logger level text w)) = barrage_files w
  /\ disk (snd (logger level text w)) = disk w.
Proof. now repeat split. Qed.

Ltac fields :=
  unfold set_journal, set_active_fetchers, set_barrage_files, set_disk;
  cbn [active_fetchers barrage_files disk journal clock].

Lemma extract_live_id_keeps live_url w :
  exists o w',
    _extract_live_id live_url w = (Ok o, w')
    /\ active_fetchers w' = active_fetchers w
    /\ barrage_files w' = barrage_files w.
Proof.
  unfold _extract_live_id, logger. run.
  destruct (contains (lit "live.douyin.com") live_url).
  - destruct (contains (lit "/") live_url); eexists _, _; now repeat split.
  - destruct (contains (lit "v.douyin.com") live_url); eexists _, _; now repeat split.
Qed.

(** X18.  [start_barrage_recording] never raises and touches the entries
    of no other session.  When it answers [True] the session is in both
    dictionaries.  When it answers [False] both dictionaries are as they
    were, with one exception: when the thread could not be started the
    session stays registered. *)
Theorem start_answers_and_keeps_other_sessions
        (recording_id live_url platform recording_dir : str) (w : World) :
  exists answer w1,
    start recording_id live_url platform recording_dir w = (Ok answer, w1)
    /\ (forall other,
           other <> recording_id ->
           active_fetchers w1 !! other = active_fetchers w !! other
           /\ barrage_files w1 !! other = barrage_files w !! other)
    /\ (answer = true ->
        is_set (active_fetchers w1 !! recording_id) = true
        /\ is_set (barrage_files w1 !! recording_id) = true)
    /\ (answer = false ->
        (active_fetchers w1 = active_fetchers w /\ barrage_files w1 = barrage_files w)
        \/ exists fetcher e,
             thread_start fetcher = Raise e
             /\ active_fetchers w1 !! recording_id = Some fetcher
             /\ barrage_files w1 !! recording_id = Some (barrage_file fetcher)).
Proof.
  subst start. unfold start_barrage_recording, try_except.
  destruct (str_eq platform (lit "douyin")); cbn [negb].
  2:{ unfold logger. run. eexists _, _. split; [reflexivity|]. fields.
      split; [now intros|]. split; [discriminate|]. intros _. now left. }
  destruct (extract_live_id_keeps live_url w) as (o & w0 & He & Ha0 & Hb0).
  rewrite (bind_ok _ _ _ _ _ He).
  destruct (truthy (default [] o)); cbn [negb].
  2:{ unfold logger. run. eexists _, _. split; [reflexivity|]. fields.
      rewrite Ha0, Hb0. split; [now intros|]. split; [discriminate|]. intros _. now left. }
  destruct (create_barrage_file_returns os_fault os_path_join strftime write_fault
              recording_id recording_dir w0) as (o' & w0' & Hc & Ha1 & Hb1).
  rewrite (bind_ok _ _ _ _ _ Hc).
  destruct (truthy (default [] o')); cbn [negb].
  2:{ run. eexists _, _. split; [reflexivity|].
      rewrite Ha1, Hb1, Ha0, Hb0. split; [now intros|]. split; [discriminate|].
      intros _. now left. }
  unfold logger. run.
  destruct (DouyinLiveWebFetcher_init _) as [[]|e]; cbn [fst snd].
  2:{ eexists _, _. split; [reflexivity|]. fields.
      rewrite Ha1, Hb1, Ha0, Hb0. split; [now intros|]. split; [discriminate|].
      intros _. now left. }
  destruct (thread_start _) as [[]|e] eqn:Hthread; cbn [fst snd].
  - eexists _, _. split; [reflexivity|]. fields. rewrite Ha1, Hb1, Ha0, Hb0.
    split; [|split; [|discriminate]].
    + intros other Hne. split; apply lookup_insert_ne; congruence.
    + intros _. now rewrite !lookup_insert_eq.
  - eexists _, _. split; [reflexivity|]. fields. rewrite Ha1, Hb1, Ha0, Hb0.
    split; [|split; [discriminate|]].
    + intros other Hne. split; apply lookup_insert_ne; congruence.
    + intros _. right. eexists _, e. split; [exact Hthread|].
      split; apply lookup_insert_eq.
Qed.




Section Started.

Variables recording_id live_url recording_dir : str.
Variable w : World.

Let path := os_path_join (transcript_directory recording_dir)
              (transcript_name strftime recording_id (clock w)).
Let fetcher := Build_Fetcher (room_of live_url) recording_id path.

Hypothesis direct_link : contains (lit "live.douyin.com") live_url = true.
Hypothesis has_slash : contains (lit "/") live_url = true.
Hypothesis room_given : truthy (room_of live_url) = true.
Hypothesis directory_made : os_fault (transcript_directory recording_dir) = None.
Hypothesis file_opened : os_fault path = None.





End Started.

(** X20.  A direct link that ends in a slash, or whose last segment
    starts with the question mark, has an empty room identifier: the
    start answers [False] after logging that no identifier could be
    extracted, and creates nothing. *)
Theorem start_refuses_an_empty_room (recording_id live_url recording_dir pre tail : str)
        (w : World) :
  contains (lit "live.douyin.com") live_url = true ->
  live_url = pre ++ [47] ++ tail ->
  47 ∉ tail ->
  (tail = [] \/ exists q, tail = 63 :: q) ->
  start recording_id live_url (lit "douyin") recording_dir w
  = (Ok false, logged ERROR (lit "无法从URL提取直播间ID: " ++ live_url) w).
Proof.
  intros Hlive Hurl Hslash Htail.
  subst start. unfold start_barrage_recording, try_except.
  unfold str_eq. rewrite (bool_decide_eq_true_2 _ eq_refl). cbn [negb].
  assert (He : _extract_live_id live_url w = (Ok (Some []), w)).
  { unfold _extract_live_id. run. rewrite Hlive.
    assert (Hhas : contains (lit "/") live_url = true).
    { rewrite Hurl. apply (contains_app [47] pre tail). }
    rewrite Hhas. cbn [fst snd]. rewrite Hurl. cbn [app].
    rewrite last_split by exact Hslash.
    assert (Hhd : hd [] (split 63 ([] ++ tail)) = []).
    { apply hd_split; [|exact Htail]. intros H. now apply elem_of_nil in H. }
    cbn [app] in Hhd. now rewrite Hhd. }
  rewrite (bind_ok _ _ _ _ _ He). reflexivity.
Qed.

(** X21.  Stopping a session touches no other session and no file. *)
Theorem stop_leaves_the_rest (recording_id : str) (w : World) :
  disk (snd (stop_barrage_recording stop recording_id w)) = disk w
  /\ (forall other,
         other <> recording_id ->
         active_fetchers (snd (stop_barrage_recording stop recording_id w)) !! other
         = active_fetchers w !! other
         /\ barrage_files (snd (stop_barrage_recording stop recording_id w)) !! other
            = barrage_files w !! other).
Proof.
  unfold stop_barrage_recording, logger. run.
  destruct (active_fetchers w !! recording_id) as [fetcher|]; [|now repeat split].
  destruct (stop fetcher) as [[]|e]; cbn; [|now repeat split].
  destruct (barrage_files w !! recording_id) eqn:Hf; cbn.
  - split; [reflexivity|]. intros other Hne.
    split; apply lookup_delete_ne; congruence.
  - split; [reflexivity|]. intros other Hne.
    split; [apply lookup_delete_ne; congruence|reflexivity].
Qed.

(** X22.  After a stop that answered [True], a line that still arrives
    for the session is dropped: appending it, directly or through the
    diagnostic handler, changes nothing. *)
Theorem late_lines_are_dropped (recording_id text : str) (w w2 : World) :
  stop_barrage_recording stop recording_id w = (Ok true, w2) ->
  write recording_id text w2 = (Ok tt, w2)
  /\ _handle_error_message os_fault strftime recording_id text w2 = (Ok tt, w2).
Proof.
  intros Hstop.
  assert (Hgone : barrage_files w2 !! recording_id = None).
  { revert Hstop. unfold stop_barrage_recording, logger. run.
    destruct (active_fetchers w !! recording_id) as [fetcher|]; [|discriminate].
    destruct (stop fetcher) as [[]|e]; cbn; [|discriminate].
    destruct (barrage_files w !! recording_id) eqn:Hf; cbn; intros [= <-]; cbn.
    - apply lookup_delete_eq.
    - exact Hf. }
  assert (Hw : forall t, write recording_id t w2 = (Ok tt, w2)).
  { intros t. subst write. now apply write_to_file_unknown. }
  split; [apply Hw|]. unfold _handle_error_message.
  erewrite try_ok; [reflexivity|]. apply Hw.
Qed.

End ManagerMore.

Lemma append_line_edge_cases_witness :
  barrage_files Sample.empty_world !! lit "rec1" = None
  /\ _write_to_file Sample.os_fault Sample.strftime (lit "rec1") (lit "late")
       Sample.empty_world = (Ok tt, Sample.empty_world)
  /\ barrage_files Sample.session !! lit "rec1" = Some (lit "out/barrage.txt")
  /\ read_only (lit "out/barrage.txt") = Some (Exception (lit "Permission denied"))
  /\ _write_to_file read_only Sample.strftime (lit "rec1") (lit "text") Sample.session
     = (Ok tt, logged ERROR (lit "写入弹幕文件失败: Permission denied") Sample.session).
Proof.
  assert (H1 : barrage_files Sample.empty_world !! lit "rec1" = None)
    by (vm_compute; reflexivity).
  assert (H2 : barrage_files Sample.session !! lit "rec1" = Some (lit "out/barrage.txt"))
    by (vm_compute; reflexivity).
  split; [exact H1|]. split.
  - exact (proj1 (append_line_edge_cases Sample.os_fault Sample.strftime (lit "rec1")
                    (lit "late") Sample.empty_world) H1).
  - split; [exact H2|]. split; [reflexivity|].
    rewrite (proj2 (append_line_edge_cases read_only Sample.strftime (lit "rec1")
                      (lit "text") Sample.session) _ _ H2 eq_refl).
    vm_compute. reflexivity.
Defined.

Lemma append_line_touches_one_file_witness :
  barrage_files Sample.session !! lit "rec1" <> Some (lit "out/other.txt")
  /\ disk (snd (_write_to_file Sample.os_fault Sample.strftime (lit "rec1") (lit "text")
                  Sample.session)) !! lit "out/other.txt"
     = disk Sample.session !! lit "out/other.txt".
Proof.
  assert (H : barrage_files Sample.session !! lit "rec1" <> Some (lit "out/other.txt"))
    by (vm_compute; discriminate).
  split; [exact H|].
  exact (proj2 (proj2 (append_line_touches_one_file Sample.os_fault Sample.strftime
                         (lit "rec1") (lit "text") Sample.session))
           (lit "out/other.txt") H).
Defined.

Lemma start_answers_and_keeps_other_sessions_witness :
  lit "rec1" <> lit "rec2"
  /\ fst (start_without_thread Sample.session) = Ok false
  /\ active_fetchers (snd (start_without_thread Sample.session)) !! lit "rec1"
     = active_fetchers Sample.session !! lit "rec1"
  /\ barrage_files (snd (start_without_thread Sample.session)) !! lit "rec1"
     = barrage_files Sample.session !! lit "rec1".
Proof.
  assert (Hne : lit "rec1" <> lit "rec2") by (vm_compute; discriminate).
  split; [exact Hne|]. split; [vm_compute; reflexivity|].
  destruct (start_answers_and_keeps_other_sessions Sample.os_fault Sample.os_path_join
              Sample.strftime Sample.write_fault Sample.DouyinLiveWebFetcher_init
              thread_refused (lit "rec2") (lit "https://live.douyin.com/123456")
              (lit "douyin") (lit "out") Sample.session)
    as (answer & w1 & Hrun & Hother & _).
  unfold start_without_thread. rewrite Hrun. cbn [snd]. exact (Hother _ Hne).
Defined.




Lemma start_refuses_an_empty_room_witness :
  contains (lit "live.douyin.com") (lit "https://live.douyin.com/123/") = true
  /\ start_barrage_recording Sample.os_fault Sample.os_path_join Sample.strftime
       Sample.write_fault Sample.DouyinLiveWebFetcher_init Sample.thread_start
       (lit "rec3") (lit "https://live.douyin.com/123/") (lit "douyin") (lit "out")
       Sample.empty_world
     = (Ok false,
        logged ERROR (lit "无法从URL提取直播间ID: https://live.douyin.com/123/")
          Sample.empty_world).
Proof.
  assert (H1 : contains (lit "live.douyin.com") (lit "https://live.douyin.com/123/") = true)
    by (vm_compute; reflexivity).
  split; [exact H1|].
  rewrite (start_refuses_an_empty_room Sample.os_fault Sample.os_path_join Sample.strftime
             Sample.write_fault Sample.DouyinLiveWebFetcher_init Sample.thread_start
             (lit "rec3") (lit "https://live.douyin.com/123/") (lit "out")
             (lit "https://live.douyin.com/123") [] Sample.empty_world H1
             ltac:(vm_compute; reflexivity)
             ltac:(intros H; now apply elem_of_nil in H) (or_introl eq_refl)).
  vm_compute. reflexivity.
Defined.

Lemma stop_leaves_the_rest_witness :
  lit "rec9" <> lit "rec1"
  /\ barrage_files (snd (stop_barrage_recording stop_returning (lit "rec1")
                           (set_barrage_files (fun m => <[lit "rec9" := lit "out/nine.txt"]> m)
                              Sample.session))) !! lit "rec9"
     = Some (lit "out/nine.txt").
Proof.
  assert (H : lit "rec9" <> lit "rec1") by (vm_compute; discriminate).
  split; [exact H|].
  rewrite (proj2 (proj2 (stop_leaves_the_rest stop_returning (lit "rec1")
                           (set_barrage_files
                              (fun m => <[lit "rec9" := lit "out/nine.txt"]> m)
                              Sample.session)) (lit "rec9") H)).
  apply lookup_insert_eq.
Defined.

Lemma late_lines_are_dropped_witness :
  stop_barrage_recording stop_returning (lit "rec1") Sample.session = (Ok true, stopped_session)
  /\ _write_to_file Sample.os_fault Sample.strftime (lit "rec1") (lit "[弹幕] late")
       stopped_session = (Ok tt, stopped_session).
Proof.
  assert (H : stop_barrage_recording stop_returning (lit "rec1") Sample.session
              = (Ok true, stopped_session)).
  { unfold stopped_session.
    destruct (stop_barrage_recording stop_returning (lit "rec1") Sample.session) as [r w'] eqn:E.
    assert (Hr : fst (stop_barrage_recording stop_returning (lit "rec1") Sample.session)
                 = Ok true) by (vm_compute; reflexivity).
    rewrite E in Hr. cbn in Hr. now subst r. }
  split; [exact H|].
  exact (proj1 (late_lines_are_dropped Sample.os_fault Sample.strftime stop_returning
                  (lit "rec1") (lit "[弹幕] late") Sample.session stopped_session H)).
Defined.

(** ** The connection *)

Section ConnectionProperties.

Context {W : Type}.
Variable codec : Codec.
Variable self : Callbacks W.
Variable ws : WebSocket W.

Let beat := _sendHeartbeat codec self ws.
Let frame := heartbeat_frame codec.

(** X23.  The heartbeat loop ends at the first ping the socket refuses:
    after [k] accepted pings and one refused, it reports the failure to
    the diagnostic handler, once, and is left; it does not try again. *)
Theorem heartbeat_stops_at_first_failure (k fuel : nat) (w wk wf : W) (e : Exn) :
  pings_accepted ws frame k w wk ->
  send ws frame OPCODE_PING wk = (Raise e, wf) ->
  (k < fuel)%nat ->
  beat fuel w
  = bind (call_if_set (on_error self) (lit "[心跳包错误] " ++ exn_text e))
         (fun _ => ret (Some tt)) wf.
Proof.
  subst beat frame. revert fuel w. induction k as [|k IH]; intros fuel w Hacc Hfail Hfuel.
  - cbn in Hacc. subst wk. destruct fuel as [|fuel]; [lia|].
    cbn [_sendHeartbeat]. unfold bind at 1. unfold heartbeat_turn, try_except.
    unfold bind at 1. rewrite Hfail. unfold bind.
    destruct (call_if_set _ _ wf) as [[[]|e'] w']; reflexivity.
  - destruct Hacc as (w1 & Hsend & Hacc). destruct fuel as [|fuel]; [lia|].
    cbn [_sendHeartbeat]. unfold bind at 1. unfold heartbeat_turn, try_except.
    unfold bind at 1. rewrite Hsend. unfold ret at 1.
    apply IH; [exact Hacc|exact Hfail|lia].
Qed.

(** X24.  While the socket accepts every ping the loop is never left:
    however many turns it is given, it is still going round. *)
Theorem heartbeat_runs_while_pings_are_accepted (fuel : nat) (w : W) :
  (forall w0, exists w1, send ws frame OPCODE_PING w0 = (Ok tt, w1)) ->
  fst (beat fuel w) = Ok None.
Proof.
  intros Hok. subst beat frame. revert w. induction fuel as [|fuel IH]; intros w.
  - reflexivity.
  - cbn [_sendHeartbeat]. unfold bind at 1. unfold heartbeat_turn, try_except.
    unfold bind at 1. destruct (Hok w) as [w1 ->]. unfold ret at 1. apply IH.
Qed.

(** X25.  [start] does not raise as long as the diagnostic handler
    returns: a connection that fails is reported as
    [[弹幕] 连接失败: {e}], one that is made as
    [[弹幕] 连接已启动，等待消息...]. *)
Theorem start_reports_the_connection (connect : M W unit) (w : W) :
  (forall h, on_error self = Some h -> returns h) ->
  (exists w', start self connect w = (Ok tt, w'))
  /\ (forall e w1,
         connect w = (Raise e, w1) ->
         start self connect w
         = call_if_set (on_error self) (lit "[弹幕] 连接失败: " ++ exn_text e) w1)
  /\ (forall w1,
         connect w = (Ok tt, w1) ->
         start self connect w
         = call_if_set (on_error self) (lit "[弹幕] 连接已启动，等待消息...") w1).
Proof.
  intros Hq. unfold start, try_except, bind.
  destruct (connect w) as [[[]|e] w1] eqn:Hc.
  - destruct (report_returns self (lit "[弹幕] 连接已启动，等待消息...") w1 Hq) as [w' Hr].
    rewrite Hr. split; [eauto|]. split; [discriminate|]. now intros ? [= <-].
  - destruct (report_returns self (lit "[弹幕] 连接失败: " ++ exn_text e) w1 Hq) as [w' Hr].
    rewrite Hr. split; [eauto|]. split; [|discriminate]. now intros ? ? [= <- <-].
Qed.

End ConnectionProperties.

Lemma heartbeat_stops_at_first_failure_witness :
  pings_accepted two_pings_socket (heartbeat_frame Sample.codec) 2 (0%nat, []) (2%nat, [])
  /\ send two_pings_socket (heartbeat_frame Sample.codec) OPCODE_PING (2%nat, [])
     = (Raise (Exception (lit "Connection is already closed.")), (3%nat, []))
  /\ _sendHeartbeat Sample.codec count_reports two_pings_socket 10 (0%nat, [])
     = (Ok (Some tt), (3%nat, [lit "[心跳包错误] Connection is already closed."])).
Proof.
  assert (H1 : pings_accepted two_pings_socket (heartbeat_frame Sample.codec) 2
                 (0%nat, []) (2%nat, [])).
  { cbn. eexists. split; [reflexivity|]. eexists. split; reflexivity. }
  split; [exact H1|]. split; [reflexivity|].
  rewrite (heartbeat_stops_at_first_failure Sample.codec count_reports two_pings_socket
             2 10 (0%nat, []) (2%nat, []) (3%nat, [])
             (Exception (lit "Connection is already closed.")) H1 eq_refl ltac:(lia)).
  vm_compute. reflexivity.
Defined.

Lemma heartbeat_runs_while_pings_are_accepted_witness :
  (forall w0 : list str,
      exists w1, send quiet_socket (heartbeat_frame Sample.codec) OPCODE_PING w0 = (Ok tt, w1))
  /\ fst (_sendHeartbeat Sample.codec recorder quiet_socket 1000 []) = Ok None.
Proof.
  assert (H : forall w0 : list str,
             exists w1, send quiet_socket (heartbeat_frame Sample.codec) OPCODE_PING w0
                        = (Ok tt, w1)).
  { intros w0. exists w0. reflexivity. }
  split; [exact H|].
  exact (heartbeat_runs_while_pings_are_accepted Sample.codec recorder quiet_socket 1000 [] H).
Defined.

Lemma start_reports_the_connection_witness :
  (forall h, on_error recorder = Some h -> returns h)
  /\ start recorder refused_connection []
     = (Ok tt, [lit "[弹幕] 连接失败: Handshake status 403 Forbidden"]).
Proof.
  assert (H : forall h, on_error recorder = Some h -> returns h).
  { intros h [= <-] text log. eexists. reflexivity. }
  split; [exact H|].
  rewrite (proj1 (proj2 (start_reports_the_connection recorder refused_connection [] H))
             (Exception (lit "Handshake status 403 Forbidden")) [] eq_refl).
  vm_compute. reflexivity.
Defined.

(** ** Transcribing typed events *)

Section Templates.

Variable codec : Codec.
Variable unicode_isprintable : Z -> bool.
Variable strftime_localtime : str -> Q -> Result str.
Variable os_fault : str -> option Exn.
Variable strftime : str -> Z -> str.
Variable rid f : str.
Hypothesis file_writable : os_fault f = None.

Let self := fetcher_callbacks os_fault strftime rid.
Let line (w : World) (text : str) : World :=
  appended f [transcript_chunk strftime (clock w) text] w.

(** X26.  A Response that asks for no ack and holds one chat message
    leaves exactly one line in the session's transcript,
    [[弹幕] {user}: {content}], and nothing on the diagnostic channel; the
    socket is not used. *)
Theorem chat_message_is_transcribed
        (ws : WebSocket World) (message : bytes) package data response msg chat (w : World) :
  barrage_files w !! rid = Some f ->
  parse_PushFrame codec message = Ok package ->
  gzip_decompress codec (PushFrame.payload package) = Ok data ->
  parse_Response codec data = Ok response ->
  Response.need_ack response = false ->
  Response.messages_list response = [msg] ->
  Message.method msg = lit "WebcastChatMessage" ->
  parse_ChatMessage codec (Message.payload msg) = Ok chat ->
  _wsOnMessage codec unicode_isprintable strftime_localtime self ws message w
  = (Ok tt, line w (lit "[弹幕] " ++ User.nick_name (ChatMessage.user chat) ++ lit ": "
                    ++ ChatMessage.content chat)).
Proof.
  intros Hf Hframe Hgzip Hresp Hack Hlist Hm Hchat.
  assert (Hhandle : handle_message codec unicode_isprintable strftime_localtime self msg w
                    = (Ok tt, line w (lit "[弹幕] " ++ User.nick_name (ChatMessage.user chat)
                                      ++ lit ": " ++ ChatMessage.content chat))).
  { unfold handle_message. erewrite try_ok; [reflexivity|].
    unfold dispatch. rewrite Hm. decide_tests.
    change (on_raw_message self) with (@None (str -> bytes -> M World unit)).
    change (on_error self) with (Some (_handle_error_message os_fault strftime rid)).
    change (on_chat self) with (Some (_handle_chat_message os_fault strftime rid)).
    cbv zeta. cbn [is_set andb negb orb]. rewrite !ret_bind.
    unfold _parseChatMsg. rewrite Hchat.
    change (on_chat self) with (Some (_handle_chat_message os_fault strftime rid)).
    erewrite try_ok; [reflexivity|]. unfold lift_result at 1. unfold bind at 1.
    unfold call_if_set, _handle_chat_message. cbv zeta.
    erewrite try_ok; [reflexivity|]. now apply write_to_file_registered. }
  unfold _wsOnMessage. erewrite try_ok; [reflexivity|].
  change (on_raw_message self) with (@None (str -> bytes -> M World unit)).
  cbv beta iota. rewrite ret_bind, Hframe. unfold lift_result at 1. unfold bind at 1.
  rewrite Hgzip. unfold lift_result at 1. unfold bind at 1.
  rewrite Hresp. unfold lift_result at 1. unfold bind at 1.
  rewrite Hack, ret_bind, Hlist. cbn [for_each].
  rewrite (bind_ok _ _ _ _ _ Hhandle). reflexivity.
Qed.

(** X27.  Three handlers write by the value they are given: an emoji
    message shows its text, or [表情ID:{id}] when the text is empty; room
    statistics with an empty text write nothing; a control message with
    status 3 writes that the stream has ended, any other its status. *)
Theorem transcript_follows_the_value (w : World) :
  barrage_files w !! rid = Some f ->
  (forall msg : EmojiChatMessage.t,
      _handle_emoji_chat_message os_fault strftime rid msg w
      = (Ok tt, line w (lit "[表情] " ++ User.nick_name (EmojiChatMessage.user msg) ++ lit ": "
                        ++ (if truthy (EmojiChatMessage.default_content msg)
                            then EmojiChatMessage.default_content msg
                            else lit "表情ID:" ++ str_of_int (EmojiChatMessage.emoji_id msg)))))
  /\ (forall msg : RoomStatsMessage.t,
         _handle_room_stats_message os_fault strftime rid msg w
         = (Ok tt, match RoomStatsMessage.display_long msg with
                   | [] => w
                   | _ => line w (lit "[房间统计] " ++ RoomStatsMessage.display_long msg)
                   end))
  /\ (forall msg : ControlMessage.t,
         _handle_control_message os_fault strftime rid msg w
         = (Ok tt, line w (if ControlMessage.status msg =? 3
                           then lit "[控制] 直播间已结束"
                           else lit "[控制] 直播间状态: "
                                ++ str_of_int (ControlMessage.status msg)))).
Proof.
  intros Hf. split; [|split]; intros msg.
  - unfold _handle_emoji_chat_message. cbv zeta.
    erewrite try_ok; [reflexivity|]. now apply write_to_file_registered.
  - unfold _handle_room_stats_message. cbv zeta.
    destruct (RoomStatsMessage.display_long msg) as [|c s] eqn:E; cbn [truthy].
    + reflexivity.
    + erewrite try_ok; [reflexivity|]. now apply write_to_file_registered.
  - unfold _handle_control_message. cbv zeta.
    destruct (ControlMessage.status msg =? 3);
      (erewrite try_ok; [reflexivity|]); now apply write_to_file_registered.
Qed.

End Templates.

Section QuietCheck.

Context {W : Type}.
Variable codec : Codec.
Variable self : Callbacks W.

(** X28.  For a method outside the three commerce groups the check calls
    no handler: the world of the callbacks is as before, whatever the
    answer. *)
Theorem other_methods_are_checked_silently
        (current_time : Q) (method : str) (payload : bytes) (cache : gmap str Q) (w : W) :
  method ∉ commerce_methods ->
  snd (snd (_isDuplicateMessage codec self current_time method payload (cache, w))) = w.
Proof.
  intros Hm. apply (bool_decide_eq_false_2 _) in Hm.
  unfold _isDuplicateMessage. unfold modify at 1. unfold bind at 1. cbn [fst snd].
  unfold commerce_methods in Hm. unfold str_in. rewrite Hm.
  destruct (message_hash_of method payload) as [mh|e]; [|reflexivity].
  unfold lift_result at 1. unfold bind at 1. unfold gets at 1. unfold bind at 1.
  cbn [fst snd]. now destruct (purge current_time cache !! mh).
Qed.

End QuietCheck.

Lemma chat_message_is_transcribed_witness :
  barrage_files Sample.session !! lit "rec1" = Some (lit "out/barrage.txt")
  /\ Sample.os_fault (lit "out/barrage.txt") = None
  /\ _wsOnMessage Sample.codec Sample.unicode_isprintable Sample.strftime_localtime
       (fetcher_callbacks Sample.os_fault Sample.strftime (lit "rec1"))
       closed_socket frame_chat Sample.session
     = (Ok tt, appended (lit "out/barrage.txt") [lit "[12:34:56] [弹幕] Alice: hi" ++ nl]
                 Sample.session).
Proof.
  assert (Hf : barrage_files Sample.session !! lit "rec1" = Some (lit "out/barrage.txt"))
    by (vm_compute; reflexivity).
  split; [exact Hf|]. split; [reflexivity|].
  etransitivity.
  - eapply (chat_message_is_transcribed Sample.codec Sample.unicode_isprintable
              Sample.strftime_localtime Sample.os_fault Sample.strftime
              (lit "rec1") (lit "out/barrage.txt") eq_refl closed_socket frame_chat
              _ _ _ _ _ Sample.session Hf).
    + vm_compute. reflexivity.
    + vm_compute. reflexivity.
    + vm_compute. reflexivity.
    + vm_compute. reflexivity.
    + vm_compute. reflexivity.
    + vm_compute. reflexivity.
    + vm_compute. reflexivity.
  - vm_compute. reflexivity.
Defined.

Lemma transcript_follows_the_value_witness :
  barrage_files Sample.session !! lit "rec1" = Some (lit "out/barrage.txt")
  /\ Sample.os_fault (lit "out/barrage.txt") = None
  /\ _handle_room_stats_message Sample.os_fault Sample.strftime (lit "rec1")
       {| RoomStatsMessage.display_long := [] |} Sample.session
     = (Ok tt, Sample.session)
  /\ _handle_control_message Sample.os_fault Sample.strftime (lit "rec1")
       {| ControlMessage.status := 3 |} Sample.session
     = (Ok tt, appended (lit "out/barrage.txt") [lit "[12:34:56] [控制] 直播间已结束" ++ nl]
                 Sample.session).
Proof.
  assert (Hf : barrage_files Sample.session !! lit "rec1" = Some (lit "out/barrage.txt"))
    by (vm_compute; reflexivity).
  destruct (transcript_follows_the_value Sample.os_fault Sample.strftime
              (lit "rec1") (lit "out/barrage.txt") eq_refl Sample.session Hf)
    as (_ & Hstats & Hcontrol).
  split; [exact Hf|]. split; [reflexivity|]. split.
  - exact (Hstats {| RoomStatsMessage.display_long := [] |}).
  - rewrite (Hcontrol {| ControlMessage.status := 3 |}). vm_compute. reflexivity.
Defined.

Lemma other_methods_are_checked_silently_witness :
  (lit "WebcastChatMessage" ∉ commerce_methods)
  /\ snd (snd (_isDuplicateMessage Sample.codec recorder 5 (lit "WebcastChatMessage")
                 (list_byte_of_string "hello") (∅, []))) = [].
Proof.
  assert (H : lit "WebcastChatMessage" ∉ commerce_methods).
  { apply (bool_decide_eq_false_1 _). vm_compute. reflexivity. }
  split; [exact H|].
  exact (other_methods_are_checked_silently Sample.codec recorder 5
           (lit "WebcastChatMessage") (list_byte_of_string "hello") ∅ [] H).
Defined.
